(** * Agent Mojo front end: transport helpers and session pages

    A shallow embedding of the TypeScript sources

      - [frontend/src/lib/types.ts]   (the [RunEvent] union),
      - [frontend/src/lib/api.ts]     (the three bootstrap calls),
      - [frontend/src/lib/stream.ts]  (the SSE helper),
      - [frontend/src/lib/ws.ts]      (the WebSocket helper),
      - [frontend/src/components/LogStream.tsx],
      - [frontend/src/pages/P1Run.tsx] and [frontend/src/pages/P2Interactive.tsx],

    together with the parts of the platform these files call: JavaScript
    values and exceptions, numbers as binary64, [JSON.parse] /
    [JSON.stringify], [toUpperCase], [slice], the browser's [EventSource]
    and [WebSocket] objects and React's [useState] queue.

    Stateful code is written in a small state-and-exception monad: a handler
    may change the component and then throw, and what it changed stays
    changed, as in JavaScript. *)

From Stdlib Require Import String Ascii List ZArith Bool Lia DecimalString.
Import ListNotations.
Set Warnings "-register-all".
Local Open Scope list_scope.
Local Open Scope string_scope.

(* ================================================================== *)
(** * JavaScript values, exceptions and the effect monad                *)
(* ================================================================== *)
Module JS.

(** The exceptions the modelled code can meet: [new Error(msg)] of api.ts,
    the [SyntaxError] of [JSON.parse], the [TypeError] of a property read on
    [null] / [undefined] or of calling a non-function, and the
    [InvalidStateError] DOMException of [WebSocket.send]. *)
Inductive exn : Type :=
| Error (message : string)
| SyntaxError
| TypeError
| InvalidStateError.

Inductive result (A : Type) : Type :=
| Ok (a : A)
| Throw (e : exn).
Arguments Ok {A} a.
Arguments Throw {A} e.

Definition rbind {A B} (r : result A) (k : A -> result B) : result B :=
  match r with
  | Ok a => k a
  | Throw e => Throw e
  end.

(** Numbers.  A finite number is kept as the decimal [mant * 10^expo] that
    an engine prints for it, normalised so that [expo <= 0] and, when
    [expo < 0], [mant] is not a multiple of ten; [JSON.parse] rounds what
    it reads to binary64 first (module [Binary64] below).  The two zeros
    are one number here: the sources cannot tell them apart.  [NaN] does
    not come out of JSON and is left out. *)
Inductive number : Type :=
| mkNumber (mant expo : Z)
| Infinity (negative : bool).

Inductive value : Type :=
| Undefined
| Null
| Bool (b : bool)
| Number (n : number)
| Str (s : string)
| Arr (items : list value)
| Obj (props : list (string * value)).

Definition int (z : Z) : value := Number (mkNumber z 0).

(** ** Objects: own properties in insertion order *)

Fixpoint lookup (k : string) (ps : list (string * value)) : option value :=
  match ps with
  | [] => None
  | (k', v) :: ps' => if String.eqb k k' then Some v else lookup k ps'
  end.

(** [o[k] = v] for a key that is not an array index: an existing key
    keeps its place, a new key goes last. *)
Fixpoint assign (k : string) (v : value) (ps : list (string * value))
  : list (string * value) :=
  match ps with
  | [] => [(k, v)]
  | (k', v') :: ps' =>
      if String.eqb k k' then (k, v) :: ps' else (k', v') :: assign k v ps'
  end.

(** [v.k]: a [TypeError] on [null] and [undefined], [undefined] for a
    property that is not there.  Primitives have none of the data
    properties the sources read ([type], [role], [files], ...). *)
Definition get (v : value) (k : string) : result value :=
  match v with
  | Undefined | Null => Throw TypeError
  | Obj ps => match lookup k ps with Some x => Ok x | None => Ok Undefined end
  | _ => Ok Undefined
  end.

(** [a ?? b] *)
Definition nullish (a b : value) : value :=
  match a with
  | Undefined | Null => b
  | _ => a
  end.

(** [v === "s"] *)
Definition is_str (v : value) (s : string) : bool :=
  match v with
  | Str t => String.eqb t s
  | _ => false
  end.

Definition is_zero (n : number) : bool :=
  match n with
  | mkNumber mant _ => Z.eqb mant 0
  | Infinity _ => false
  end.

(** ToBoolean *)
Definition truthy (v : value) : bool :=
  match v with
  | Undefined | Null => false
  | Bool b => b
  | Number n => negb (is_zero n)
  | Str s => negb (String.eqb s "")
  | Arr _ | Obj _ => true
  end.

(** ** Printing numbers *)

Definition Z_to_string (z : Z) : string := NilZero.string_of_int (Z.to_int z).

Fixpoint zeros (n : nat) : string :=
  match n with
  | O => ""
  | S n' => String "0" (zeros n')
  end.

(** A positive integer without its trailing zeros, and how many they
    were. *)
Fixpoint drop_zeros (fuel : nat) (m dropped : Z) : Z * Z :=
  match fuel with
  | O => (m, dropped)
  | S fuel' =>
      if Z.eqb (m mod 10) 0 then drop_zeros fuel' (m / 10)%Z (dropped + 1)%Z
      else (m, dropped)
  end.

(** Number::toString.  With [digits] the [k] significant digits of the
    number and [n] the place of its decimal point (the number is
    0.digits * 10^n): the digits and zeros after them when [k <= n <= 21];
    the digits around a point when [0 < n <= 21]; a fraction with leading
    zeros when [-6 < n <= 0]; and exponent notation otherwise. *)
Definition number_to_string (x : number) : string :=
  match x with
  | Infinity negative => if negative then "-Infinity" else "Infinity"
  | mkNumber mant expo =>
      if Z.eqb mant 0 then "0"
      else
        let size := String.length (Z_to_string (Z.abs mant)) in
        let '(s, z) := drop_zeros size (Z.abs mant) 0 in
        let digits := Z_to_string s in
        let k := Z.of_nat (String.length digits) in
        let n := (k + z + expo)%Z in
        (if Z.ltb mant 0 then "-" else "")
          ++ (if Z.leb k n && Z.leb n 21 then digits ++ zeros (Z.to_nat (n - k))
              else if Z.ltb 0 n && Z.leb n 21 then
                substring 0 (Z.to_nat n) digits ++ "."
                  ++ substring (Z.to_nat n) (Z.to_nat (k - n)) digits
              else if Z.ltb (-6) n && Z.leb n 0 then
                "0." ++ zeros (Z.to_nat (- n)) ++ digits
              else
                let e := (n - 1)%Z in
                let exponent :=
                  (if Z.ltb e 0 then "-" else "+") ++ Z_to_string (Z.abs e) in
                if Z.eqb k 1 then digits ++ "e" ++ exponent
                else substring 0 1 digits ++ "."
                       ++ substring 1 (Z.to_nat (k - 1)) digits ++ "e" ++ exponent)
  end.

Fixpoint join (sep : string) (l : list string) : string :=
  match l with
  | [] => ""
  | [x] => x
  | x :: l' => x ++ sep ++ join sep l'
  end.

(** ToString, as a template literal applies it. *)
Fixpoint to_string (v : value) : string :=
  match v with
  | Undefined => "undefined"
  | Null => "null"
  | Bool true => "true"
  | Bool false => "false"
  | Number n => number_to_string n
  | Str s => s
  | Arr items =>
      join "," (map (fun x => match x with
                              | Undefined | Null => ""
                              | _ => to_string x
                              end) items)
  | Obj _ => "[object Object]"
  end.

(** ** String methods.  Strings are sequences of UTF-8 bytes. *)

Definition bytes (codes : list nat) : string :=
  fold_right (fun n r => String (ascii_of_nat n) r) "" codes.

(** WhiteSpace and LineTerminator code points, which [trim] strips:
    U+0009..000D, U+0020, U+00A0, U+1680, U+2000..200A, U+2028, U+2029,
    U+202F, U+205F, U+3000 and U+FEFF. *)
Definition spaces : list string :=
  map bytes
    [[9]; [10]; [11]; [12]; [13]; [32]; [194; 160]; [225; 154; 128];
     [226; 128; 128]; [226; 128; 129]; [226; 128; 130]; [226; 128; 131];
     [226; 128; 132]; [226; 128; 133]; [226; 128; 134]; [226; 128; 135];
     [226; 128; 136]; [226; 128; 137]; [226; 128; 138]; [226; 128; 168];
     [226; 128; 169]; [226; 128; 175]; [226; 129; 159]; [227; 128; 128];
     [239; 187; 191]].

Fixpoint drop_prefix (p s : string) : option string :=
  match p, s with
  | EmptyString, _ => Some s
  | String a p', String b s' => if Ascii.eqb a b then drop_prefix p' s' else None
  | String _ _, EmptyString => None
  end.

Fixpoint drop_any (ps : list string) (s : string) : option string :=
  match ps with
  | [] => None
  | p :: ps' =>
      match drop_prefix p s with
      | Some r => Some r
      | None => drop_any ps' s
      end
  end.

Fixpoint drop_all (fuel : nat) (ps : list string) (s : string) : string :=
  match fuel with
  | O => s
  | S fuel' =>
      match drop_any ps s with
      | Some r => drop_all fuel' ps r
      | None => s
      end
  end.

Fixpoint rev_string (s acc : string) : string :=
  match s with
  | EmptyString => acc
  | String c r => rev_string r (String c acc)
  end.

Definition reverse (s : string) : string := rev_string s "".

(** [s.trim()] *)
Definition trim (s : string) : string :=
  let front := drop_all (String.length s) spaces s in
  reverse (drop_all (String.length front) (map reverse spaces) (reverse front)).


(** ** Code in the [result] monad *)

Fixpoint traverse {A B} (f : A -> result B) (l : list A) : result (list B) :=
  match l with
  | [] => Ok []
  | x :: l' =>
      rbind (f x) (fun y => rbind (traverse f l') (fun ys => Ok (y :: ys)))
  end.

(** [n] calls of [f], one after the other, stopping at the first throw. *)
Fixpoint times {A} (n : nat) (f : A -> result A) (a : A) : result A :=
  match n with
  | O => Ok a
  | S n' => rbind (f a) (times n' f)
  end.

(** ** The effect monad: a world [W] threaded through code that may throw *)

Definition M (W A : Type) : Type := W -> result A * W.

Definition ret {W A} (a : A) : M W A := fun w => (Ok a, w).

Definition bind {W A B} (m : M W A) (k : A -> M W B) : M W B :=
  fun w => match m w with
           | (Ok a, w') => k a w'
           | (Throw e, w') => (Throw e, w')
           end.

Definition throw {W A} (e : exn) : M W A := fun w => (Throw e, w).

Definition lift {W A} (r : result A) : M W A := fun w => (r, w).

Definition gets {W A} (f : W -> A) : M W A := fun w => (Ok (f w), w).

Definition modify {W} (f : W -> W) : M W unit := fun w => (Ok tt, f w).

(** [try { body } catch { handler }] *)
Definition try_catch {W A} (body : M W A) (handler : exn -> M W A) : M W A :=
  fun w => match body w with
           | (Ok a, w') => (Ok a, w')
           | (Throw e, w') => handler e w'
           end.

End JS.

Declare Scope js_scope.
Delimit Scope js_scope with js.
Notation "x <- m ;; k" := (JS.bind m (fun x => k))
  (at level 61, m at next level, right associativity) : js_scope.
Notation "m ;; k" := (JS.bind m (fun _ => k))
  (at level 61, right associativity) : js_scope.
Notation "x <-r m ;; k" := (JS.rbind m (fun x => k))
  (at level 61, m at next level, right associativity) : js_scope.

(* ================================================================== *)
(** * Binary64: the numbers of the engine                               *)
(* ================================================================== *)
Module Binary64.
Import JS.
Local Open Scope Z_scope.

(** [p/q * 2^-b], as a fraction. *)
Definition scaled (p q b : Z) : Z * Z :=
  if Z.leb 0 b then (p, q * 2 ^ b) else (p * 2 ^ (- b), q).

(** The integer nearest to [p/q], the even one of two. *)
Definition round_half_even (p q : Z) : Z :=
  let d := p / q in
  let r := 2 * (p mod q) in
  if Z.ltb r q then d
  else if Z.ltb q r then d + 1
  else if Z.even d then d else d + 1.

(** A positive binary64 is [M * 2^b] with [0 < M < 2^53] and
    [-1074 <= b <= 971], and [2^52 <= M] unless [b = -1074]. *)
Inductive rounded : Type :=
| Zero
| Double (M b : Z)
| Overflow.

(** Round to nearest, ties to even, of [p/q] for positive [p] and [q]. *)
Definition nearest (p q : Z) : rounded :=
  let b1 := Z.log2 p - Z.log2 q - 52 in
  let '(n1, d1) := scaled p q b1 in
  let b2 := if Z.leb (2 ^ 52 * d1) n1 then b1 else b1 - 1 in
  let b := Z.max b2 (-1074) in
  let '(n, d) := scaled p q b in
  let M := round_half_even n d in
  if Z.eqb M 0 then Zero
  else
    let '(M', b') := if Z.eqb M (2 ^ 53) then (2 ^ 52, b + 1) else (M, b) in
    if Z.ltb 971 b' then Overflow else Double M' b'.

Definition digits_of (x : Z) : Z := Z.of_nat (String.length (Z_to_string x)).

(** [c * 10^t] against [n/q]. *)
Definition compare_decimal (c t n q : Z) : comparison :=
  if Z.leb 0 t then Z.compare (c * 10 ^ t * q) n
  else Z.compare (c * q) (n * 10 ^ (- t)).

(** The decimal [c * 10^t] is read back as the number: it lies between
    the middles [lo/q] and [hi/q] to the neighbours of the number, the
    middles included when the significand is even. *)
Definition reads_as (closed : bool) (lo hi q c t : Z) : bool :=
  match compare_decimal c t lo q with
  | Gt => true
  | Eq => closed
  | Lt => false
  end
  && match compare_decimal c t hi q with
     | Lt => true
     | Eq => closed
     | Gt => false
     end.

(** The digits an engine prints: the fewest that are read back as the
    number and, of those, the nearest to it.  [v/q] is the number and [L]
    the place of its first digit; [k] counts the digits tried. *)
Fixpoint fewest (fuel : nat) (k : Z) (closed : bool) (lo v hi q L : Z) : Z * Z :=
  let t := L - (k - 1) in
  let s := if Z.leb 0 t then v / (q * 10 ^ t) else (v * 10 ^ (- t)) / q in
  match fuel with
  | O => (s, t)
  | S fuel' =>
      let below := reads_as closed lo hi q s t in
      let above := reads_as closed lo hi q (s + 1) t in
      if below && above then
        match compare_decimal (2 * s + 1) t (2 * v) q with
        | Gt => (s, t)
        | Lt => (s + 1, t)
        | Eq => if Z.even s then (s, t) else (s + 1, t)
        end
      else if below then (s, t)
      else if above then (s + 1, t)
      else fewest fuel' (k + 1) closed lo v hi q L
  end.

Definition shortest (M b : Z) : Z * Z :=
  let u := b - 2 in
  let q := if Z.leb 0 u then 1 else 2 ^ (- u) in
  let up (n : Z) := if Z.leb 0 u then n * 2 ^ u else n in
  let v := up (4 * M) in
  let lo := up (if Z.eqb M (2 ^ 52) && Z.ltb (-1074) b
                then 4 * M - 1 else 4 * M - 2) in
  let hi := up (4 * M + 2) in
  let L0 := if Z.leb q v then digits_of (v / q) - 1 else - digits_of (q / v) in
  let L := match compare_decimal 1 (L0 + 1) v q with
           | Gt => L0
           | _ => L0 + 1
           end in
  fewest 17 1 (Z.even M) lo v hi q L.

(** The number that the decimal [m * 10^e] is read as, for a positive
    [m]: zero, the digits of a binary64, or infinity.  A decimal below
    10^-330 is read as zero and one from 10^310 up as infinity without
    further ado. *)
Definition read (m e : Z) : rounded * (Z * Z) :=
  let size := digits_of m + e in
  if Z.ltb size (-330) then (Zero, (0, 0))
  else if Z.ltb 310 size then (Overflow, (0, 0))
  else
    let p := if Z.leb 0 e then m * 10 ^ e else m in
    let q := if Z.leb 0 e then 1 else 10 ^ (- e) in
    match nearest p q with
    | Double M b => (Double M b, shortest M b)
    | r => (r, (0, 0))
    end.

End Binary64.

(* ================================================================== *)
(** * JSON.parse and JSON.stringify                                     *)
(* ================================================================== *)
Module JSON.
Import JS.
Local Open Scope char_scope.

Definition dquote : ascii := "034".
Definition backslash : ascii := "092".

(** Test data is written with apostrophes where the wire has double
    quotes; [wire] puts the double quotes back. *)
Fixpoint wire (s : string) : string :=
  match s with
  | EmptyString => EmptyString
  | String c r => String (if Ascii.eqb c "'" then dquote else c) (wire r)
  end.

Definition is_ws (c : ascii) : bool :=
  Ascii.eqb c " " || Ascii.eqb c "009" || Ascii.eqb c "010" || Ascii.eqb c "013".

Fixpoint skip_ws (s : string) : string :=
  match s with
  | String c r => if is_ws c then skip_ws r else s
  | EmptyString => s
  end.

Definition digit_of (c : ascii) : option Z :=
  let n := Z.of_nat (nat_of_ascii c) in
  if Z.leb 48 n && Z.leb n 57 then Some (n - 48)%Z else None.

Definition hex_of (c : ascii) : option N :=
  let n := N_of_ascii c in
  if N.leb 48 n && N.leb n 57 then Some (n - 48)%N
  else if N.leb 65 n && N.leb n 70 then Some (n - 55)%N
  else if N.leb 97 n && N.leb n 102 then Some (n - 87)%N
  else None.

Fixpoint strip_prefix (p s : string) : option string :=
  match p, s with
  | EmptyString, _ => Some s
  | String a p', String b s' => if Ascii.eqb a b then strip_prefix p' s' else None
  | String _ _, EmptyString => None
  end.

(** *** Strings *)

Definition byte (n : N) : ascii := ascii_of_N n.

(** UTF-8 for a code point (a lone surrogate is encoded like any other
    code point of its range). *)
Definition utf8 (cp : N) : string :=
  if N.ltb cp 128 then String (byte cp) ""
  else if N.ltb cp 2048 then
    String (byte (192 + cp / 64)) (String (byte (128 + cp mod 64)) "")
  else if N.ltb cp 65536 then
    String (byte (224 + cp / 4096))
      (String (byte (128 + (cp / 64) mod 64)) (String (byte (128 + cp mod 64)) ""))
  else
    String (byte (240 + cp / 262144))
      (String (byte (128 + (cp / 4096) mod 64))
         (String (byte (128 + (cp / 64) mod 64)) (String (byte (128 + cp mod 64)) ""))).

Definition hex4 (a b c d : ascii) : option N :=
  match hex_of a, hex_of b, hex_of c, hex_of d with
  | Some x, Some y, Some z, Some w => Some (((x * 16 + y) * 16 + z) * 16 + w)%N
  | _, _, _, _ => None
  end.

Definition simple_escape (c : ascii) : option ascii :=
  if Ascii.eqb c dquote then Some dquote
  else if Ascii.eqb c backslash then Some backslash
  else if Ascii.eqb c "/" then Some "/"
  else if Ascii.eqb c "b" then Some "008"
  else if Ascii.eqb c "f" then Some "012"
  else if Ascii.eqb c "n" then Some "010"
  else if Ascii.eqb c "r" then Some "013"
  else if Ascii.eqb c "t" then Some "009"
  else None.

Definition is_high (u : N) : bool := N.leb 55296 u && N.leb u 56319.
Definition is_low (u : N) : bool := N.leb 56320 u && N.leb u 57343.

(** The characters after an opening quote, up to the closing one. *)
Fixpoint parse_chars (s : string) : option (string * string) :=
  match s with
  | EmptyString => None
  | String c r =>
      if Ascii.eqb c dquote then Some (EmptyString, r)
      else if Ascii.eqb c backslash then
        match r with
        | String "u" (String h1 (String h2 (String h3 (String h4 r1)))) =>
            match hex4 h1 h2 h3 h4 with
            | None => None
            | Some u =>
                let single :=
                  match parse_chars r1 with
                  | Some (t, rest) => Some (utf8 u ++ t, rest)%string
                  | None => None
                  end in
                match r1 with
                | String "092" (String "u"
                    (String l1 (String l2 (String l3 (String l4 r2))))) =>
                    match hex4 l1 l2 l3 l4 with
                    | Some lo =>
                        if is_high u && is_low lo then
                          match parse_chars r2 with
                          | Some (t, rest) =>
                              Some (utf8 (65536 + (u - 55296) * 1024 + (lo - 56320))
                                      ++ t, rest)%string
                          | None => None
                          end
                        else single
                    | None => single
                    end
                | _ => single
                end
            end
        | String e r1 =>
            match simple_escape e with
            | Some x =>
                match parse_chars r1 with
                | Some (t, rest) => Some (String x t, rest)
                | None => None
                end
            | None => None
            end
        | EmptyString => None
        end
      else if N.ltb (N_of_ascii c) 32 then None
      else
        match parse_chars r with
        | Some (t, rest) => Some (String c t, rest)
        | None => None
        end
  end.

(** *** Numbers *)

Fixpoint take_digits (s : string) (acc : Z) (n : nat) : Z * nat * string :=
  match s with
  | String c r =>
      match digit_of c with
      | Some d => take_digits r (acc * 10 + d)%Z (S n)
      | None => (acc, n, s)
      end
  | EmptyString => (acc, n, s)
  end.

Fixpoint strip_zeros (fuel : nat) (m e : Z) : number :=
  match fuel with
  | O => mkNumber m e
  | S fuel' =>
      if Z.ltb e 0 && Z.eqb (m mod 10) 0
      then strip_zeros fuel' (m / 10)%Z (e + 1)%Z
      else mkNumber m e
  end.

Definition normalise (m e : Z) : number :=
  if Z.eqb m 0 then mkNumber 0 0
  else if Z.leb 0 e then mkNumber (m * 10 ^ e) 0
  else strip_zeros (Z.to_nat (- e)) m e.

(** The number that the literal [m * 10^e] denotes, [m >= 0]. *)
Definition literal (negative : bool) (m e : Z) : number :=
  if Z.eqb m 0 then mkNumber 0 0
  else
    match Binary64.read m e with
    | (Binary64.Zero, _) => mkNumber 0 0
    | (Binary64.Overflow, _) => Infinity negative
    | (Binary64.Double _ _, (s, t)) =>
        normalise (if negative then (- s)%Z else s) t
    end.

(** int: [0] or a non-zero digit followed by digits. *)
Definition parse_int (s : string) : option (Z * string) :=
  match s with
  | String "0" r => Some (0%Z, r)
  | _ =>
      match take_digits s 0 0 with
      | (_, O, _) => None
      | (z, _, r) => Some (z, r)
      end
  end.

Definition parse_frac (s : string) : option (Z * nat * string) :=
  match s with
  | String "." r =>
      match take_digits r 0 0 with
      | (_, O, _) => None
      | res => Some res
      end
  | _ => Some (0%Z, O, s)
  end.

Definition parse_exp (s : string) : option (Z * string) :=
  let digits (neg : bool) (r : string) :=
    match take_digits r 0 0 with
    | (_, O, _) => None
    | (z, _, r') => Some (if neg then (- z)%Z else z, r')
    end in
  match s with
  | String c r =>
      if Ascii.eqb c "e" || Ascii.eqb c "E" then
        match r with
        | String "+" r' => digits false r'
        | String "-" r' => digits true r'
        | _ => digits false r
        end
      else Some (0%Z, s)
  | EmptyString => Some (0%Z, s)
  end.

Definition parse_number (s : string) : option (number * string) :=
  let '(neg, s1) := match s with
                    | String "-" r => (true, r)
                    | _ => (false, s)
                    end in
  match parse_int s1 with
  | None => None
  | Some (i, s2) =>
      match parse_frac s2 with
      | None => None
      | Some (f, k, s3) =>
          match parse_exp s3 with
          | None => None
          | Some (e, s4) =>
              let m := (i * 10 ^ Z.of_nat k + f)%Z in
              Some (literal neg m (e - Z.of_nat k), s4)
          end
      end
  end.

(** *** Values *)

(** A property key that is an array index: the decimal, without leading
    zeros, of an integer below 2^32 - 1. *)
Definition index_of (k : string) : option N :=
  match k with
  | EmptyString => None
  | String "0" EmptyString => Some 0%N
  | String c _ =>
      if Ascii.eqb c "0" then None
      else
        match take_digits k 0 0 with
        | (z, _, EmptyString) =>
            if Z.ltb z 4294967295 then Some (Z.to_N z) else None
        | _ => None
        end
  end.

Definition is_index (k : string) : bool :=
  match index_of k with
  | Some _ => true
  | None => false
  end.

Fixpoint place (n : N) (kv : string * value)
  (l : list (N * (string * value))) : list (N * (string * value)) :=
  match l with
  | [] => [(n, kv)]
  | (m, kv') :: l' =>
      if N.ltb n m then (n, kv) :: l else (m, kv') :: place n kv l'
  end.

(** The order in which an object lists its own properties: those whose
    key is an array index first, by ascending index, then the others as
    they were created. *)
Definition own_keys_order (ps : list (string * value)) : list (string * value) :=
  (map snd
     (fold_left (fun acc kv => match index_of (fst kv) with
                               | Some n => place n kv acc
                               | None => acc
                               end) ps [])
   ++ filter (fun kv => negb (is_index (fst kv))) ps)%list.

(** The members of an object literal are assigned one after the other: a
    repeated key keeps its first place and takes its last value. *)
Definition build (members : list (string * value)) : list (string * value) :=
  own_keys_order (fold_left (fun o kv => assign (fst kv) (snd kv) o) members []).

Fixpoint parse_value (fuel : nat) (s : string) : option (value * string) :=
  match fuel with
  | O => None
  | S fuel' =>
      match skip_ws s with
      | EmptyString => None
      | String c r =>
          if Ascii.eqb c "{" then
            match skip_ws r with
            | String "}" r' => Some (Obj [], r')
            | _ =>
                match parse_members fuel' r with
                | Some (ps, r') => Some (Obj (build ps), r')
                | None => None
                end
            end
          else if Ascii.eqb c "[" then
            match skip_ws r with
            | String "]" r' => Some (Arr [], r')
            | _ =>
                match parse_elements fuel' r with
                | Some (xs, r') => Some (Arr xs, r')
                | None => None
                end
            end
          else if Ascii.eqb c dquote then
            match parse_chars r with
            | Some (t, r') => Some (Str t, r')
            | None => None
            end
          else if Ascii.eqb c "t" then
            option_map (pair (Bool true)) (strip_prefix "rue" r)
          else if Ascii.eqb c "f" then
            option_map (pair (Bool false)) (strip_prefix "alse" r)
          else if Ascii.eqb c "n" then
            option_map (pair Null) (strip_prefix "ull" r)
          else
            match parse_number (String c r) with
            | Some (n, r') => Some (Number n, r')
            | None => None
            end
      end
  end
with parse_elements (fuel : nat) (s : string) : option (list value * string) :=
  match fuel with
  | O => None
  | S fuel' =>
      match parse_value fuel' s with
      | None => None
      | Some (v, r) =>
          match skip_ws r with
          | String "," r' =>
              match parse_elements fuel' r' with
              | Some (vs, r'') => Some (v :: vs, r'')
              | None => None
              end
          | String "]" r' => Some ([v], r')
          | _ => None
          end
      end
  end
with parse_members (fuel : nat) (s : string)
  : option (list (string * value) * string) :=
  match fuel with
  | O => None
  | S fuel' =>
      match skip_ws s with
      | String "034" r =>
          match parse_chars r with
          | None => None
          | Some (k, r1) =>
              match skip_ws r1 with
              | String ":" r2 =>
                  match parse_value fuel' r2 with
                  | None => None
                  | Some (v, r3) =>
                      match skip_ws r3 with
                      | String "," r4 =>
                          match parse_members fuel' r4 with
                          | Some (ps, r5) => Some ((k, v) :: ps, r5)
                          | None => None
                          end
                      | String "}" r4 => Some ([(k, v)], r4)
                      | _ => None
                      end
                  end
              | _ => None
              end
          end
      | _ => None
      end
  end.

(** [JSON.parse(text)]: one value, then nothing but white space.  The
    fuel is twice the length of the text and two more: [parse_value] reads
    a character before it descends, and [parse_elements] / [parse_members]
    read one between two descents. *)
Definition parse (text : string) : result value :=
  match parse_value (2 * String.length text + 2) text with
  | Some (v, rest) =>
      match skip_ws rest with
      | EmptyString => Ok v
      | String _ _ => Throw SyntaxError
      end
  | None => Throw SyntaxError
  end.

(** *** JSON.stringify *)

Definition hex_digit (n : N) : ascii :=
  if N.ltb n 10 then ascii_of_N (48 + n) else ascii_of_N (87 + n).

Definition escape_char (c : ascii) : string :=
  let esc (x : ascii) := String backslash (String x "") in
  if Ascii.eqb c dquote then esc dquote
  else if Ascii.eqb c backslash then esc backslash
  else if Ascii.eqb c "008" then esc "b"
  else if Ascii.eqb c "012" then esc "f"
  else if Ascii.eqb c "010" then esc "n"
  else if Ascii.eqb c "013" then esc "r"
  else if Ascii.eqb c "009" then esc "t"
  else if N.ltb (N_of_ascii c) 32 then
    String backslash
      (String "u" (String "0" (String "0"
         (String (hex_digit (N_of_ascii c / 16))
            (String (hex_digit (N_of_ascii c mod 16)) "")))))
  else String c "".

(** The characters of a string between its quotes, byte by byte.  (A lone
    surrogate, which [JSON.stringify] writes as a [\u] escape, is written
    as its three bytes.) *)
Fixpoint escape (s : string) : string :=
  match s with
  | EmptyString => EmptyString
  | String c r => (escape_char c ++ escape r)%string
  end.

Definition quote (s : string) : string :=
  (String dquote (escape s) ++ String dquote "")%string.

(** [None] is JavaScript's [undefined]: what [JSON.stringify(undefined)]
    returns.  An [undefined] property is left out, an [undefined] array
    item is written [null], and so is a number that is not finite. *)
Fixpoint stringify (v : value) : option string :=
  match v with
  | Undefined => None
  | Null => Some "null"%string
  | Bool true => Some "true"%string
  | Bool false => Some "false"%string
  | Number (Infinity _) => Some "null"%string
  | Number n => Some (number_to_string n)
  | Str s => Some (quote s)
  | Arr items =>
      Some ("[" ++ join "," (map (fun x => match stringify x with
                                           | Some t => t
                                           | None => "null"
                                           end) items) ++ "]")%string
  | Obj props =>
      Some ("{" ++ join ","
                     (flat_map (fun kv => match stringify (snd kv) with
                                          | Some t => [(quote (fst kv) ++ ":" ++ t)%string]
                                          | None => []
                                          end) props) ++ "}")%string
  end.

End JSON.


(* ================================================================== *)
(** * Upper case                                                        *)
(* ================================================================== *)
Module Unicode.
Import JS.

(** The upper-case mapping of Unicode 14.  A range [(first, last, step,
    shift)] maps every [step]-th code point from [first] to [last] to the
    code point [shift] further on. *)
Definition upper_ranges : list (Z * Z * Z * Z) :=
  [(97, 122, 1, (-32)); (181, 181, 1, 743); (224, 246, 1, (-32));
   (248, 254, 1, (-32)); (255, 255, 1, 121); (257, 303, 2, (-1));
   (305, 305, 1, (-232)); (307, 311, 2, (-1)); (314, 328, 2, (-1));
   (331, 375, 2, (-1)); (378, 382, 2, (-1)); (383, 383, 1, (-300));
   (384, 384, 1, 195); (387, 389, 2, (-1)); (392, 392, 1, (-1));
   (396, 396, 1, (-1)); (402, 402, 1, (-1)); (405, 405, 1, 97);
   (409, 409, 1, (-1)); (410, 410, 1, 163); (414, 414, 1, 130);
   (417, 421, 2, (-1)); (424, 424, 1, (-1)); (429, 429, 1, (-1));
   (432, 432, 1, (-1)); (436, 438, 2, (-1)); (441, 441, 1, (-1));
   (445, 445, 1, (-1)); (447, 447, 1, 56); (453, 453, 1, (-1));
   (454, 454, 1, (-2)); (456, 456, 1, (-1)); (457, 457, 1, (-2));
   (459, 459, 1, (-1)); (460, 460, 1, (-2)); (462, 476, 2, (-1));
   (477, 477, 1, (-79)); (479, 495, 2, (-1)); (498, 498, 1, (-1));
   (499, 499, 1, (-2)); (501, 501, 1, (-1)); (505, 543, 2, (-1));
   (547, 563, 2, (-1)); (572, 572, 1, (-1)); (575, 576, 1, 10815);
   (578, 578, 1, (-1)); (583, 591, 2, (-1)); (592, 592, 1, 10783);
   (593, 593, 1, 10780); (594, 594, 1, 10782); (595, 595, 1, (-210));
   (596, 596, 1, (-206)); (598, 599, 1, (-205)); (601, 601, 1, (-202));
   (603, 603, 1, (-203)); (604, 604, 1, 42319); (608, 608, 1, (-205));
   (609, 609, 1, 42315); (611, 611, 1, (-207)); (613, 613, 1, 42280);
   (614, 614, 1, 42308); (616, 616, 1, (-209)); (617, 617, 1, (-211));
   (618, 618, 1, 42308); (619, 619, 1, 10743); (620, 620, 1, 42305);
   (623, 623, 1, (-211)); (625, 625, 1, 10749); (626, 626, 1, (-213));
   (629, 629, 1, (-214)); (637, 637, 1, 10727); (640, 640, 1, (-218));
   (642, 642, 1, 42307); (643, 643, 1, (-218)); (647, 647, 1, 42282);
   (648, 648, 1, (-218)); (649, 649, 1, (-69)); (650, 651, 1, (-217));
   (652, 652, 1, (-71)); (658, 658, 1, (-219)); (669, 669, 1, 42261);
   (670, 670, 1, 42258); (837, 837, 1, 84); (881, 883, 2, (-1));
   (887, 887, 1, (-1)); (891, 893, 1, 130); (940, 940, 1, (-38));
   (941, 943, 1, (-37)); (945, 961, 1, (-32)); (962, 962, 1, (-31));
   (963, 971, 1, (-32)); (972, 972, 1, (-64)); (973, 974, 1, (-63));
   (976, 976, 1, (-62)); (977, 977, 1, (-57)); (981, 981, 1, (-47));
   (982, 982, 1, (-54)); (983, 983, 1, (-8)); (985, 1007, 2, (-1));
   (1008, 1008, 1, (-86)); (1009, 1009, 1, (-80)); (1010, 1010, 1, 7);
   (1011, 1011, 1, (-116)); (1013, 1013, 1, (-96)); (1016, 1016, 1, (-1));
   (1019, 1019, 1, (-1)); (1072, 1103, 1, (-32)); (1104, 1119, 1, (-80));
   (1121, 1153, 2, (-1)); (1163, 1215, 2, (-1)); (1218, 1230, 2, (-1));
   (1231, 1231, 1, (-15)); (1233, 1327, 2, (-1)); (1377, 1414, 1, (-48));
   (4304, 4346, 1, 3008); (4349, 4351, 1, 3008); (5112, 5117, 1, (-8));
   (7296, 7296, 1, (-6254)); (7297, 7297, 1, (-6253));
   (7298, 7298, 1, (-6244)); (7299, 7300, 1, (-6242));
   (7301, 7301, 1, (-6243)); (7302, 7302, 1, (-6236));
   (7303, 7303, 1, (-6181)); (7304, 7304, 1, 35266); (7545, 7545, 1, 35332);
   (7549, 7549, 1, 3814); (7566, 7566, 1, 35384); (7681, 7829, 2, (-1));
   (7835, 7835, 1, (-59)); (7841, 7935, 2, (-1)); (7936, 7943, 1, 8);
   (7952, 7957, 1, 8); (7968, 7975, 1, 8); (7984, 7991, 1, 8);
   (8000, 8005, 1, 8); (8017, 8023, 2, 8); (8032, 8039, 1, 8);
   (8048, 8049, 1, 74); (8050, 8053, 1, 86); (8054, 8055, 1, 100);
   (8056, 8057, 1, 128); (8058, 8059, 1, 112); (8060, 8061, 1, 126);
   (8112, 8113, 1, 8); (8126, 8126, 1, (-7205)); (8144, 8145, 1, 8);
   (8160, 8161, 1, 8); (8165, 8165, 1, 7); (8526, 8526, 1, (-28));
   (8560, 8575, 1, (-16)); (8580, 8580, 1, (-1)); (9424, 9449, 1, (-26));
   (11312, 11359, 1, (-48)); (11361, 11361, 1, (-1));
   (11365, 11365, 1, (-10795)); (11366, 11366, 1, (-10792));
   (11368, 11372, 2, (-1)); (11379, 11379, 1, (-1)); (11382, 11382, 1, (-1));
   (11393, 11491, 2, (-1)); (11500, 11502, 2, (-1)); (11507, 11507, 1, (-1));
   (11520, 11557, 1, (-7264)); (11559, 11559, 1, (-7264));
   (11565, 11565, 1, (-7264)); (42561, 42605, 2, (-1));
   (42625, 42651, 2, (-1)); (42787, 42799, 2, (-1)); (42803, 42863, 2, (-1));
   (42874, 42876, 2, (-1)); (42879, 42887, 2, (-1)); (42892, 42892, 1, (-1));
   (42897, 42899, 2, (-1)); (42900, 42900, 1, 48); (42903, 42921, 2, (-1));
   (42933, 42947, 2, (-1)); (42952, 42954, 2, (-1)); (42961, 42961, 1, (-1));
   (42967, 42969, 2, (-1)); (42998, 42998, 1, (-1));
   (43859, 43859, 1, (-928)); (43888, 43967, 1, (-38864));
   (65345, 65370, 1, (-32)); (66600, 66639, 1, (-40));
   (66776, 66811, 1, (-40)); (66967, 67003, 2, (-39));
   (66968, 66976, 2, (-39)); (66980, 66992, 2, (-39));
   (66996, 67000, 2, (-39)); (67004, 67004, 1, (-39));
   (68800, 68850, 1, (-64)); (71872, 71903, 1, (-32));
   (93792, 93823, 1, (-32)); (125218, 125251, 1, (-34))]%Z.

(** The code points whose upper case is more than one code point. *)
Definition upper_special : list (N * list N) :=
  [(223, [83; 83]); (329, [700; 78]); (496, [74; 780]);
   (912, [921; 776; 769]); (944, [933; 776; 769]); (1415, [1333; 1362]);
   (7830, [72; 817]); (7831, [84; 776]); (7832, [87; 778]); (7833, [89; 778]);
   (7834, [65; 702]); (8016, [933; 787]); (8018, [933; 787; 768]);
   (8020, [933; 787; 769]); (8022, [933; 787; 834]); (8064, [7944; 921]);
   (8065, [7945; 921]); (8066, [7946; 921]); (8067, [7947; 921]);
   (8068, [7948; 921]); (8069, [7949; 921]); (8070, [7950; 921]);
   (8071, [7951; 921]); (8072, [7944; 921]); (8073, [7945; 921]);
   (8074, [7946; 921]); (8075, [7947; 921]); (8076, [7948; 921]);
   (8077, [7949; 921]); (8078, [7950; 921]); (8079, [7951; 921]);
   (8080, [7976; 921]); (8081, [7977; 921]); (8082, [7978; 921]);
   (8083, [7979; 921]); (8084, [7980; 921]); (8085, [7981; 921]);
   (8086, [7982; 921]); (8087, [7983; 921]); (8088, [7976; 921]);
   (8089, [7977; 921]); (8090, [7978; 921]); (8091, [7979; 921]);
   (8092, [7980; 921]); (8093, [7981; 921]); (8094, [7982; 921]);
   (8095, [7983; 921]); (8096, [8040; 921]); (8097, [8041; 921]);
   (8098, [8042; 921]); (8099, [8043; 921]); (8100, [8044; 921]);
   (8101, [8045; 921]); (8102, [8046; 921]); (8103, [8047; 921]);
   (8104, [8040; 921]); (8105, [8041; 921]); (8106, [8042; 921]);
   (8107, [8043; 921]); (8108, [8044; 921]); (8109, [8045; 921]);
   (8110, [8046; 921]); (8111, [8047; 921]); (8114, [8122; 921]);
   (8115, [913; 921]); (8116, [902; 921]); (8118, [913; 834]);
   (8119, [913; 834; 921]); (8124, [913; 921]); (8130, [8138; 921]);
   (8131, [919; 921]); (8132, [905; 921]); (8134, [919; 834]);
   (8135, [919; 834; 921]); (8140, [919; 921]); (8146, [921; 776; 768]);
   (8147, [921; 776; 769]); (8150, [921; 834]); (8151, [921; 776; 834]);
   (8162, [933; 776; 768]); (8163, [933; 776; 769]); (8164, [929; 787]);
   (8166, [933; 834]); (8167, [933; 776; 834]); (8178, [8186; 921]);
   (8179, [937; 921]); (8180, [911; 921]); (8182, [937; 834]);
   (8183, [937; 834; 921]); (8188, [937; 921]); (64256, [70; 70]);
   (64257, [70; 73]); (64258, [70; 76]); (64259, [70; 70; 73]);
   (64260, [70; 70; 76]); (64261, [83; 84]); (64262, [83; 84]);
   (64275, [1348; 1350]); (64276, [1348; 1333]); (64277, [1348; 1339]);
   (64278, [1358; 1350]); (64279, [1348; 1341])]%N.

Fixpoint in_ranges (cp : Z) (l : list (Z * Z * Z * Z)) : option Z :=
  match l with
  | [] => None
  | (first, last, step, shift) :: l' =>
      if Z.leb first cp && Z.leb cp last && Z.eqb ((cp - first) mod step) 0
      then Some (cp + shift)%Z
      else in_ranges cp l'
  end.

Fixpoint in_special (cp : N) (l : list (N * list N)) : option (list N) :=
  match l with
  | [] => None
  | (c, to) :: l' => if N.eqb c cp then Some to else in_special cp l'
  end.

(** The upper case of a code point. *)
Definition upper_of (cp : N) : string :=
  match in_special cp upper_special with
  | Some to => fold_right (fun c r => JSON.utf8 c ++ r) "" to
  | None =>
      match in_ranges (Z.of_N cp) upper_ranges with
      | Some up => JSON.utf8 (Z.to_N up)
      | None => JSON.utf8 cp
      end
  end.

(** The upper case of a string, code point by code point; a byte that
    starts no character is left as it is. *)
Fixpoint upper (s : string) {struct s} : string :=
  match s with
  | EmptyString => EmptyString
  | String a r =>
      let lead := N_of_ascii a in
      let low (b : ascii) := (N_of_ascii b - 128)%N in
      if N.ltb lead 128 then upper_of lead ++ upper r
      else if N.ltb lead 192 then String a (upper r)
      else if N.ltb lead 224 then
        match r with
        | String b r2 => upper_of ((lead - 192) * 64 + low b) ++ upper r2
        | _ => s
        end
      else if N.ltb lead 240 then
        match r with
        | String b (String c r3) =>
            upper_of ((lead - 224) * 4096 + low b * 64 + low c) ++ upper r3
        | _ => s
        end
      else
        match r with
        | String b (String c (String d r4)) =>
            upper_of ((lead - 240) * 262144 + low b * 4096 + low c * 64 + low d)
              ++ upper r4
        | _ => s
        end
  end.

(** [v.toUpperCase()]: only a string has the method. *)
Definition toUpperCase (v : value) : result string :=
  match v with
  | Str t => Ok (upper t)
  | _ => Throw TypeError
  end.

End Unicode.

(* ================================================================== *)
(** * [slice] on strings and arrays                                     *)
(* ================================================================== *)
Module Slice.
Import JS.

(** The first [n] UTF-16 code units of a string.  A character of one, two
    or three bytes is one code unit; one of four bytes is two, and a cut
    between the two leaves the first of them, a lone high surrogate. *)
Fixpoint units (n : nat) (s : string) {struct s} : string :=
  match n, s with
  | O, _ => EmptyString
  | _, EmptyString => EmptyString
  | S n', String b r =>
      let lead := nat_of_ascii b in
      if Nat.ltb lead 192 then String b (units n' r)
      else if Nat.ltb lead 224 then
        match r with
        | String b2 r2 => String b (String b2 (units n' r2))
        | _ => s
        end
      else if Nat.ltb lead 240 then
        match r with
        | String b2 (String b3 r3) => String b (String b2 (String b3 (units n' r3)))
        | _ => s
        end
      else
        match r with
        | String b2 (String b3 (String b4 r4)) =>
            match n' with
            | O =>
                let cp := ((N_of_ascii b - 240) * 262144
                           + (N_of_ascii b2 - 128) * 4096
                           + (N_of_ascii b3 - 128) * 64
                           + (N_of_ascii b4 - 128))%N in
                JSON.utf8 (55296 + (cp - 65536) / 1024)
            | S n'' =>
                String b (String b2 (String b3 (String b4 (units n'' r4))))
            end
        | _ => s
        end
  end.

(** [v.slice(0, n)]: strings and arrays have the method; on anything else
    the call is a [TypeError]. *)
Definition slice (v : value) (n : nat) : result value :=
  match v with
  | Str s => Ok (Str (units n s))
  | Arr items => Ok (Arr (firstn n items))
  | _ => Throw TypeError
  end.

End Slice.

(* ================================================================== *)
(** * React: [useState] and the element tree                            *)
(* ================================================================== *)
Module React.
Import JS.

Section UseState.
Context {T : Type}.

(** What a state setter is called with: the next state, or an updater
    function from the pending state to the next one. *)
Inductive action : Type :=
| Value (next : T)
| Updater (f : T -> result T).

(** A state variable: the state of the last render and the updates queued
    since. *)
Record hook : Type := mkHook { state : T; queue : list action }.

Definition useState (initial : T) : hook := mkHook initial [].

(** [setState(a)] queues the update.  An updater function is run by React
    when it works through the queue for the next render ("React puts your
    updater functions in a queue; during the next render, it will call them
    in the same order").  What an updater throws, it throws in that render:
    React may run it once ahead of time to compare states, and then
    swallows its exception, "it will throw again in the render phase".  So
    a [try] around the call of the setter does not stand around the run of
    the updater. *)
Definition dispatch (a : action) (h : hook) : hook :=
  mkHook (state h) (queue h ++ [a])%list.

Definition apply (s : T) (a : action) : result T :=
  match a with
  | Value next => Ok next
  | Updater f => f s
  end.

Fixpoint reduce (s : T) (q : list action) : result T :=
  match q with
  | [] => Ok s
  | a :: q' => rbind (apply s a) (fun s' => reduce s' q')
  end.

(** The hook's part of a render: the queue is worked through in order. *)
Definition render (h : hook) : result hook :=
  rbind (reduce (state h) (queue h)) (fun s => Ok (mkHook s [])).

End UseState.
Arguments action T : clear implicits.
Arguments hook T : clear implicits.

(** The tree a component returns.  [H] is the type of the page's click
    handlers; class names and keys are left out. *)
Inductive node (H : Type) : Type :=
| Text (s : string)
| Expr (v : value)
| Elem (tag : string) (onClick : option H) (children : list (node H))
| Items (children : list (node H)).
Arguments Text {H} s.
Arguments Expr {H} v.
Arguments Elem {H} tag onClick children.
Arguments Items {H} children.

(** [cond && element] when [cond] is [false]. *)
Definition nothing {H} : node H := Expr (Bool false).

(** A value in child position: strings and numbers become text, booleans,
    [null] and [undefined] render nothing, an array renders its items, and
    a plain object is refused ("Objects are not valid as a React child"). *)
Fixpoint valid_child (v : value) : bool :=
  match v with
  | Obj _ => false
  | Arr items => forallb valid_child items
  | _ => true
  end.

Fixpoint mountable {H} (n : node H) : bool :=
  match n with
  | Text _ => true
  | Expr v => valid_child v
  | Elem _ _ children => forallb mountable children
  | Items children => forallb mountable children
  end.

(** A tree without handlers, as a part of a tree with handlers. *)
Fixpoint embed {H} (n : node Empty_set) : node H :=
  match n with
  | Text s => Text s
  | Expr v => Expr v
  | Elem tag _ children => Elem tag None (map embed children)
  | Items children => Items (map embed children)
  end.

(** [xs?.map(f)] in child position: [undefined] for a nullish [xs], the
    mapped items for an array, and a [TypeError] for anything else, which
    has no [map]. *)
Definition optional_map {H} (xs : value) (f : value -> result (node H))
  : result (node H) :=
  match xs with
  | Undefined | Null => Ok (Expr Undefined)
  | Arr items => rbind (traverse f items) (fun ys => Ok (Items ys))
  | _ => Throw TypeError
  end.

(** [m.type === tag && body] *)
Definition when {H} (m : value) (tag : string) (body : result (node H))
  : result (node H) :=
  rbind (get m "type") (fun ty => if is_str ty tag then body else Ok nothing).

Definition objects_not_valid : exn :=
  Error "Objects are not valid as a React child".

(** What React does with the tree of a render. *)
Definition commit {H} (n : node H) : result (node H) :=
  if mountable n then Ok n else Throw objects_not_valid.

End React.

(* ================================================================== *)
(** * The browser: fetch responses, EventSource, WebSocket              *)
(* ================================================================== *)
Module Fetch.
Import JS.

Record File : Type := mkFile { file_name : string; file_bytes : string }.

Inductive body : Type :=
| NoBody
| TextBody (text : string)
| FormData (fields : list (string * File)).

Record Request : Type := mkRequest {
  url : string;
  method : string;
  headers : list (string * string);
  payload : body
}.

Record Response : Type := mkResponse { status : nat; body_text : string }.

(** [r.ok]: the status is in the range 200-299. *)
Definition ok (r : Response) : bool :=
  Nat.leb 200 (status r) && Nat.leb (status r) 299.

(** [await r.text()] *)
Definition text (r : Response) : result string := Ok (body_text r).

(** [await r.json()] *)
Definition json (r : Response) : result value := JSON.parse (body_text r).

(** The network as the calls see it: [fetch] resolves with a response or
    rejects. *)
Definition network : Type := Request -> result Response.

End Fetch.

Module EventSource.
Import JS.

Inductive readyState : Type := CONNECTING | OPEN | CLOSED.

(** [url] is the string the constructor was given; [fetches] counts the
    connections the object has started; [waiting] says that the browser
    has lost the connection and will start another. *)
Record t : Type := mk {
  url : string;
  state : readyState;
  waiting : bool;
  fetches : nat
}.

(** [new EventSource(url)] *)
Definition new (u : string) : t := mk u CONNECTING false 1.

(** [es.close()]: the connection is dropped and the object stays closed. *)
Definition close (es : t) : result t :=
  Ok (mk (url es) CLOSED false (fetches es)).

(** What the network and the browser's reconnection timer do. *)
Inductive net : Type :=
| Opened
| Data (data : string)
| Lost
| Failed
| Retry.

(** The events the browser fires at the object. *)
Inductive event : Type :=
| open
| message (data : string)
| error.

(** The browser's processing model: a closed object gets nothing; a lost
    connection puts the object back to CONNECTING, fires [error] and is
    started again later; a failed one closes the object and fires [error]. *)
Definition deliver (n : net) (es : t) : t * option event :=
  match state es, n with
  | CLOSED, _ => (es, None)
  | CONNECTING, Opened =>
      if waiting es then (es, None)
      else (mk (url es) OPEN false (fetches es), Some open)
  | OPEN, Data d => (es, Some (message d))
  | _, Lost => (mk (url es) CONNECTING true (fetches es), Some error)
  | _, Failed => (mk (url es) CLOSED false (fetches es), Some error)
  | CONNECTING, Retry =>
      if waiting es
      then (mk (url es) CONNECTING false (S (fetches es)), None)
      else (es, None)
  | _, _ => (es, None)
  end.

End EventSource.

Module WebSocket.
Import JS.

Inductive readyState : Type := CONNECTING | OPEN | CLOSING | CLOSED.

(** [url] is the string the constructor was given; [sent] is what the
    socket has put on the wire, oldest first. *)
Record t : Type := mk { url : string; state : readyState; sent : list string }.

(** The URL has a [#] in it. *)
Fixpoint has_hash (u : string) : bool :=
  match u with
  | EmptyString => false
  | String c r => Ascii.eqb c "#" || has_hash r
  end.

(** [new WebSocket(url)]: "if urlRecord is failure, or its fragment is
    non-null, throw a SyntaxError DOMException".  The URLs of ws.ts are a
    [ws] or [wss] scheme, the host of the page and a path: they parse
    whatever the path holds, and they have a fragment exactly when they
    hold a [#]. *)
Definition new (u : string) : result t :=
  if has_hash u then Throw SyntaxError else Ok (mk u CONNECTING []).

(** [ws.send(data)]: an [InvalidStateError] while connecting; a frame on
    the wire when open; dropped without a word once closing or closed. *)
Definition send (data : string) (ws : t) : result t :=
  match state ws with
  | CONNECTING => Throw InvalidStateError
  | OPEN => Ok (mk (url ws) OPEN (sent ws ++ [data])%list)
  | CLOSING | CLOSED => Ok ws
  end.

(** [ws.close(code, reason)]: the arguments are checked first (a code must
    be 1000 or in 3000-4999, a reason at most 123 bytes); then a socket that
    is connecting or open starts closing and any other is left as it is. *)
Definition close (code : option nat) (reason : option string) (ws : t)
  : result t :=
  let code_ok :=
    match code with
    | None => true
    | Some c => Nat.eqb c 1000 || (Nat.leb 3000 c && Nat.leb c 4999)
    end in
  let reason_ok :=
    match reason with
    | None => true
    | Some r => Nat.leb (String.length r) 123
    end in
  if negb code_ok then Throw (Error "InvalidAccessError")
  else if negb reason_ok then Throw SyntaxError
  else match state ws with
       | CONNECTING | OPEN => Ok (mk (url ws) CLOSING (sent ws))
       | CLOSING | CLOSED => Ok ws
       end.

Inductive net : Type :=
| Opened
| Frame (data : string)
| Closed.

Inductive event : Type :=
| open
| message (data : string)
| closed.

(** A text frame is handed to [onmessage] only while the socket is open. *)
Definition deliver (n : net) (ws : t) : t * option event :=
  match state ws, n with
  | CONNECTING, Opened => (mk (url ws) OPEN (sent ws), Some open)
  | OPEN, Frame d => (ws, Some (message d))
  | CLOSED, Closed => (ws, None)
  | _, Closed => (mk (url ws) CLOSED (sent ws), Some closed)
  | _, _ => (ws, None)
  end.

End WebSocket.

(* ================================================================== *)
(** * lib/types.ts                                                      *)
(* ================================================================== *)
Module types.
Import JS.

Module RunState.
Inductive t : Type := queued | running | done | error.
Definition name (s : t) : string :=
  match s with
  | queued => "queued"
  | running => "running"
  | done => "done"
  | error => "error"
  end.
End RunState.

(** The [tool] of a step event. *)
Inductive Tool : Type := bash | edit | sequential_thinking | test | commit.

Definition Tool_name (t : Tool) : string :=
  match t with
  | bash => "bash"
  | edit => "edit"
  | sequential_thinking => "sequential_thinking"
  | test => "test"
  | commit => "commit"
  end.

Record FileDiff : Type := mkFileDiff { path : string; patch : string }.

Inductive RunEvent : Type :=
| status (runId : string) (state : RunState.t) (message : option string)
| step (index : number) (tool : Tool) (summary : string)
| output (tool : string) (text : string)
| diff (files : list FileDiff)
| metrics (coverage refactor combo : option number)
| error (message : string).

(** An optional property is there or it is not. *)
Definition optional {A} (k : string) (f : A -> value) (o : option A)
  : list (string * value) :=
  match o with
  | Some a => [(k, f a)]
  | None => []
  end.

Definition FileDiff_value (f : FileDiff) : value :=
  Obj [("path", Str (path f)); ("patch", Str (patch f))].

(** The object a [RunEvent] is at run time: the union is a TypeScript type
    over plain objects, told apart by their [type] property. *)
Definition to_value (e : RunEvent) : value :=
  match e with
  | status r s m =>
      Obj ([("type", Str "status"); ("runId", Str r);
            ("state", Str (RunState.name s))] ++ optional "message" Str m)%list
  | step i t s =>
      Obj [("type", Str "step"); ("index", Number i);
           ("tool", Str (Tool_name t)); ("summary", Str s)]
  | output t x =>
      Obj [("type", Str "output"); ("tool", Str t); ("text", Str x)]
  | diff fs =>
      Obj [("type", Str "diff"); ("files", Arr (map FileDiff_value fs))]
  | metrics c r k =>
      Obj ([("type", Str "metrics")] ++ optional "coverage" Number c
             ++ optional "refactor" Number r ++ optional "combo" Number k)%list
  | error m =>
      Obj [("type", Str "error"); ("message", Str m)]
  end.

(** ** The types at run time

    A value is of a TypeScript object type when each property the type
    declares holds a value of its type; an optional property may also be
    missing or [undefined]; properties the type does not name, and the
    order of the properties, do not count. *)

Definition is_string (v : value) : bool :=
  match v with Str _ => true | _ => false end.

Definition is_number (v : value) : bool :=
  match v with Number _ => true | _ => false end.

(** A union of string literals. *)
Definition one_of (names : list string) (v : value) : bool :=
  match v with
  | Str s => existsb (String.eqb s) names
  | _ => false
  end.

Definition required (ps : list (string * value)) (k : string)
  (of_type : value -> bool) : bool :=
  match lookup k ps with
  | Some v => of_type v
  | None => false
  end.

Definition optionally (ps : list (string * value)) (k : string)
  (of_type : value -> bool) : bool :=
  match lookup k ps with
  | Some Undefined | None => true
  | Some v => of_type v
  end.

Definition RunState_names : list string :=
  ["queued"; "running"; "done"; "error"].

Definition Tool_names : list string :=
  ["bash"; "edit"; "sequential_thinking"; "test"; "commit"].

(** [FileDiff] *)
Definition is_FileDiff (v : value) : bool :=
  match v with
  | Obj ps => required ps "path" is_string && required ps "patch" is_string
  | _ => false
  end.

Definition is_FileDiffs (v : value) : bool :=
  match v with
  | Arr items => forallb is_FileDiff items
  | _ => false
  end.

(** [RunEvent]: the member of the union is told by [type]. *)
Definition is_RunEvent (v : value) : bool :=
  match v with
  | Obj ps =>
      match lookup "type" ps with
      | Some (Str tag) =>
          if String.eqb tag "status" then
            required ps "runId" is_string
            && required ps "state" (one_of RunState_names)
            && optionally ps "message" is_string
          else if String.eqb tag "step" then
            required ps "index" is_number
            && required ps "tool" (one_of Tool_names)
            && required ps "summary" is_string
          else if String.eqb tag "output" then
            required ps "tool" is_string && required ps "text" is_string
          else if String.eqb tag "diff" then
            required ps "files" is_FileDiffs
          else if String.eqb tag "metrics" then
            optionally ps "coverage" is_number
            && optionally ps "refactor" is_number
            && optionally ps "combo" is_number
          else if String.eqb tag "error" then
            required ps "message" is_string
          else false
      | _ => false
      end
  | _ => false
  end.

End types.

(* ================================================================== *)
(** * lib/api.ts                                                        *)
(* ================================================================== *)
Module api.
Import JS Fetch.
Local Open Scope js_scope.

Definition json_body (v : value) : body :=
  match JSON.stringify v with
  | Some t => TextBody t
  | None => NoBody
  end.

Definition json_headers : list (string * string) :=
  [("Content-Type", "application/json")].

(** [if (!r.ok) throw new Error(await r.text()); return await r.json()] *)
Definition unwrap (r : Response) : result value :=
  if negb (ok r)
  then t <-r text r ;; Throw (Error t)
  else json r.

Definition p1StartRun_request (payload : value) : Request :=
  mkRequest "/api/p1/run" "POST" json_headers (json_body payload).

Definition p1StartRun (fetch : network) (payload : value) : result value :=
  r <-r fetch (p1StartRun_request payload) ;;
  unwrap r.

Definition p2CreateSession_request (payload : value) : Request :=
  mkRequest "/api/p2/session" "POST" json_headers (json_body payload).

Definition p2CreateSession (fetch : network) (payload : value) : result value :=
  r <-r fetch (p2CreateSession_request payload) ;;
  unwrap r.

Definition uploadZip_request (file : File) : Request :=
  mkRequest "/api/upload" "POST" [] (FormData [("file", file)]).

Definition uploadZip (fetch : network) (file : File) : result value :=
  r <-r fetch (uploadZip_request file) ;;
  unwrap r.

End api.

(* ================================================================== *)
(** * lib/stream.ts                                                     *)
(* ================================================================== *)
Module stream.
Import JS.
Local Open Scope js_scope.

Definition stream_url (runId : value) : string :=
  "/api/p1/stream/" ++ to_string runId.

(** [const es = new EventSource(`/api/p1/stream/${runId}`)] *)
Definition p1OpenStream (runId : value) : EventSource.t :=
  EventSource.new (stream_url runId).

(** [es.onerror = () => es.close()] *)
Definition onerror (es : EventSource.t) : result EventSource.t :=
  EventSource.close es.

(** The closer the helper returns: [() => es.close()] *)
Definition off (es : EventSource.t) : result EventSource.t :=
  EventSource.close es.

(** The two handlers the helper installs, for a world [W] that keeps the
    object: [es.onmessage = onEvent] and [es.onerror]. *)
Definition handle {W} (onEvent : string -> M W unit)
  (with_es : (EventSource.t -> result EventSource.t) -> M W unit)
  (ev : EventSource.event) : M W unit :=
  match ev with
  | EventSource.message data => onEvent data
  | EventSource.error => with_es onerror
  | EventSource.open => ret tt
  end.

End stream.

(* ================================================================== *)
(** * lib/ws.ts                                                         *)
(* ================================================================== *)
Module ws.
Import JS.
Local Open Scope js_scope.

(** [location.protocol] and [location.host] of the page: the host is the
    serialised host, and port, of the page's own URL. *)
Record Location : Type := mkLocation { protocol : string; host : string }.

Definition ws_url (location : Location) (sessionId : value) : string :=
  let proto := if String.eqb (protocol location) "https:" then "wss" else "ws" in
  proto ++ "://" ++ host location ++ "/api/p2/ws/" ++ to_string sessionId.

(** [const ws = new WebSocket(...)], which may throw; the handler and the
    object returned are below. *)
Definition p2OpenWS (location : Location) (sessionId : value)
  : result WebSocket.t :=
  WebSocket.new (ws_url location sessionId).

(** [ws.onmessage = (ev) => onMsg(JSON.parse(ev.data))] *)
Definition onmessage {W} (onMsg : value -> M W unit) (data : string) : M W unit :=
  m <- lift (JSON.parse data) ;;
  onMsg m.

(** What [ws.send] makes of its argument: ToString of a non-string. *)
Definition frame_of (m : value) : string :=
  match JSON.stringify m with
  | Some t => t
  | None => "undefined"
  end.

(** [send: (m) => ws.send(JSON.stringify(m))] *)
Definition send (m : value) (ws : WebSocket.t) : result WebSocket.t :=
  WebSocket.send (frame_of m) ws.

(** [close: () => ws.close()] *)
Definition close (ws : WebSocket.t) : result WebSocket.t :=
  WebSocket.close None None ws.

End ws.

(* ================================================================== *)
(** * components/LogStream.tsx                                          *)
(* ================================================================== *)
Module LogStream.
Import JS React.
Local Open Scope js_scope.

(** The markup has no click handlers. *)
Definition view : Type := node Empty_set.

Definition el (tag : string) (children : list view) : view :=
  Elem tag None children.

(** [(f, j) => <details> <summary>🧩 {f.path}</summary> <pre>{f.patch}</pre> </details>] *)
Definition file_details (f : value) : result view :=
  path <-r get f "path" ;;
  patch <-r get f "patch" ;;
  Ok (el "details" [el "summary" [Text "🧩 "; Expr path]; el "pre" [Expr patch]]).

(** One entry of the log: the six conditional children of its [div]. *)
Definition row (e : value) : result view :=
  c_output <-r when e "output"
    (text <-r get e "text" ;; Ok (el "code" [Expr text])) ;;
  c_step <-r when e "step"
    (tool <-r get e "tool" ;;
     summary <-r get e "summary" ;;
     Ok (el "div" [Text "🔧 "; el "b" [Expr tool]; Text " — "; Expr summary])) ;;
  c_status <-r when e "status"
    (state <-r get e "state" ;; Ok (el "div" [Text "📡 "; Expr state])) ;;
  c_error <-r when e "error"
    (message <-r get e "message" ;; Ok (el "div" [Text "⛔ "; Expr message])) ;;
  c_metrics <-r when e "metrics"
    (coverage <-r get e "coverage" ;;
     refactor <-r get e "refactor" ;;
     combo <-r get e "combo" ;;
     Ok (el "div" [Text "📊 coverage "; Expr (nullish coverage (Str "-"));
                   Text "% · refactor "; Expr (nullish refactor (Str "-"));
                   Text " · combo "; Expr (nullish combo (int 0));
                   Text "x"])) ;;
  c_diff <-r when e "diff"
    (files <-r get e "files" ;; optional_map files file_details) ;;
  Ok (el "div" [c_output; c_step; c_status; c_error; c_metrics; c_diff]).

(** [events.map((e, i) => ...)] inside the scrolling [div]. *)
Definition LogStream (events : list value) : result view :=
  rows <-r traverse row events ;;
  Ok (el "div" rows).

End LogStream.

(* ================================================================== *)
(** * pages/P1Run.tsx: the run page, from its subscription on           *)
(* ================================================================== *)
Module P1Run.
Import JS React.
Local Open Scope js_scope.

(** The page while a run is shown: [runId] and [zipToken] as of the last
    render, the [events] state and the stream the effect has opened. *)
Record t : Type := mk {
  runId : value;
  zipToken : value;
  events : hook (list value);
  es : option EventSource.t
}.

Definition setEvents (a : action (list value)) : M t unit :=
  modify (fun c => mk (runId c) (zipToken c) (dispatch a (events c)) (es c)).

(** The stream's object, for the handlers of stream.ts. *)
Definition with_es (f : EventSource.t -> result EventSource.t) : M t unit :=
  fun c =>
    match es c with
    | None => (Ok tt, c)
    | Some x =>
        match f x with
        | Ok x' => (Ok tt, mk (runId c) (zipToken c) (events c) (Some x'))
        | Throw e => (Throw e, c)
        end
    end.

(** [(e) => [...e, JSON.parse(ev.data)]] *)
Definition append_parsed (data : string) (e : list value) : result (list value) :=
  v <-r JSON.parse data ;;
  Ok (e ++ [v])%list.

(** The callback given to [p1OpenStream]:
    [(ev) => { try { setEvents((e) => [...e, JSON.parse(ev.data)]); } catch {} }] *)
Definition onEvent (data : string) : M t unit :=
  try_catch (setEvents (Updater (append_parsed data))) (fun _ => ret tt).

(** The body of [useEffect(..., [runId])]: nothing for a falsy [runId],
    else the subscription. *)
Definition effect (runId : value) : option EventSource.t :=
  if truthy runId then Some (stream.p1OpenStream runId) else None.

(** ** The markup *)

Inductive click : Type :=
| ChooseFile
| Start.

Definition view : Type := node click.

Definition el (tag : string) (children : list view) : view :=
  Elem tag None children.

Definition button (h : click) (children : list view) : view :=
  Elem "button" (Some h) children.

(** [{zipToken ? `zip token: ${zipToken.slice(0, 8)}…` : "no file"}] *)
Definition zip_label (zipToken : value) : result value :=
  if truthy zipToken then
    cut <-r Slice.slice zipToken 8 ;;
    Ok (Str ("zip token: " ++ to_string cut ++ "…"))
  else Ok (Str "no file").

(** [{runId && <span>Run: {runId}</span>}] *)
Definition run_span (runId : value) : view :=
  if truthy runId then el "span" [Text "Run: "; Expr runId] else Expr runId.

(** The "Live Log" section repeats the markup of LogStream.tsx inline. *)
Definition live_log (events : list value) : result LogStream.view :=
  LogStream.LogStream events.

(** What the component returns, its expressions evaluated from top to
    bottom: the label of the zip token, the run id, the log.  Attributes
    ([value], [disabled], class names) are left out. *)
Definition markup (zipToken runId : value) (events : list value) : result view :=
  label <-r zip_label zipToken ;;
  log <-r live_log events ;;
  Ok (el "div"
        [el "h1" [Text "1P — Run Mode (trae-cli run)"];
         el "div"
           [el "div" [el "label" [Text "Git URL"]; el "input" []];
            el "div" [el "label" [Text "or Upload .zip"];
                      el "div" [el "input" [];
                                button ChooseFile [Text "Choose File"];
                                el "span" [Expr label]]]];
         el "div" [el "label" [Text "Tasks (one per line)"]; el "textarea" []];
         el "div" [button Start [Text "Start 1P"]; run_span runId];
         el "section" [el "h2" [Text "Live Log"]; embed log]]).

(** The page is there, or React has taken the tree down after a render
    threw (its effect clean-up has then closed the stream). *)
Inductive page : Type :=
| Live (c : t)
| Unmounted (why : exn).

(** A render: the queue of [events] is worked through and the markup is
    evaluated and committed.  Nothing in the application catches what a
    render throws (routes.tsx has no error boundary). *)
Definition render (c : t) : page :=
  match React.render (events c) with
  | Throw e => Unmounted e
  | Ok h =>
      match rbind (markup (zipToken c) (runId c) (state h)) commit with
      | Throw e => Unmounted e
      | Ok _ => Live (mk (runId c) (zipToken c) h (es c))
      end
  end.

(** The page once [onStart] has set the run id and emptied the log: the
    render that follows and, when React has committed it, the effect.  A
    render that throws leaves no page and runs no effect. *)
Definition started (zipToken runId : value) : page :=
  match render (mk runId zipToken (useState []) None) with
  | Live c => Live (mk (P1Run.runId c) (P1Run.zipToken c) (events c) (effect runId))
  | Unmounted e => Unmounted e
  end.

(** One thing the network does to the stream, and the handler it fires. *)
Definition on_net (n : EventSource.net) : M t unit :=
  fun c =>
    match es c with
    | None => (Ok tt, c)
    | Some x =>
        let (x', ev) := EventSource.deliver n x in
        let c' := mk (runId c) (zipToken c) (events c) (Some x') in
        match ev with
        | Some e => stream.handle onEvent with_es e c'
        | None => (Ok tt, c')
        end
    end.

Inductive input : Type :=
| Net (n : EventSource.net)
| Render.

Definition step (p : page) (i : input) : page :=
  match p with
  | Unmounted _ => p
  | Live c =>
      match i with
      | Net n => Live (snd (on_net n c))
      | Render => render c
      end
  end.

Definition run (inputs : list input) (p : page) : page :=
  fold_left step inputs p.

(** The log the page shows. *)
Definition log (p : page) : option (list value) :=
  match p with
  | Live c => Some (state (events c))
  | Unmounted _ => None
  end.

(** The frames of a stream that is open, each followed by a render. *)
Definition frames (datas : list string) : list input :=
  flat_map (fun d => [Net (EventSource.Data d); Render]) datas.

(** The frame payloads among some inputs, in order. *)
Definition payloads (inputs : list input) : list string :=
  flat_map (fun i => match i with
                     | Net (EventSource.Data d) => [d]
                     | _ => []
                     end) inputs.

(** Inputs of a stream that stays open: frames and renders. *)
Definition calm (i : input) : bool :=
  match i with
  | Render | Net (EventSource.Data _) => true
  | Net _ => false
  end.

Definition renders (inputs : list input) : list input :=
  filter (fun i => match i with Render => true | Net _ => false end) inputs.

(** The page has a stream that the browser still serves. *)
Definition receiving (p : page) : bool :=
  match p with
  | Live c =>
      match es c with
      | Some x =>
          match EventSource.state x with
          | EventSource.CLOSED => false
          | _ => true
          end
      | None => false
      end
  | Unmounted _ => false
  end.

End P1Run.

(* ================================================================== *)
(** * pages/P2Interactive.tsx                                           *)
(* ================================================================== *)
Module P2Interactive.
Import JS React Unicode.
Local Open Scope js_scope.

(** The page: its state variables, the socket [wsRef.current] points to,
    and the sockets of earlier starts, which the ref has let go of but
    which the browser keeps and which still call [onMsg]. *)
Record t : Type := mk {
  appName : string;
  desc : string;
  sessionId : hook value;
  chat : hook (list value);
  input : hook string;
  wsRef : option WebSocket.t;
  stale : list WebSocket.t
}.

(** The first render: [useState("")], [useState()], [useState([])],
    [useRef(null)]. *)
Definition initial : t :=
  mk "" "" (useState Undefined) (useState []) (useState "") None [].

Definition setSessionId (a : action value) : M t unit :=
  modify (fun c => mk (appName c) (desc c) (dispatch a (sessionId c)) (chat c)
                      (input c) (wsRef c) (stale c)).

Definition setChat (a : action (list value)) : M t unit :=
  modify (fun c => mk (appName c) (desc c) (sessionId c) (dispatch a (chat c))
                      (input c) (wsRef c) (stale c)).

Definition setInput (a : action string) : M t unit :=
  modify (fun c => mk (appName c) (desc c) (sessionId c) (chat c)
                      (dispatch a (input c)) (wsRef c) (stale c)).

(** [wsRef.current = socket]: the ref points to the new socket; the one it
    pointed to is not closed. *)
Definition set_wsRef (socket : WebSocket.t) : M t unit :=
  modify (fun c => mk (appName c) (desc c) (sessionId c) (chat c) (input c)
                      (Some socket)
                      (match wsRef c with
                       | Some old => stale c ++ [old]
                       | None => stale c
                       end)%list).

(** [wsRef.current?.f()] for a method [f] of the helper's object. *)
Definition current (f : WebSocket.t -> result WebSocket.t) : M t unit :=
  fun c =>
    match wsRef c with
    | None => (Ok tt, c)
    | Some w =>
        match f w with
        | Ok w' => (Ok tt, mk (appName c) (desc c) (sessionId c) (chat c)
                              (input c) (Some w') (stale c))
        | Throw e => (Throw e, c)
        end
    end.

Definition line (role text : string) : value :=
  Obj [("role", Str role); ("text", Str text)].

Definition greeting (session_id : value) : value :=
  line "assistant"
       ("Session " ++ to_string session_id ++ " ready. Tell me what to scaffold.").

(** [(c) => [...c, msg]] *)
Definition append (msg : value) (c : list value) : result (list value) :=
  Ok (c ++ [msg])%list.

(** The callback given to [p2OpenWS]: [(msg) => { setChat((c) => [...c, msg]); }] *)
Definition onMsg (msg : value) : M t unit :=
  setChat (Updater (append msg)).

(** [{ appName, description: desc }], the payload of [onStart]. *)
Definition session_payload (c : t) : value :=
  Obj [("appName", Str (appName c)); ("description", Str (desc c))].

(** [onStart] down to [wsRef.current = p2OpenWS(session_id, ...)], run
    once the fetch has settled.  Nothing before the [await] writes to the
    page.  When [p2OpenWS] throws, the session id is already queued and
    the ref is not written. *)
Definition connect (location : ws.Location) (fetch : Fetch.network) : M t value :=
  payload <- gets session_payload ;;
  created <- lift (api.p2CreateSession fetch payload) ;;
  session_id <- lift (get created "session_id") ;;
  setSessionId (Value session_id) ;;
  socket <- lift (ws.p2OpenWS location session_id) ;;
  set_wsRef socket ;;
  ret session_id.

(** [onStart]: the above, then [setChat([{ role: "assistant", text: ... }])]. *)
Definition onStart (location : ws.Location) (fetch : Fetch.network) : M t unit :=
  session_id <- connect location fetch ;;
  setChat (Value [greeting session_id]).

(** [onChange={(e) => setInput(e.target.value)}] *)
Definition onChange (text : string) : M t unit :=
  setInput (Value text).

Definition answer (text : value) : value :=
  Obj [("type", Str "answer"); ("text", text)].

Definition approve (actionId : value) : value :=
  Obj [("type", Str "approve"); ("actionId", actionId)].

Definition reject (actionId : value) : value :=
  Obj [("type", Str "reject"); ("actionId", actionId); ("reason", Str "Not now")].

Definition sendUser : M t unit :=
  text <- gets (fun c => trim (state (input c))) ;;
  if String.eqb text "" then ret tt
  else
    setChat (Updater (append (line "user" text))) ;;
    current (ws.send (answer (Str text))) ;;
    setInput (Value "").

Definition onApprove (actionId : value) : M t unit :=
  current (ws.send (approve actionId)).

Definition onReject (actionId : value) : M t unit :=
  current (ws.send (reject actionId)).

(** The clean-up of [useEffect(() => () => wsRef.current?.close(), [])] *)
Definition cleanup : M t unit := current ws.close.

(** ** The markup *)

Inductive click : Type :=
| Start
| Send
| Approve (id : value)
| Reject (id : value)
| Choose (choice : value).

Definition view : Type := node click.

Definition el (tag : string) (children : list view) : view :=
  Elem tag None children.

Definition button (h : click) (children : list view) : view :=
  Elem "button" (Some h) children.

(** [m.role && <div><b>{m.role.toUpperCase()}</b>: {m.text}</div>] *)
Definition role_line (m : value) : result view :=
  role <-r get m "role" ;;
  if truthy role then
    shout <-r toUpperCase role ;;
    text <-r get m "text" ;;
    Ok (el "div" [el "b" [Expr (Str shout)]; Text ": "; Expr text])
  else Ok (Expr role).

Definition action_card (a : value) : result view :=
  id <-r get a "id" ;;
  summary <-r get a "summary" ;;
  Ok (el "div" [el "div" [Expr summary];
                el "div" [button (Approve id) [Text "Approve"];
                          button (Reject id) [Text "Reject"]]]).

Definition file_details (f : value) : result view :=
  path <-r get f "path" ;;
  patch <-r get f "patch" ;;
  Ok (el "details" [el "summary" [Text "🧩 "; Expr path]; el "pre" [Expr patch]]).

Definition choice_button (c : value) : result view :=
  Ok (button (Choose c) [Expr c]).

(** One entry of the chat. *)
Definition message (m : value) : result view :=
  c_role <-r role_line m ;;
  c_proposal <-r when m "proposal"
    (actions <-r get m "actions" ;;
     cards <-r optional_map actions action_card ;;
     Ok (el "div" [cards])) ;;
  c_diff <-r when m "diff"
    (files <-r get m "files" ;;
     details <-r optional_map files file_details ;;
     Ok (el "div" [details])) ;;
  c_question <-r when m "question"
    (choices <-r get m "choices" ;;
     buttons <-r optional_map choices choice_button ;;
     Ok (el "div" [buttons])) ;;
  Ok (el "div" [c_role; c_proposal; c_diff; c_question]).

Definition start_form : view :=
  el "div" [el "div" [el "label" [Text "App Name"]; el "input" []];
            el "div" [el "label" [Text "Description"]; el "textarea" []];
            el "div" [button Start [Text "Start 2P"]]].

Definition chat_panel (messages : list value) : result view :=
  rows <-r traverse message messages ;;
  Ok (el "div" [el "div" rows;
                el "div" [el "input" []; button Send [Text "Send"]]]).

(** [{!sessionId && form} {sessionId && panel}] under the heading. *)
Definition markup (sessionId : value) (messages : list value) : result view :=
  panel <-r (if truthy sessionId then chat_panel messages else Ok (Expr sessionId)) ;;
  Ok (el "div" [el "h1" [Text "2P — Interactive Mode (trae-cli interactive)"];
                (if truthy sessionId then nothing else start_form);
                panel]).

(** What a click on a button of the markup runs. *)
Definition on_click (location : ws.Location) (fetch : Fetch.network) (h : click)
  : M t unit :=
  match h with
  | Start => onStart location fetch
  | Send => sendUser
  | Approve id => onApprove id
  | Reject id => onReject id
  | Choose c => current (ws.send (answer c))
  end.

(** An inbound frame on a socket the page has opened: the current one
    ([None]) or the [i]-th stale one.  All of them have the handler that
    [p2OpenWS] installs around [onMsg]. *)
Definition on_net (from : option nat) (n : WebSocket.net) : M t unit :=
  fun c =>
    let fire (ev : option WebSocket.event) : M t unit :=
      match ev with
      | Some (WebSocket.message data) => ws.onmessage onMsg data
      | _ => ret tt
      end in
    match from with
    | None =>
        match wsRef c with
        | None => (Ok tt, c)
        | Some w =>
            let (w', ev) := WebSocket.deliver n w in
            fire ev (mk (appName c) (desc c) (sessionId c) (chat c) (input c)
                        (Some w') (stale c))
        end
    | Some i =>
        match nth_error (stale c) i with
        | None => (Ok tt, c)
        | Some w =>
            let (w', ev) := WebSocket.deliver n w in
            fire ev (mk (appName c) (desc c) (sessionId c) (chat c) (input c)
                        (wsRef c)
                        (firstn i (stale c) ++ w' :: skipn (S i) (stale c))%list)
        end
    end.

Inductive page : Type :=
| Live (c : t)
| Unmounted (why : exn).

(** A render: the three queues are worked through, then the markup is
    evaluated and committed. *)
Definition render (c : t) : page :=
  match React.render (sessionId c), React.render (chat c), React.render (input c) with
  | Ok s, Ok m, Ok i =>
      match rbind (markup (state s) (state m)) commit with
      | Ok _ => Live (mk (appName c) (desc c) s m i (wsRef c) (stale c))
      | Throw e => Unmounted e
      end
  | Throw e, _, _ => Unmounted e
  | _, Throw e, _ => Unmounted e
  | _, _, Throw e => Unmounted e
  end.

(** The chat the page shows. *)
Definition log (p : page) : option (list value) :=
  match p with
  | Live c => Some (state (chat c))
  | Unmounted _ => None
  end.

(** What the current socket has put on the wire. *)
Definition wire (c : t) : list string :=
  match wsRef c with
  | Some w => WebSocket.sent w
  | None => []
  end.

(** The page after the messages [ms] have been handed to [onMsg]. *)
Definition received (ms : list value) (c : t) : t :=
  fold_left (fun c m => snd (onMsg m c)) ms c.

End P2Interactive.

(* ================================================================== *)
(** * Concrete networks, frames and pages used below                    *)
(* ================================================================== *)
Module Sample.
Import JS.

(** A success status over a body that is not JSON. *)
Definition html_200 : Fetch.network :=
  fun _ => Ok (Fetch.mkResponse 200 "<html>").

Definition bad_input_400 : Fetch.network :=
  fun _ => Ok (Fetch.mkResponse 400 "bad input").

Definition session_s1 : Fetch.network :=
  fun _ => Ok (Fetch.mkResponse 200 (JSON.wire "{'session_id':'s1'}")).

Definition location : ws.Location := ws.mkLocation "https:" "mojo.example".

(** The run page with its stream open. *)
Definition run_page : P1Run.page :=
  P1Run.step (P1Run.started Undefined (Str "r1")) (P1Run.Net EventSource.Opened).

Definition rendered (c : P2Interactive.t) : P2Interactive.t :=
  match P2Interactive.render c with
  | P2Interactive.Live c' => c'
  | P2Interactive.Unmounted _ => c
  end.

(** The interactive page after a start and a render, with "hi" typed into
    the input: the socket is still connecting. *)
Definition connecting : P2Interactive.t :=
  rendered
    (snd (P2Interactive.onChange "hi"
            (rendered (snd (P2Interactive.onStart location session_s1
                                                  P2Interactive.initial))))).

(** The same page once the socket has opened. *)
Definition opened : P2Interactive.t :=
  snd (P2Interactive.on_net None WebSocket.Opened connecting).




(** The page with the open socket after a proposal has come in and has
    been rendered. *)
Definition proposed : P2Interactive.t :=
  rendered
    (snd (P2Interactive.on_net None
            (WebSocket.Frame
               (JSON.wire
                  "{'type':'proposal','actions':[{'id':'42','summary':'Add a route'}]}"))
            opened)).

(** The same page after the server has closed the socket. *)
Definition dropped : P2Interactive.t :=
  snd (P2Interactive.on_net None WebSocket.Closed proposed).




End Sample.

(* ================================================================== *)
(** * Predicates of the statements                                      *)
(* ================================================================== *)
Import JS Unicode.

(** The log as the specification words it: the values of the frames that
    parse, in the order of the frames; a frame that does not parse adds
    nothing. *)
Fixpoint lenient_log (datas : list string) : list value :=
  match datas with
  | [] => []
  | d :: ds =>
      match JSON.parse d with
      | Ok v => v :: lenient_log ds
      | Throw _ => lenient_log ds
      end
  end.

(** A frame carries an event: its data parses to a value of the type
    [RunEvent]. *)
Definition carries (data : string) (v : value) : Prop :=
  JSON.parse data = Ok v /\ types.is_RunEvent v = true.

(** The page is listening, [shown] is on the screen and the frames [ds],
    which carry [queued], wait in the queue; the page around the log has
    rendered. *)
Record tracks (c : P1Run.t) (shown : list value) (ds : list string)
       (queued : list value) : Prop := {
  tracks_open : exists x, P1Run.es c = Some x
                          /\ EventSource.state x = EventSource.OPEN;
  tracks_page : exists tree,
      rbind (P1Run.markup (P1Run.zipToken c) (P1Run.runId c) []) React.commit
      = Ok tree;
  tracks_state : React.state (P1Run.events c) = shown;
  tracks_shown : forallb types.is_RunEvent shown = true;
  tracks_queue : React.queue (P1Run.events c)
                 = map (fun d => React.Updater (P1Run.append_parsed d)) ds;
  tracks_frames : Forall2 carries ds queued
}.


(* ================================================================== *)
(** * pages/P1Run.tsx: the form above the log                           *)
(* ================================================================== *)
Module P1RunForm.
Import JS React.
Local Open Scope js_scope.

(** The state the form's handlers read and write, with what they leave in
    the console and in alert boxes.  [gitUrl] and [tasks] are kept as the
    values of the last render. *)
Record t : Type := mk {
  gitUrl : string;
  tasks : string;
  zipToken : hook value;
  runId : hook value;
  events : hook (list value);
  console : list exn;
  alerts : list string
}.

(** [useState("")], [useState("")], [useState()], [useState()],
    [useState([])]. *)
Definition initial : t :=
  mk "" "" (useState Undefined) (useState Undefined) (useState []) [] [].

Definition setZipToken (a : action value) : M t unit :=
  modify (fun c => mk (gitUrl c) (tasks c) (dispatch a (zipToken c)) (runId c)
                      (events c) (console c) (alerts c)).

Definition setRunId (a : action value) : M t unit :=
  modify (fun c => mk (gitUrl c) (tasks c) (zipToken c) (dispatch a (runId c))
                      (events c) (console c) (alerts c)).

Definition setEvents (a : action (list value)) : M t unit :=
  modify (fun c => mk (gitUrl c) (tasks c) (zipToken c) (runId c)
                      (dispatch a (events c)) (console c) (alerts c)).

(** [console.error(err)] *)
Definition console_error (err : exn) : M t unit :=
  modify (fun c => mk (gitUrl c) (tasks c) (zipToken c) (runId c) (events c)
                      (console c ++ [err])%list (alerts c)).

(** [alert(text)] *)
Definition alert (text : string) : M t unit :=
  modify (fun c => mk (gitUrl c) (tasks c) (zipToken c) (runId c) (events c)
                      (console c) (alerts c ++ [text])%list).

(** [s.split("\n")]: the pieces between line feeds; a string without one
    is its own single piece, the empty string included. *)
Fixpoint split_lines (s : string) : list string :=
  match s with
  | EmptyString => [EmptyString]
  | String c r =>
      if Ascii.eqb c "010"%char then EmptyString :: split_lines r
      else match split_lines r with
           | l :: ls => String c l :: ls
           | [] => [String c EmptyString]
           end
  end.

(** [tasks.split("\n").map((s) => s.trim()).filter(Boolean)] *)
Definition task_list (tasks : string) : list string :=
  filter (fun s => negb (String.eqb s "")) (map trim (split_lines tasks)).

(** The payload of [onStart]: [{ tasks }], then [git_url] and [zip_token]
    when the state has them. *)
Definition payload (c : t) : value :=
  let p0 := [("tasks", Arr (map Str (task_list (tasks c))))] in
  let p1 := if negb (String.eqb (gitUrl c) "")
            then assign "git_url" (Str (gitUrl c)) p0 else p0 in
  let p2 := if truthy (state (zipToken c))
            then assign "zip_token" (state (zipToken c)) p1 else p1 in
  Obj p2.

(** [disabled={!gitUrl && !zipToken}] of the Start button. *)
Definition disabled (c : t) : bool :=
  String.eqb (gitUrl c) "" && negb (truthy (state (zipToken c))).

(** [onStart], run to its end once the fetch has settled. *)
Definition onStart (fetch : Fetch.network) : M t unit :=
  p <- gets payload ;;
  started <- lift (api.p1StartRun fetch p) ;;
  run_id <- lift (get started "run_id") ;;
  setRunId (Value run_id) ;;
  setEvents (Value []).

(** [onUpload]: [file] is [e.target.files?.[0]], nothing when no file was
    chosen. *)
Definition onUpload (fetch : Fetch.network) (file : option Fetch.File) : M t unit :=
  match file with
  | None => ret tt
  | Some f =>
      try_catch
        (uploaded <- lift (api.uploadZip fetch f) ;;
         zip_token <- lift (get uploaded "zip_token") ;;
         setZipToken (Value zip_token))
        (fun err => console_error err ;; alert "Upload failed")
  end.

End P1RunForm.

(* ================================================================== *)
(** * Observations on the pages and on the wire                         *)
(* ================================================================== *)
Module Observe.
Import JS React.


(** The interactive page after the text frames [datas] have come in on the
    current socket, one after the other. *)
Definition frames_in (datas : list string) (c : P2Interactive.t) : P2Interactive.t :=
  fold_left (fun c d => snd (P2Interactive.on_net None (WebSocket.Frame d) c))
            datas c.

(** The click handlers of a tree, in document order. *)
Fixpoint clicks {H} (n : node H) : list H :=
  match n with
  | Text _ | Expr _ => []
  | Elem _ h children =>
      (match h with Some x => [x] | None => [] end ++ flat_map clicks children)%list
  | Items children => flat_map clicks children
  end.

(** A child that shows: anything but the [false] of a failed [&&]. *)
Definition shows {H} (n : node H) : bool :=
  match n with
  | Expr (Bool false) => false
  | _ => true
  end.

(** The children of an element. *)
Definition children_of {H} (n : node H) : list (node H) :=
  match n with
  | Elem _ _ children => children
  | Items children => children
  | _ => []
  end.

(** A proposal as the page expects it: [{ type: "proposal", actions }]
    with actions [{ id, summary }]. *)
Definition action (id summary : string) : value :=
  Obj [("id", Str id); ("summary", Str summary)].

Definition proposal (actions : list (string * string)) : value :=
  Obj [("type", Str "proposal");
       ("actions", Arr (map (fun a => action (fst a) (snd a)) actions))].

(** A question: [{ type: "question", choices }]. *)
Definition question (choices : list string) : value :=
  Obj [("type", Str "question"); ("choices", Arr (map Str choices))].

(** Values made of strings, booleans, [null], arrays and objects whose
    keys are all different and none of them an array index. *)
Fixpoint distinct (ks : list string) : bool :=
  match ks with
  | [] => true
  | k :: ks' => negb (existsb (String.eqb k) ks') && distinct ks'
  end.

Fixpoint plain (v : value) : bool :=
  match v with
  | Null | Bool _ | Str _ => true
  | Arr items => forallb plain items
  | Obj props =>
      forallb (fun kv => plain (snd kv)) props
      && (distinct (map fst props)
          && forallb (fun k => negb (JSON.is_index k)) (map fst props))
  | Undefined | Number _ => false
  end.

(** The fuel [JSON.parse_value] uses up on the text of a value. *)
Fixpoint need (v : value) : nat :=
  match v with
  | Arr items =>
      S ((fix elements (l : list value) : nat :=
            match l with
            | [] => 0
            | x :: l' => S (Nat.max (need x) (elements l'))
            end) items)
  | Obj props =>
      S ((fix members (l : list (string * value)) : nat :=
            match l with
            | [] => 0
            | kv :: l' => S (Nat.max (need (snd kv)) (members l'))
            end) props)
  | _ => 1
  end.

(** The text [JSON.stringify] writes, [null] where it writes nothing. *)
Definition text (v : value) : string :=
  match JSON.stringify v with
  | Some t => t
  | None => "null"
  end.

(** The string has no line feed in it. *)
Fixpoint one_line (s : string) : bool :=
  match s with
  | EmptyString => true
  | String c r => negb (Ascii.eqb c "010"%char) && one_line r
  end.

(** The property [k] of an object, if it has it. *)
Definition field (v : value) (k : string) : option value :=
  match v with
  | Obj props => lookup k props
  | _ => None
  end.

(** What a typed event shows: the block of its tag, with the event's
    fields in it; the place of that block among the six children of a
    row; and the row. *)
Definition details (f : types.FileDiff) : LogStream.view :=
  LogStream.el "details"
    [LogStream.el "summary" [Text "🧩 "; Expr (Str (types.path f))];
     LogStream.el "pre" [Expr (Str (types.patch f))]].

Definition score (o : option number) (blank : value) : value :=
  match o with
  | Some n => Number n
  | None => blank
  end.

Definition block (e : types.RunEvent) : LogStream.view :=
  match e with
  | types.output _ text => LogStream.el "code" [Expr (Str text)]
  | types.step _ tool summary =>
      LogStream.el "div" [Text "🔧 ";
                          LogStream.el "b" [Expr (Str (types.Tool_name tool))];
                          Text " — "; Expr (Str summary)]
  | types.status _ state _ =>
      LogStream.el "div" [Text "📡 "; Expr (Str (types.RunState.name state))]
  | types.error message => LogStream.el "div" [Text "⛔ "; Expr (Str message)]
  | types.metrics coverage refactor combo =>
      LogStream.el "div"
        [Text "📊 coverage "; Expr (score coverage (Str "-"));
         Text "% · refactor "; Expr (score refactor (Str "-"));
         Text " · combo "; Expr (score combo (int 0));
         Text "x"]
  | types.diff files => Items (map details files)
  end.

Definition slot (e : types.RunEvent) : nat :=
  match e with
  | types.output _ _ => 0
  | types.step _ _ _ => 1
  | types.status _ _ _ => 2
  | types.error _ => 3
  | types.metrics _ _ _ => 4
  | types.diff _ => 5
  end.

Definition row_of (e : types.RunEvent) : LogStream.view :=
  LogStream.el "div"
    (map (fun k => if Nat.eqb k (slot e) then block e else nothing)
         [0; 1; 2; 3; 4; 5]).

(** The six tags of [RunEvent]. *)
Definition tags : list string :=
  ["output"; "step"; "status"; "error"; "metrics"; "diff"].

(** [v.type] is none of the six tags. *)
Definition untagged (v : value) : bool :=
  match get v "type" with
  | Ok ty => negb (existsb (is_str ty) tags)
  | Throw _ => false
  end.

End Observe.

(** The texts of the items of an array and of the members of an object,
    as [JSON.stringify] lays them out. *)
Notation items_text xs := (join "," (map Observe.text xs)).
Notation member_text kv :=
  (JSON.quote (fst kv) ++ String ":" (Observe.text (snd kv)))%string.
Notation members_text ps := (join "," (map (fun kv => member_text kv) ps)).

(* ================================================================== *)
(** * More concrete pages and messages                                  *)
(* ================================================================== *)
Module Sample2.
Import JS.

Definition zip_z1 : Fetch.network :=
  fun _ => Ok (Fetch.mkResponse 200 (JSON.wire "{'zip_token':'z1'}")).

Definition run_r1 : Fetch.network :=
  fun _ => Ok (Fetch.mkResponse 200 (JSON.wire "{'run_id':'r1'}")).

Definition a_zip : Fetch.File := Fetch.mkFile "src.zip" "PK".

(** The form with a git URL and two tasks around a blank line. *)
Definition form : P1RunForm.t :=
  P1RunForm.mk "https://x/y.git"
    (String "a" (String "010" (String " " (String "010" (String " " (String "b" ""))))))
    (React.useState Undefined) (React.useState Undefined) (React.useState [])
    [] [].



(** The interactive page with its socket closing. *)
Definition closing : P2Interactive.t :=
  snd (P2Interactive.cleanup Sample.opened).

(** The run page, listening on an open stream, with an empty log. *)
Definition listening : P1Run.t :=
  P1Run.mk (Str "r1") Undefined (React.useState [])
           (Some (EventSource.mk "/api/p1/stream/r1" EventSource.OPEN false 1)).

(** The interactive page after a second start. *)
Definition restarted : P2Interactive.t :=
  snd (P2Interactive.onStart Sample.location Sample.session_s1 Sample.opened).

End Sample2.

(* ================================================================== *)
(** * Properties                                                        *)
(* ================================================================== *)

(** ** The update queue *)

Section Queue.
Context {T : Type}.
Implicit Types (s : T) (q : list (React.action T)).

Lemma reduce_app s q1 q2 :
  React.reduce s (q1 ++ q2)%list
  = rbind (React.reduce s q1) (fun s' => React.reduce s' q2).
Proof.
  revert s; induction q1 as [|a q1 IH]; intros s; simpl; [reflexivity|].
  destruct (React.apply s a); simpl; [apply IH | reflexivity].
Qed.

(** A plain value at the end of the queue wins over all that came before
    it, as long as none of it throws. *)
Lemma reduce_then_value s q s' v :
  React.reduce s q = Ok s' ->
  React.reduce s (q ++ [React.Value v])%list = Ok v.
Proof. intros H; rewrite reduce_app, H; reflexivity. Qed.

Lemma render_dispatch_value (h : React.hook T) s' v :
  React.reduce (React.state h) (React.queue h) = Ok s' ->
  React.render (React.dispatch (React.Value v) h) = Ok (React.mkHook v []).
Proof.
  intros H; unfold React.render, React.dispatch; simpl.
  rewrite (reduce_then_value _ _ _ v H); reflexivity.
Qed.

End Queue.

Lemma reduce_appends (s ms : list value) :
  React.reduce s (map (fun m => React.Updater (P2Interactive.append m)) ms)
  = Ok (s ++ ms)%list.
Proof.
  revert s; induction ms as [|m ms IH]; intros s; simpl.
  - now rewrite app_nil_r.
  - rewrite IH, <- app_assoc; reflexivity.
Qed.

(** ** Session bootstrap (api.ts) *)

Lemma unwrap_spec (r : Fetch.Response) :
  api.unwrap r
  = if Fetch.ok r then JSON.parse (Fetch.body_text r)
    else Throw (Error (Fetch.body_text r)).
Proof. unfold api.unwrap; destruct (Fetch.ok r); reflexivity. Qed.

(** C2, as stated, fails: the response is successful (status 200) and the
    call throws all the same, the [SyntaxError] of [r.json()] on a body that
    is not JSON. *)
Lemma bootstrap_success_may_throw :
  Fetch.ok (Fetch.mkResponse 200 "<html>") = true
  /\ api.p1StartRun Sample.html_200 (Obj [("tasks", Arr [Str "a"])]) = Throw SyntaxError
  /\ api.p2CreateSession Sample.html_200 (Obj []) = Throw SyntaxError
  /\ api.uploadZip Sample.html_200 (Fetch.mkFile "a.zip" "PK") = Throw SyntaxError.
Proof. vm_compute. repeat split. Qed.

(** C2, amended: for each of the three bootstrap calls, when the fetch
    yields a response, a status outside 200-299 makes the call throw an
    [Error] whose message is exactly the body text; a status inside it makes
    the call return what [JSON.parse] makes of the body, that is the parsed
    value when the body is JSON and a thrown [SyntaxError] when it is not. *)
Theorem bootstrap_contract (fetch : Fetch.network) (r : Fetch.Response) :
  (forall payload,
      fetch (api.p1StartRun_request payload) = Ok r ->
      api.p1StartRun fetch payload
      = if Fetch.ok r then JSON.parse (Fetch.body_text r)
        else Throw (Error (Fetch.body_text r)))
  /\ (forall payload,
      fetch (api.p2CreateSession_request payload) = Ok r ->
      api.p2CreateSession fetch payload
      = if Fetch.ok r then JSON.parse (Fetch.body_text r)
        else Throw (Error (Fetch.body_text r)))
  /\ (forall file,
      fetch (api.uploadZip_request file) = Ok r ->
      api.uploadZip fetch file
      = if Fetch.ok r then JSON.parse (Fetch.body_text r)
        else Throw (Error (Fetch.body_text r))).
Proof.
  repeat split; intros x H;
    [unfold api.p1StartRun | unfold api.p2CreateSession | unfold api.uploadZip];
    rewrite H; simpl; apply unwrap_spec.
Qed.

Lemma bootstrap_contract_witness :
  Sample.bad_input_400 (api.p1StartRun_request (Obj [])) = Ok (Fetch.mkResponse 400 "bad input")
  /\ api.p1StartRun Sample.bad_input_400 (Obj []) = Throw (Error "bad input").
Proof.
  split; [reflexivity|].
  exact (proj1 (bootstrap_contract Sample.bad_input_400 (Fetch.mkResponse 400 "bad input"))
               (Obj []) eq_refl).
Defined.

(** ** Closing (stream.ts, ws.ts) *)

Lemma times_fixed {A} (f : A -> result A) (a b : A) (n : nat) :
  f a = Ok b -> f b = Ok b -> times (S n) f a = Ok b.
Proof.
  intros Ha Hb; simpl; rewrite Ha; simpl.
  induction n as [|n IH]; simpl; [reflexivity|].
  rewrite Hb; simpl; exact IH.
Qed.

Lemma ws_close_ok (w : WebSocket.t) :
  exists w', ws.close w = Ok w' /\ ws.close w' = Ok w'.
Proof.
  destruct w as [u [] out]; unfold ws.close, WebSocket.close; simpl;
    eexists; split; reflexivity.
Qed.

(** C6: closing is idempotent.  Whatever state the stream or the socket is
    in (closed ones included) and however often the closer is called, no
    call throws, and one or more calls leave what a single call leaves; the
    same holds for the page's clean-up [wsRef.current?.close()], with or
    without a socket. *)
Theorem close_is_idempotent :
  (forall (es : EventSource.t) (n : nat),
      times (S n) stream.off es = stream.off es
      /\ exists es', stream.off es = Ok es'
                     /\ EventSource.state es' = EventSource.CLOSED)
  /\ (forall (w : WebSocket.t) (n : nat),
      times (S n) ws.close w = ws.close w
      /\ exists w', ws.close w = Ok w')
  /\ (forall (c : P2Interactive.t),
      exists c', P2Interactive.cleanup c = (Ok tt, c')
                 /\ P2Interactive.cleanup c' = (Ok tt, c')).
Proof.
  split; [|split].
  - intros es n; split.
    + apply times_fixed; reflexivity.
    + eexists; split; reflexivity.
  - intros w n; destruct (ws_close_ok w) as (w' & H1 & H2); split.
    + rewrite H1; apply times_fixed; assumption.
    + eauto.
  - intros c; unfold P2Interactive.cleanup, P2Interactive.current.
    destruct c as [a d sid ch inp [w|] st]; simpl.
    + destruct (ws_close_ok w) as (w' & H1 & H2); rewrite H1.
      eexists; split; [reflexivity|]; simpl; rewrite H2; reflexivity.
    + eexists; split; reflexivity.
Qed.

(** ** Rendering a metrics event (LogStream.tsx) *)

(** C7: a metrics event without [coverage], [refactor] and [combo] renders
    with the placeholder ["-"] for the two absent scores and with the number
    0 for the combo; the render succeeds and React accepts every child, so
    no [undefined] gets through. *)
Theorem metrics_without_fields (props : list (string * value)) :
  lookup "type" props = Some (Str "metrics") ->
  lookup "coverage" props = None ->
  lookup "refactor" props = None ->
  lookup "combo" props = None ->
  let shown :=
    LogStream.el "div"
      [React.nothing; React.nothing; React.nothing; React.nothing;
       LogStream.el "div"
         [React.Text "📊 coverage "; React.Expr (Str "-");
          React.Text "% · refactor "; React.Expr (Str "-");
          React.Text " · combo "; React.Expr (int 0);
          React.Text "x"];
       React.nothing] in
  LogStream.row (Obj props) = Ok shown
  /\ React.commit shown = Ok shown.
Proof.
  intros Ht Hc Hr Hk; split; [|reflexivity].
  unfold LogStream.row, React.when, get; rewrite Ht, Hc, Hr, Hk; reflexivity.
Qed.

Lemma metrics_without_fields_witness :
  JSON.parse (JSON.wire "{'type':'metrics'}") = Ok (Obj [("type", Str "metrics")])
  /\ LogStream.row (Obj [("type", Str "metrics")])
     = Ok (LogStream.el "div"
             [React.nothing; React.nothing; React.nothing; React.nothing;
              LogStream.el "div"
                [React.Text "📊 coverage "; React.Expr (Str "-");
                 React.Text "% · refactor "; React.Expr (Str "-");
                 React.Text " · combo "; React.Expr (int 0);
                 React.Text "x"];
              React.nothing]).
Proof.
  split; [vm_compute; reflexivity|].
  exact (proj1 (metrics_without_fields [("type", Str "metrics")]
                  eq_refl eq_refl eq_refl eq_refl)).
Defined.

(** ** The run page's event log (P1Run.tsx) *)

(** The callback of the stream never throws: its [try] holds only the call
    of the setter, and the setter queues the updater without running it. *)
Lemma onEvent_queues (data : string) (c : P1Run.t) :
  P1Run.onEvent data c
  = (Ok tt, P1Run.mk (P1Run.runId c) (P1Run.zipToken c)
                     (React.dispatch (React.Updater (P1Run.append_parsed data))
                                     (P1Run.events c))
                     (P1Run.es c)).
Proof. reflexivity. Qed.

(** C1 at a frame that is not JSON.  The page has its stream open and an
    empty log.  The handler returns normally and leaves the updater in the
    queue: its [catch] has caught nothing.  The next render runs the updater,
    [JSON.parse] throws there, and the page is taken down, where the log as
    specified would have dropped the frame and stayed empty. *)
Theorem malformed_frame_unmounts_run_page :
  let after_frame := P1Run.step Sample.run_page (P1Run.Net (EventSource.Data "{")) in
  P1Run.log Sample.run_page = Some []
  /\ P1Run.receiving Sample.run_page = true
  /\ JSON.parse "{" = Throw SyntaxError
  /\ (exists c, after_frame = P1Run.Live c
                /\ React.queue (P1Run.events c)
                   = [React.Updater (P1Run.append_parsed "{")])
  /\ P1Run.step after_frame P1Run.Render = P1Run.Unmounted SyntaxError
  /\ P1Run.log (P1Run.run (P1Run.frames ["{"]) Sample.run_page) = None
  /\ lenient_log ["{"] = [].
Proof.
  cbv zeta. repeat split; try (vm_compute; reflexivity).
  eexists; split; vm_compute; reflexivity.
Qed.

(** The same for any frame that does not parse, on any page whose queue is
    empty. *)
Lemma unparsable_frame_unmounts (c : P1Run.t) (x : EventSource.t)
      (data : string) (e : exn) :
  P1Run.es c = Some x ->
  EventSource.state x = EventSource.OPEN ->
  React.queue (P1Run.events c) = [] ->
  JSON.parse data = Throw e ->
  P1Run.run (P1Run.frames [data]) (P1Run.Live c) = P1Run.Unmounted e.
Proof.
  intros Hes Hopen Hq Hparse.
  destruct c as [rid zt [st q] es]; simpl in *; subst.
  unfold P1Run.on_net; simpl.
  destruct x as [u s w f]; simpl in *; subst; simpl.
  unfold P1Run.render, React.render; simpl.
  unfold P1Run.append_parsed; rewrite Hparse; reflexivity.
Qed.

(** ** Events that are what types.ts says they are *)

Lemma mountable_embed {H} (n : React.node Empty_set) :
  React.mountable (@React.embed H n) = React.mountable n.
Proof.
  revert n; fix IH 1; intros [s|v|tag h cs|cs]; simpl; try reflexivity.
  - induction cs as [|c cs IHcs]; simpl; [reflexivity|].
    rewrite IH, IHcs; reflexivity.
  - induction cs as [|c cs IHcs]; simpl; [reflexivity|].
    rewrite IH, IHcs; reflexivity.
Qed.

Lemma required_string (ps : list (string * value)) (k : string) :
  types.required ps k types.is_string = true ->
  exists s, lookup k ps = Some (Str s).
Proof.
  unfold types.required; destruct (lookup k ps) as [[]|]; try discriminate; eauto.
Qed.

Lemma required_one_of (ps : list (string * value)) (k : string)
      (names : list string) :
  types.required ps k (types.one_of names) = true ->
  exists s, lookup k ps = Some (Str s) /\ In s names.
Proof.
  unfold types.required, types.one_of.
  destruct (lookup k ps) as [[| | | |s| |]|]; try discriminate.
  intros H; exists s; split; [reflexivity|].
  apply existsb_exists in H as (n & Hin & Heq).
  apply String.eqb_eq in Heq; subst; exact Hin.
Qed.

Lemma optionally_number (ps : list (string * value)) (k : string) :
  types.optionally ps k types.is_number = true ->
  lookup k ps = None \/ lookup k ps = Some Undefined
  \/ exists n, lookup k ps = Some (Number n).
Proof.
  unfold types.optionally; destruct (lookup k ps) as [[]|]; try discriminate; eauto.
Qed.

Lemma file_details_typed (items : list value) :
  forallb types.is_FileDiff items = true ->
  exists ys,
    traverse LogStream.file_details items = Ok ys
    /\ forallb React.mountable ys = true.
Proof.
  induction items as [|f items IH]; simpl; intros H.
  - exists []; split; reflexivity.
  - apply andb_prop in H as [Hf Hitems].
    destruct (IH Hitems) as (ys & H1 & H2).
    destruct f as [| | | | | |ps]; try discriminate.
    simpl in Hf; apply andb_prop in Hf as [Hpath Hpatch].
    destruct (required_string _ _ Hpath) as (a & Ha).
    destruct (required_string _ _ Hpatch) as (b & Hb).
    unfold LogStream.file_details at 1, get; rewrite Ha, Hb; simpl.
    rewrite H1; simpl; eexists; split; [reflexivity|]; simpl; exact H2.
Qed.

(** The markup of an entry never throws on a value of the type [RunEvent],
    and React accepts what it returns. *)
Lemma row_typed (v : value) :
  types.is_RunEvent v = true ->
  exists r, LogStream.row v = Ok r /\ React.mountable r = true.
Proof.
  destruct v as [| | | | | |ps]; try discriminate.
  unfold types.is_RunEvent.
  destruct (lookup "type" ps) as [[| | | |tag| |]|] eqn:Ht; try discriminate.
  unfold LogStream.row, React.when, get; rewrite Ht; cbn [rbind is_str].
  destruct (String.eqb tag "status") eqn:E1;
    [apply String.eqb_eq in E1; subst tag|].
  { intros H; apply andb_prop in H as [H _]; apply andb_prop in H as [_ Hs].
    destruct (required_one_of _ _ _ Hs) as (s & -> & _); simpl.
    eexists; split; reflexivity. }
  destruct (String.eqb tag "step") eqn:E2;
    [apply String.eqb_eq in E2; subst tag|].
  { intros H; apply andb_prop in H as [H Hsum]; apply andb_prop in H as [_ Htool].
    destruct (required_one_of _ _ _ Htool) as (t & -> & _).
    destruct (required_string _ _ Hsum) as (s & ->); simpl.
    eexists; split; reflexivity. }
  destruct (String.eqb tag "output") eqn:E3;
    [apply String.eqb_eq in E3; subst tag|].
  { intros H; apply andb_prop in H as [_ Htext].
    destruct (required_string _ _ Htext) as (s & ->); simpl.
    eexists; split; reflexivity. }
  destruct (String.eqb tag "diff") eqn:E4;
    [apply String.eqb_eq in E4; subst tag|].
  { unfold types.required, types.is_FileDiffs.
    destruct (lookup "files" ps) as [[| | | | |items|]|]; try discriminate.
    intros H; destruct (file_details_typed items H) as (ys & H1 & H2); simpl.
    unfold LogStream.view in *; rewrite H1; simpl.
    eexists; split; [reflexivity|]; simpl; rewrite H2; reflexivity. }
  destruct (String.eqb tag "metrics") eqn:E5;
    [apply String.eqb_eq in E5; subst tag|].
  { intros H; apply andb_prop in H as [H Hk]; apply andb_prop in H as [Hc Hr].
    destruct (optionally_number _ _ Hc) as [-> | [-> | (c & ->)]];
      destruct (optionally_number _ _ Hr) as [-> | [-> | (r & ->)]];
      destruct (optionally_number _ _ Hk) as [-> | [-> | (k & ->)]];
      simpl; eexists; split; reflexivity. }
  destruct (String.eqb tag "error") eqn:E6;
    [apply String.eqb_eq in E6; subst tag | discriminate].
  intros H; destruct (required_string _ _ H) as (s & ->); simpl.
  eexists; split; reflexivity.
Qed.

Lemma rows_typed (vs : list value) :
  forallb types.is_RunEvent vs = true ->
  exists rows,
    traverse LogStream.row vs = Ok rows
    /\ forallb React.mountable rows = true.
Proof.
  induction vs as [|v vs IH]; simpl; intros H.
  - exists []; split; reflexivity.
  - apply andb_prop in H as [Hv Hvs].
    destruct (IH Hvs) as (rows & H1 & H2).
    destruct (row_typed v Hv) as (r & Hr & Hm).
    unfold LogStream.view in *; rewrite Hr, H1; simpl.
    eexists; split; [reflexivity|]; simpl; rewrite Hm, H2; reflexivity.
Qed.

Lemma forallb_embed {H} (rows : list LogStream.view) :
  forallb React.mountable (map (@React.embed H) rows)
  = forallb React.mountable rows.
Proof.
  induction rows as [|r rows IH]; simpl; [reflexivity|].
  rewrite mountable_embed, IH; reflexivity.
Qed.

(** When the page has rendered with an empty log, it renders with any log
    of typed events: the label and the run id are what they were. *)
Lemma markup_typed (zipToken runId : value) (vs : list value) :
  (exists tree,
      rbind (P1Run.markup zipToken runId []) React.commit = Ok tree) ->
  forallb types.is_RunEvent vs = true ->
  exists tree,
    rbind (P1Run.markup zipToken runId vs) React.commit = Ok tree.
Proof.
  intros (tree0 & H0) Hvs.
  destruct (rows_typed vs Hvs) as (rows & H1 & H2).
  unfold P1Run.markup, P1Run.live_log, LogStream.LogStream in *.
  destruct (P1Run.zip_label zipToken) as [label|e]; [|discriminate H0].
  unfold LogStream.view in *; rewrite H1.
  cbn [rbind traverse] in *.
  unfold React.commit in *.
  match type of H0 with
  | (if React.mountable ?t then _ else _) = _ =>
      destruct (React.mountable t) eqn:E0; [|discriminate H0]
  end.
  cbn in E0.
  match goal with
  | |- exists _, (if React.mountable ?t then _ else _) = _ =>
      assert (E : React.mountable t = true)
  end.
  { cbn. rewrite forallb_embed, H2.
    destruct (React.valid_child label); [|discriminate E0].
    destruct (React.mountable (P1Run.run_span runId)); [|discriminate E0].
    reflexivity. }
  rewrite E; eauto.
Qed.

Lemma reduce_parsed (log : list value) (ds : list string) (vs : list value) :
  Forall2 carries ds vs ->
  React.reduce log (map (fun d => React.Updater (P1Run.append_parsed d)) ds)
  = Ok (log ++ vs)%list.
Proof.
  intros H; revert log; induction H as [|d v ds vs [Hd _] _ IH]; intros log; simpl.
  - now rewrite app_nil_r.
  - unfold P1Run.append_parsed at 1; rewrite Hd; simpl.
    rewrite IH, <- app_assoc; reflexivity.
Qed.

Lemma carried_typed (ds : list string) (vs : list value) :
  Forall2 carries ds vs -> forallb types.is_RunEvent vs = true.
Proof.
  induction 1 as [|d v ds vs [_ Hv] _ IH]; simpl; [reflexivity|].
  rewrite Hv, IH; reflexivity.
Qed.

Lemma tracks_frame c shown ds queued d v :
  tracks c shown ds queued -> carries d v ->
  exists c',
    P1Run.step (P1Run.Live c) (P1Run.Net (EventSource.Data d)) = P1Run.Live c'
    /\ P1Run.es c' = P1Run.es c
    /\ tracks c' shown (ds ++ [d]) (queued ++ [v]).
Proof.
  intros [(x & Hx & Hopen) Hp Hs Hsh Hq Hf] Hd.
  destruct c as [rid zt [st q] es]; simpl in *; subst.
  destruct x as [u s w f]; simpl in *; subst.
  eexists; split; [reflexivity|]; split; [reflexivity|].
  constructor; simpl.
  - eexists; split; reflexivity.
  - exact Hp.
  - reflexivity.
  - exact Hsh.
  - now rewrite map_app.
  - apply Forall2_app; [assumption | constructor; [assumption | constructor]].
Qed.

Lemma tracks_render c shown ds queued :
  tracks c shown ds queued ->
  exists c',
    P1Run.render c = P1Run.Live c'
    /\ P1Run.es c' = P1Run.es c
    /\ tracks c' (shown ++ queued) [] [].
Proof.
  intros [Hopen Hp Hs Hsh Hq Hf].
  assert (Hall : forallb types.is_RunEvent (shown ++ queued) = true)
    by (rewrite forallb_app, Hsh, (carried_typed _ _ Hf); reflexivity).
  unfold P1Run.render, React.render.
  rewrite Hs, Hq, (reduce_parsed _ _ _ Hf); simpl.
  destruct (markup_typed _ _ _ Hp Hall) as (tree & Ht); rewrite Ht.
  eexists; split; [reflexivity|]; split; [reflexivity|].
  constructor; simpl; auto; constructor.
Qed.

Lemma typed_frames_reach_log :
  forall inputs c shown ds queued vs,
    tracks c shown ds queued ->
    forallb P1Run.calm inputs = true ->
    Forall2 carries (P1Run.payloads inputs) vs ->
    P1Run.log (P1Run.run (inputs ++ [P1Run.Render]) (P1Run.Live c))
    = Some (shown ++ queued ++ vs)%list.
Proof.
  induction inputs as [|i inputs IH]; intros c shown ds queued vs T Hcalm Hp.
  - simpl in Hp; inversion Hp; subst; simpl.
    destruct (tracks_render _ _ _ _ T) as (c' & Hr & _ & [_ _ Hs _ _ _]).
    rewrite Hr; simpl; rewrite Hs, app_nil_r; reflexivity.
  - simpl in Hcalm; apply andb_prop in Hcalm as [Hi Hcalm].
    destruct i as [[| d | | |]|]; try discriminate.
    + simpl in Hp; inversion Hp as [|d' v ds' vs' Hd Hrest]; subst.
      destruct (tracks_frame _ _ _ _ d v T Hd) as (c' & Hstep & _ & T').
      change (P1Run.run ((P1Run.Net (EventSource.Data d) :: inputs) ++ [P1Run.Render])
                        (P1Run.Live c))
        with (P1Run.run (inputs ++ [P1Run.Render])
                        (P1Run.step (P1Run.Live c) (P1Run.Net (EventSource.Data d)))).
      rewrite Hstep, (IH _ _ _ _ _ T' Hcalm Hrest).
      rewrite <- !app_assoc; reflexivity.
    + destruct (tracks_render _ _ _ _ T) as (c' & Hr & _ & T').
      change (P1Run.run ((P1Run.Render :: inputs) ++ [P1Run.Render]) (P1Run.Live c))
        with (P1Run.run (inputs ++ [P1Run.Render]) (P1Run.render c)).
      rewrite Hr, (IH _ _ _ _ _ T' Hcalm Hp); simpl.
      rewrite <- app_assoc; reflexivity.
Qed.

Lemma lenient_log_typed (ds : list string) (vs : list value) :
  Forall2 carries ds vs -> lenient_log ds = vs.
Proof.
  induction 1 as [|d v ds vs [Hd _] _ IH]; simpl; [reflexivity|].
  rewrite Hd, IH; reflexivity.
Qed.

Lemma lenient_log_length (ds : list string) :
  length (lenient_log ds) <= length ds.
Proof.
  induction ds as [|d ds IH]; simpl; [lia|].
  destruct (JSON.parse d); simpl; lia.
Qed.

(** What a start leaves when its render goes through. *)
Lemma started_live (zipToken runId : value) (c0 : P1Run.t) :
  P1Run.started zipToken runId = P1Run.Live c0 ->
  c0 = P1Run.mk runId zipToken (React.mkHook [] []) (P1Run.effect runId)
  /\ exists tree,
      rbind (P1Run.markup zipToken runId []) React.commit = Ok tree.
Proof.
  unfold P1Run.started, P1Run.render; simpl.
  destruct (rbind (P1Run.markup zipToken runId []) React.commit) as [tree|e];
    [|discriminate].
  intros H; inversion H; subst; split; [reflexivity | eauto].
Qed.

Lemma started_tracks (zipToken runId : value) (c0 : P1Run.t) :
  truthy runId = true ->
  P1Run.started zipToken runId = P1Run.Live c0 ->
  exists c,
    P1Run.step (P1Run.Live c0) (P1Run.Net EventSource.Opened) = P1Run.Live c
    /\ tracks c [] [] [].
Proof.
  intros Hid H0; destruct (started_live _ _ _ H0) as [-> Hp].
  unfold P1Run.effect; rewrite Hid.
  eexists; split; [reflexivity|].
  constructor; simpl; try reflexivity; [ | exact Hp | constructor].
  eexists; split; reflexivity.
Qed.

(** Where the run page's log is the log as specified: on the frames of an
    open stream that all carry typed events. *)
Lemma typed_log_is_lenient_log (zipToken runId : value) (c0 : P1Run.t)
      (inputs : list P1Run.input) (vs : list value) :
  truthy runId = true ->
  P1Run.started zipToken runId = P1Run.Live c0 ->
  forallb P1Run.calm inputs = true ->
  Forall2 carries (P1Run.payloads inputs) vs ->
  P1Run.log (P1Run.run (P1Run.Net EventSource.Opened :: inputs ++ [P1Run.Render])
                       (P1Run.started zipToken runId))
  = Some (lenient_log (P1Run.payloads inputs)).
Proof.
  intros Hid H0 Hcalm Hp.
  destruct (started_tracks _ _ _ Hid H0) as (c & Hc & T).
  rewrite H0.
  change (P1Run.run (P1Run.Net EventSource.Opened :: inputs ++ [P1Run.Render])
                    (P1Run.Live c0))
    with (P1Run.run (inputs ++ [P1Run.Render])
                    (P1Run.step (P1Run.Live c0) (P1Run.Net EventSource.Opened))).
  rewrite Hc, (typed_frames_reach_log _ _ _ _ _ _ T Hcalm Hp).
  rewrite (lenient_log_typed _ _ Hp); reflexivity.
Qed.





(** ** Transport errors of the stream (stream.ts) *)

Lemma run_unmounted (inputs : list P1Run.input) (e : exn) :
  P1Run.run inputs (P1Run.Unmounted e) = P1Run.Unmounted e.
Proof. induction inputs as [|i inputs IH]; simpl; [reflexivity | exact IH]. Qed.

(** To a page that is not receiving, the network does nothing at all. *)
Lemma deaf_to_net (c : P1Run.t) (n : EventSource.net) :
  P1Run.receiving (P1Run.Live c) = false ->
  P1Run.step (P1Run.Live c) (P1Run.Net n) = P1Run.Live c.
Proof.
  destruct c as [rid zt ev [[u [] w f]|]]; simpl; try discriminate;
    intros _; unfold P1Run.on_net; simpl; reflexivity.
Qed.

Lemma render_keeps_stream (c : P1Run.t) :
  P1Run.receiving (P1Run.render c) = false
  \/ exists c', P1Run.render c = P1Run.Live c' /\ P1Run.es c' = P1Run.es c.
Proof.
  unfold P1Run.render.
  destruct (React.render (P1Run.events c)) as [h|e]; [|left; reflexivity].
  destruct (rbind _ _); [right; eauto | left; reflexivity].
Qed.

Lemma deaf_run (inputs : list P1Run.input) :
  forall p, P1Run.receiving p = false ->
            P1Run.run inputs p = P1Run.run (P1Run.renders inputs) p.
Proof.
  induction inputs as [|i inputs IH]; intros p Hp; [reflexivity|].
  destruct p as [c|e]; [|now rewrite !run_unmounted].
  destruct i as [n|].
  - change (P1Run.run inputs (P1Run.step (P1Run.Live c) (P1Run.Net n))
            = P1Run.run (P1Run.renders inputs) (P1Run.Live c)).
    rewrite (deaf_to_net c n Hp); apply IH, Hp.
  - change (P1Run.run inputs (P1Run.render c)
            = P1Run.run (P1Run.renders inputs) (P1Run.render c)).
    apply IH.
    destruct (render_keeps_stream c) as [H|(c' & Hr & Hes)]; [exact H|].
    rewrite Hr; simpl in *; rewrite Hes; exact Hp.
Qed.

Lemma error_closes (c : P1Run.t) (n : EventSource.net) :
  n = EventSource.Lost \/ n = EventSource.Failed ->
  P1Run.receiving (P1Run.step (P1Run.Live c) (P1Run.Net n)) = false.
Proof.
  intros [-> | ->]; destruct c as [rid zt ev [[u [] w f]|]]; reflexivity.
Qed.

(** C8: after a transport error of the stream, be it a lost connection,
    which a browser left alone would open again, or a fatal one, the stream
    is closed and stays so: whatever the network and the reconnection timer
    do from then on changes nothing on the page, no connection is started
    and no frame reaches the log; only renders still act. *)
Theorem stream_error_closes_for_good :
  forall (c : P1Run.t) (inputs : list P1Run.input),
    let lost := P1Run.step (P1Run.Live c) (P1Run.Net EventSource.Lost) in
    let failed := P1Run.step (P1Run.Live c) (P1Run.Net EventSource.Failed) in
    P1Run.receiving lost = false
    /\ P1Run.run inputs lost = P1Run.run (P1Run.renders inputs) lost
    /\ P1Run.receiving failed = false
    /\ P1Run.run inputs failed = P1Run.run (P1Run.renders inputs) failed.
Proof.
  intros c inputs lost failed.
  assert (Hl : P1Run.receiving lost = false) by (apply error_closes; auto).
  assert (Hf : P1Run.receiving failed = false) by (apply error_closes; auto).
  repeat split; auto using deaf_run.
Qed.

(** ** Inbound frames of the channel (ws.ts) *)

Lemma onmessage_unparsable {W} (onMsg : value -> M W unit) (data : string)
      (e : exn) (w : W) :
  JSON.parse data = Throw e ->
  ws.onmessage onMsg data w = (Throw e, w).
Proof.
  intros H; unfold ws.onmessage, bind, lift; rewrite H; reflexivity.
Qed.

(** C3 at a frame that is not JSON.  The handler of ws.ts parses outside
    any [try]: the [SyntaxError] leaves the handler, on any page; [onMsg] is
    not reached and the page, its chat included, is as it was.  So it is for
    the frame as the browser hands it to the open socket of a page. *)
Theorem malformed_frame_escapes_ws_handler :
  forall c : P2Interactive.t,
    JSON.parse "not json" = Throw SyntaxError
    /\ ws.onmessage P2Interactive.onMsg "not json" c = (Throw SyntaxError, c)
    /\ P2Interactive.on_net None (WebSocket.Frame "not json") Sample.opened
       = (Throw SyntaxError, Sample.opened).
Proof.
  intros c.
  assert (H : JSON.parse "not json" = Throw SyntaxError) by (vm_compute; reflexivity).
  split; [exact H|]; split.
  - apply onmessage_unparsable, H.
  - vm_compute; reflexivity.
Qed.

(** ** Sending on the channel (ws.ts, P2Interactive.tsx) *)


Lemma send_connecting (m : value) (c : P2Interactive.t) (w : WebSocket.t) :
  P2Interactive.wsRef c = Some w ->
  WebSocket.state w = WebSocket.CONNECTING ->
  P2Interactive.current (ws.send m) c = (Throw InvalidStateError, c).
Proof.
  intros Hw Hs; unfold P2Interactive.current, ws.send, WebSocket.send.
  rewrite Hw, Hs; reflexivity.
Qed.

Lemma send_open (m : value) (c : P2Interactive.t) (w : WebSocket.t) :
  P2Interactive.wsRef c = Some w ->
  WebSocket.state w = WebSocket.OPEN ->
  P2Interactive.current (ws.send m) c
  = (Ok tt,
     P2Interactive.mk (P2Interactive.appName c) (P2Interactive.desc c)
       (P2Interactive.sessionId c) (P2Interactive.chat c) (P2Interactive.input c)
       (Some (WebSocket.mk (WebSocket.url w) WebSocket.OPEN
                           (WebSocket.sent w ++ [ws.frame_of m])%list))
       (P2Interactive.stale c)).
Proof.
  intros Hw Hs; unfold P2Interactive.current, ws.send, WebSocket.send.
  rewrite Hw, Hs; reflexivity.
Qed.

Lemma send_closed (m : value) (c : P2Interactive.t) (w : WebSocket.t) :
  P2Interactive.wsRef c = Some w ->
  WebSocket.state w = WebSocket.CLOSING \/ WebSocket.state w = WebSocket.CLOSED ->
  P2Interactive.current (ws.send m) c = (Ok tt, c).
Proof.
  intros Hw Hs; unfold P2Interactive.current, ws.send, WebSocket.send.
  rewrite Hw; destruct c; simpl in *; subst.
  destruct Hs as [-> | ->]; reflexivity.
Qed.




(** C9, as stated, fails: the page shows a proposal with its Approve
    button for action "42", the server has closed the socket, and two
    clicks on Approve return normally and transmit nothing. *)
Lemma approve_twice_on_closed_socket :
  option_map WebSocket.state (P2Interactive.wsRef Sample.dropped)
  = Some WebSocket.CLOSED
  /\ (exists tree,
        P2Interactive.markup
          (React.state (P2Interactive.sessionId Sample.dropped))
          (React.state (P2Interactive.chat Sample.dropped)) = Ok tree
        /\ In (P2Interactive.Approve (Str "42")) (Observe.clicks tree))
  /\ (let click := P2Interactive.on_click Sample.location Sample.session_s1
                     (P2Interactive.Approve (Str "42")) in
      fst (click Sample.dropped) = Ok tt
      /\ fst (click (snd (click Sample.dropped))) = Ok tt
      /\ P2Interactive.wire (snd (click (snd (click Sample.dropped)))) = []).
Proof.
  split; [vm_compute; reflexivity|]; split.
  - eexists; split; [vm_compute; reflexivity|]; simpl; auto.
  - repeat split; vm_compute; reflexivity.
Qed.

(** C9, amended: while the channel's socket is open, two approvals of one
    action put two frames on the wire, the same frame twice, after what was
    there, and so do two rejections: nothing remembers what has been sent.
    On a socket that is closing or closed the two clicks return normally
    and transmit nothing; on one that is still connecting each click throws
    and transmits nothing. *)
Theorem approve_twice_sends_twice (c : P2Interactive.t) (w : WebSocket.t)
        (actionId : value) :
  P2Interactive.wsRef c = Some w ->
  let twice (h : M P2Interactive.t unit) := snd (h (snd (h c))) in
  (WebSocket.state w = WebSocket.OPEN ->
   fst (P2Interactive.onApprove actionId c) = Ok tt
   /\ fst (P2Interactive.onApprove actionId
             (snd (P2Interactive.onApprove actionId c))) = Ok tt
   /\ P2Interactive.wire (twice (P2Interactive.onApprove actionId))
      = (WebSocket.sent w
           ++ [ws.frame_of (Obj [("type", Str "approve"); ("actionId", actionId)]);
               ws.frame_of (Obj [("type", Str "approve"); ("actionId", actionId)])])%list
   /\ P2Interactive.wire (twice (P2Interactive.onReject actionId))
      = (WebSocket.sent w
           ++ [ws.frame_of (Obj [("type", Str "reject"); ("actionId", actionId);
                                 ("reason", Str "Not now")]);
               ws.frame_of (Obj [("type", Str "reject"); ("actionId", actionId);
                                 ("reason", Str "Not now")])])%list)
  /\ (WebSocket.state w = WebSocket.CLOSING
      \/ WebSocket.state w = WebSocket.CLOSED ->
      P2Interactive.onApprove actionId c = (Ok tt, c)
      /\ P2Interactive.onReject actionId c = (Ok tt, c)
      /\ P2Interactive.wire (twice (P2Interactive.onApprove actionId))
         = WebSocket.sent w
      /\ P2Interactive.wire (twice (P2Interactive.onReject actionId))
         = WebSocket.sent w)
  /\ (WebSocket.state w = WebSocket.CONNECTING ->
      P2Interactive.onApprove actionId c = (Throw InvalidStateError, c)
      /\ P2Interactive.onReject actionId c = (Throw InvalidStateError, c)
      /\ P2Interactive.wire (twice (P2Interactive.onApprove actionId))
         = WebSocket.sent w
      /\ P2Interactive.wire (twice (P2Interactive.onReject actionId))
         = WebSocket.sent w).
Proof.
  intros Hw twice; subst twice.
  unfold P2Interactive.onApprove, P2Interactive.onReject.
  split; [|split]; intros Hs.
  - rewrite !(send_open _ c w Hw Hs); cbn [fst snd].
    erewrite !send_open by reflexivity.
    unfold P2Interactive.wire; cbn [fst snd P2Interactive.wsRef WebSocket.sent].
    rewrite <- !app_assoc; repeat split; reflexivity.
  - rewrite !(send_closed _ c w Hw Hs); cbn [fst snd].
    rewrite ?(send_closed _ c w Hw Hs); cbn [fst snd].
    unfold P2Interactive.wire; rewrite Hw; repeat split; reflexivity.
  - rewrite !(send_connecting _ c w Hw Hs); cbn [fst snd].
    rewrite ?(send_connecting _ c w Hw Hs); cbn [fst snd].
    unfold P2Interactive.wire; rewrite Hw; repeat split; reflexivity.
Qed.

Lemma approve_twice_sends_twice_witness :
  (P2Interactive.wsRef Sample.proposed
   = Some (WebSocket.mk "wss://mojo.example/api/p2/ws/s1" WebSocket.OPEN [])
   /\ (exists tree,
         P2Interactive.markup
           (React.state (P2Interactive.sessionId Sample.proposed))
           (React.state (P2Interactive.chat Sample.proposed)) = Ok tree
         /\ In (P2Interactive.Approve (Str "42")) (Observe.clicks tree))
   /\ P2Interactive.wire
        (snd (P2Interactive.onApprove (Str "42")
                (snd (P2Interactive.onApprove (Str "42") Sample.proposed))))
      = [JSON.wire "{'type':'approve','actionId':'42'}";
         JSON.wire "{'type':'approve','actionId':'42'}"]
   /\ P2Interactive.wire
        (snd (P2Interactive.onReject (Str "42")
                (snd (P2Interactive.onReject (Str "42") Sample.proposed))))
      = [JSON.wire "{'type':'reject','actionId':'42','reason':'Not now'}";
         JSON.wire "{'type':'reject','actionId':'42','reason':'Not now'}"])
  /\ (P2Interactive.wsRef Sample.dropped
      = Some (WebSocket.mk "wss://mojo.example/api/p2/ws/s1" WebSocket.CLOSED [])
      /\ P2Interactive.onApprove (Str "42") Sample.dropped = (Ok tt, Sample.dropped))
  /\ (P2Interactive.wsRef Sample.connecting
      = Some (WebSocket.mk "wss://mojo.example/api/p2/ws/s1" WebSocket.CONNECTING [])
      /\ P2Interactive.onApprove (Str "42") Sample.connecting
         = (Throw InvalidStateError, Sample.connecting)).
Proof.
  assert (Hp : P2Interactive.wsRef Sample.proposed
               = Some (WebSocket.mk "wss://mojo.example/api/p2/ws/s1"
                                    WebSocket.OPEN []))
    by (vm_compute; reflexivity).
  assert (Hd : P2Interactive.wsRef Sample.dropped
               = Some (WebSocket.mk "wss://mojo.example/api/p2/ws/s1"
                                    WebSocket.CLOSED []))
    by (vm_compute; reflexivity).
  assert (Hc : P2Interactive.wsRef Sample.connecting
               = Some (WebSocket.mk "wss://mojo.example/api/p2/ws/s1"
                                    WebSocket.CONNECTING []))
    by (vm_compute; reflexivity).
  split; [|split].
  - split; [exact Hp|]; split.
    + eexists; split; [vm_compute; reflexivity|]; simpl; auto.
    + pose proof (proj1 (approve_twice_sends_twice Sample.proposed _ (Str "42")
                           Hp) eq_refl) as (_ & _ & Ha & Hr).
      split; [exact Ha | exact Hr].
  - split; [exact Hd|].
    exact (proj1 (proj1 (proj2 (approve_twice_sends_twice Sample.dropped _ (Str "42")
                                  Hd)) (or_intror eq_refl))).
  - split; [exact Hc|].
    exact (proj1 (proj2 (proj2 (approve_twice_sends_twice Sample.connecting _
                                  (Str "42") Hc)) eq_refl)).
Defined.

(** ** Starting the interactive session (P2Interactive.tsx) *)


Lemma received_chat (ms : list value) (c : P2Interactive.t) :
  P2Interactive.received ms c
  = P2Interactive.mk (P2Interactive.appName c) (P2Interactive.desc c)
      (P2Interactive.sessionId c)
      (React.mkHook (React.state (P2Interactive.chat c))
         (React.queue (P2Interactive.chat c)
            ++ map (fun m => React.Updater (P2Interactive.append m)) ms)%list)
      (P2Interactive.input c) (P2Interactive.wsRef c) (P2Interactive.stale c).
Proof.
  revert c; induction ms as [|m ms IH]; intros c.
  - destruct c as [a d s [st q] i w o]; simpl; rewrite app_nil_r; reflexivity.
  - change (P2Interactive.received (m :: ms) c)
      with (P2Interactive.received ms (snd (P2Interactive.onMsg m c))).
    rewrite IH; simpl; rewrite <- app_assoc; reflexivity.
Qed.







(* ================================================================== *)
(** * Further properties                                                *)
(* ================================================================== *)

(** ** What [JSON.stringify] writes, [JSON.parse] reads back *)

Lemma low_escape_reads (h1 h2 h3 h4 : ascii) (u : N) (r : string) :
  JSON.hex4 h1 h2 h3 h4 = Some u ->
  JSON.is_high u = false ->
  JSON.parse_chars
    (String JSON.backslash
       (String "u" (String h1 (String h2 (String h3 (String h4 r))))))
  = match JSON.parse_chars r with
    | Some (t, rest) => Some ((JSON.utf8 u ++ t)%string, rest)
    | None => None
    end.
Proof.
  intros Hh Hu.
  cbn [JSON.parse_chars].
  change (Ascii.eqb JSON.backslash JSON.dquote) with false.
  change (Ascii.eqb JSON.backslash JSON.backslash) with true.
  cbv iota; rewrite Hh.
  destruct r as [|a r]; [reflexivity|].
  destruct a as [[] [] [] [] [] [] [] []]; try reflexivity.
  destruct r as [|a r]; [reflexivity|].
  destruct a as [[] [] [] [] [] [] [] []]; try reflexivity.
  destruct r as [|l1 r]; [reflexivity|].
  destruct r as [|l2 r]; [reflexivity|].
  destruct r as [|l3 r]; [reflexivity|].
  destruct r as [|l4 r]; [reflexivity|].
  destruct (JSON.hex4 l1 l2 l3 l4); [|reflexivity].
  rewrite Hu; reflexivity.
Qed.

Lemma escape_char_reads (c : ascii) (r : string) :
  JSON.parse_chars (JSON.escape_char c ++ r)
  = match JSON.parse_chars r with
    | Some (t, rest) => Some (String c t, rest)
    | None => None
    end.
Proof.
  destruct c as [[] [] [] [] [] [] [] []]; try reflexivity.
  all: match goal with
       | |- JSON.parse_chars (JSON.escape_char ?c ++ ?r)%string = _ =>
           let e := eval vm_compute in (JSON.escape_char c) in
           change (JSON.escape_char c) with e
       end;
       cbn [append];
       erewrite low_escape_reads by (vm_compute; reflexivity);
       match goal with
       | |- context [JSON.parse_chars ?r] =>
           destruct (JSON.parse_chars r) as [[t rest]|]
       end; reflexivity.
Qed.

Lemma append_assoc (a b c : string) : ((a ++ b) ++ c = a ++ (b ++ c))%string.
Proof. induction a as [|x a IH]; simpl; [reflexivity | now rewrite IH]. Qed.

Lemma length_append (a b : string) :
  String.length (a ++ b) = String.length a + String.length b.
Proof. induction a as [|x a IH]; simpl; [reflexivity | now rewrite IH]. Qed.

(** A quoted string reads back as the string, whatever bytes it holds. *)
Lemma escape_reads (s rest : string) :
  JSON.parse_chars (JSON.escape s ++ String JSON.dquote rest) = Some (s, rest).
Proof.
  induction s as [|c s IH]; simpl.
  - change (Ascii.eqb JSON.dquote JSON.dquote) with true; reflexivity.
  - rewrite append_assoc, escape_char_reads, IH; reflexivity.
Qed.

Lemma quote_app (s rest : string) :
  (JSON.quote s ++ rest)%string
  = String JSON.dquote (JSON.escape s ++ String JSON.dquote rest).
Proof. unfold JSON.quote; simpl; rewrite append_assoc; reflexivity. Qed.

Lemma string_reads (f : nat) (s rest : string) :
  JSON.parse_value (S f) (JSON.quote s ++ rest) = Some (Str s, rest).
Proof.
  rewrite quote_app.
  cbn [JSON.parse_value JSON.skip_ws].
  change (JSON.is_ws JSON.dquote) with false; cbv iota.
  change (Ascii.eqb JSON.dquote "{") with false.
  change (Ascii.eqb JSON.dquote "[") with false.
  change (Ascii.eqb JSON.dquote JSON.dquote) with true.
  cbv iota; rewrite escape_reads; reflexivity.
Qed.

Lemma parse_elements_S (f : nat) (s : string) :
  JSON.parse_elements (S f) s
  = match JSON.parse_value f s with
    | None => None
    | Some (v, r) =>
        match JSON.skip_ws r with
        | String "," r' =>
            match JSON.parse_elements f r' with
            | Some (vs, r'') => Some (v :: vs, r'')
            | None => None
            end
        | String "]" r' => Some ([v], r')
        | _ => None
        end
    end.
Proof. reflexivity. Qed.

Lemma parse_members_S (f : nat) (k t : string) :
  JSON.parse_members (S f) (JSON.quote k ++ String ":" t)
  = match JSON.parse_value f t with
    | None => None
    | Some (v, r3) =>
        match JSON.skip_ws r3 with
        | String "," r4 =>
            match JSON.parse_members f r4 with
            | Some (ps, r5) => Some ((k, v) :: ps, r5)
            | None => None
            end
        | String "}" r4 => Some ([(k, v)], r4)
        | _ => None
        end
    end.
Proof.
  rewrite quote_app.
  cbn [JSON.parse_members JSON.skip_ws].
  change (JSON.is_ws JSON.dquote) with false; cbv iota.
  rewrite escape_reads; reflexivity.
Qed.

Lemma open_array (f : nat) (x : value) (t : string) :
  Observe.plain x = true ->
  JSON.parse_value (S f) (String "[" (Observe.text x ++ t))
  = match JSON.parse_elements f (Observe.text x ++ t) with
    | Some (xs, r') => Some (Arr xs, r')
    | None => None
    end.
Proof.
  destruct x as [| | [] | | | |]; try discriminate; intros _; reflexivity.
Qed.

Lemma open_object (f : nat) (k t : string) :
  JSON.parse_value (S f) (String "{" (JSON.quote k ++ t))
  = match JSON.parse_members f (JSON.quote k ++ t) with
    | Some (ps, r') => Some (Obj (JSON.build ps), r')
    | None => None
    end.
Proof. reflexivity. Qed.

Lemma plain_stringify (v : value) :
  Observe.plain v = true -> JSON.stringify v = Some (Observe.text v).
Proof.
  unfold Observe.text; destruct (JSON.stringify v) eqn:H; [reflexivity|].
  destruct v as [| | [] | | | |]; simpl in *; discriminate.
Qed.

Lemma plain_members (ps : list (string * value)) :
  forallb (fun kv => Observe.plain (snd kv)) ps = true ->
  flat_map (fun kv => match JSON.stringify (snd kv) with
                      | Some t => [(JSON.quote (fst kv) ++ ":" ++ t)%string]
                      | None => []
                      end) ps
  = map (fun kv => member_text kv) ps.
Proof.
  induction ps as [|kv ps IH]; [reflexivity|].
  cbn [forallb flat_map map]; intros H; apply andb_prop in H as [Hkv Hps].
  rewrite (plain_stringify _ Hkv), (IH Hps); reflexivity.
Qed.

Lemma text_array (xs : list value) :
  Observe.text (Arr xs) = String "[" (items_text xs ++ "]").
Proof. reflexivity. Qed.

Lemma text_object (ps : list (string * value)) :
  forallb (fun kv => Observe.plain (snd kv)) ps = true ->
  Observe.text (Obj ps) = String "{" (members_text ps ++ "}").
Proof.
  intros H; unfold Observe.text; cbn [JSON.stringify].
  rewrite (plain_members _ H); reflexivity.
Qed.

Lemma items_cons (x y : value) (ys : list value) :
  items_text (x :: y :: ys)
  = (Observe.text x ++ String "," (items_text (y :: ys)))%string.
Proof. reflexivity. Qed.

Lemma members_cons (kv kv' : string * value) (ps : list (string * value)) :
  members_text (kv :: kv' :: ps)
  = (member_text kv ++ String "," (members_text (kv' :: ps)))%string.
Proof. reflexivity. Qed.

Lemma open_items (f : nat) (x : value) (xs : list value) (t : string) :
  Observe.plain x = true ->
  JSON.parse_value (S f) (String "[" (items_text (x :: xs) ++ t))
  = match JSON.parse_elements f (items_text (x :: xs) ++ t) with
    | Some (ys, r') => Some (Arr ys, r')
    | None => None
    end.
Proof.
  intros Hx; destruct xs as [|y ys].
  - apply open_array, Hx.
  - rewrite items_cons, append_assoc; apply open_array, Hx.
Qed.

Lemma open_members (f : nat) (kv : string * value) (ps : list (string * value))
      (t : string) :
  JSON.parse_value (S f) (String "{" (members_text (kv :: ps) ++ t))
  = match JSON.parse_members f (members_text (kv :: ps) ++ t) with
    | Some (qs, r') => Some (Obj (JSON.build qs), r')
    | None => None
    end.
Proof.
  destruct ps as [|kv' ps].
  - cbn [map join]; rewrite append_assoc; apply open_object.
  - rewrite members_cons, !append_assoc; apply open_object.
Qed.

(** Different keys are assigned one after the other, each at the end. *)
Lemma assign_fresh (k : string) (v : value) (acc : list (string * value)) :
  existsb (String.eqb k) (map fst acc) = false ->
  assign k v acc = (acc ++ [(k, v)])%list.
Proof.
  induction acc as [|[k' v'] acc IH]; simpl; [reflexivity|].
  intros H; apply orb_false_elim in H as [Hk Hacc].
  rewrite Hk, (IH Hacc); reflexivity.
Qed.

Lemma build_from (ps acc : list (string * value)) :
  Observe.distinct (map fst ps) = true ->
  (forall k, In k (map fst ps) -> existsb (String.eqb k) (map fst acc) = false) ->
  fold_left (fun o kv => assign (fst kv) (snd kv) o) ps acc = (acc ++ ps)%list.
Proof.
  revert acc; induction ps as [|[k v] ps IH]; intros acc Hd Hfresh; simpl.
  - now rewrite app_nil_r.
  - simpl in Hd; apply andb_prop in Hd as [Hk Hd].
    rewrite (assign_fresh k v acc) by (apply Hfresh; simpl; auto).
    rewrite IH, <- app_assoc; [reflexivity | exact Hd |].
    intros k' Hin; rewrite map_app, existsb_app; simpl.
    rewrite (Hfresh k') by (simpl; auto); simpl.
    rewrite orb_false_r.
    apply negb_true_iff in Hk.
    destruct (String.eqb k' k) eqn:E; [|reflexivity].
    apply String.eqb_eq in E; subst k'.
    assert (Hex : existsb (String.eqb k) (map fst ps) = true).
    { apply existsb_exists; exists k; split; [exact Hin | apply String.eqb_refl]. }
    congruence.
Qed.

Lemma own_keys_order_plain (ps : list (string * value)) :
  forallb (fun k => negb (JSON.is_index k)) (map fst ps) = true ->
  JSON.own_keys_order ps = ps.
Proof.
  intros H; unfold JSON.own_keys_order.
  assert (Hfold : forall acc,
             fold_left (fun acc kv => match JSON.index_of (fst kv) with
                                      | Some n => JSON.place n kv acc
                                      | None => acc
                                      end) ps acc = acc).
  { induction ps as [|kv ps IH]; intros acc; [reflexivity|].
    simpl in H; apply andb_prop in H as [Hk Hps].
    cbn [fold_left]; unfold JSON.is_index in Hk.
    destruct (JSON.index_of (fst kv)); [discriminate Hk | exact (IH Hps acc)]. }
  rewrite Hfold; cbn [map app].
  induction ps as [|kv ps IH]; [reflexivity|].
  simpl in H; apply andb_prop in H as [Hk Hps].
  cbn [filter]; rewrite Hk, (IH Hps); [reflexivity|].
  intros acc; clear - Hps.
  revert acc; induction ps as [|kv' ps IH]; intros acc; [reflexivity|].
  simpl in Hps; apply andb_prop in Hps as [Hk Hps].
  cbn [fold_left]; unfold JSON.is_index in Hk.
  destruct (JSON.index_of (fst kv')); [discriminate Hk | exact (IH Hps acc)].
Qed.

Lemma build_distinct (ps : list (string * value)) :
  Observe.distinct (map fst ps) = true ->
  forallb (fun k => negb (JSON.is_index k)) (map fst ps) = true ->
  JSON.build ps = ps.
Proof.
  intros H Hi; unfold JSON.build; rewrite build_from; auto.
  apply own_keys_order_plain, Hi.
Qed.

Lemma need_items (x y : value) (ys : list value) :
  Observe.need (Arr (x :: y :: ys))
  = S (S (Nat.max (Observe.need x) (pred (Observe.need (Arr (y :: ys)))))).
Proof. reflexivity. Qed.

Lemma need_members (kv kv' : string * value) (ps : list (string * value)) :
  Observe.need (Obj (kv :: kv' :: ps))
  = S (S (Nat.max (Observe.need (snd kv))
                  (pred (Observe.need (Obj (kv' :: ps)))))).
Proof. reflexivity. Qed.

Lemma need_item (x : value) :
  Observe.need (Arr [x]) = S (S (Observe.need x)).
Proof. cbn [Observe.need]; rewrite Nat.max_0_r; reflexivity. Qed.

Lemma need_member (kv : string * value) :
  Observe.need (Obj [kv]) = S (S (Observe.need (snd kv))).
Proof. cbn [Observe.need]; rewrite Nat.max_0_r; reflexivity. Qed.

Lemma need_positive (v : value) : 1 <= Observe.need v.
Proof. destruct v; simpl; lia. Qed.

(** With fuel for it, the parser reads the text of a plain value back as
    the value and leaves what follows the text. *)
Lemma reads_back (f : nat) :
  (forall v rest,
      Observe.plain v = true -> Observe.need v <= f ->
      JSON.parse_value f (Observe.text v ++ rest) = Some (v, rest))
  /\ (forall x xs rest,
      forallb Observe.plain (x :: xs) = true ->
      Observe.need (Arr (x :: xs)) <= S f ->
      JSON.parse_elements f (items_text (x :: xs) ++ String "]" rest)
      = Some (x :: xs, rest))
  /\ (forall kv ps rest,
      forallb (fun kv => Observe.plain (snd kv)) (kv :: ps) = true ->
      Observe.need (Obj (kv :: ps)) <= S f ->
      JSON.parse_members f (members_text (kv :: ps) ++ String "}" rest)
      = Some (kv :: ps, rest)).
Proof.
  induction f as [|f (IHv & IHe & IHm)].
  - repeat split.
    + intros v rest _ H; pose proof (need_positive v); lia.
    + intros x xs rest _ H; simpl in H; lia.
    + intros kv ps rest _ H; simpl in H; lia.
  - repeat split.
    + intros v rest Hp Hn.
      destruct v as [| | [] | n | s | xs | ps]; try discriminate Hp;
        try reflexivity.
      * apply string_reads.
      * destruct xs as [|x xs]; [reflexivity|].
        rewrite text_array; cbn [append]; rewrite append_assoc; cbn [append].
        simpl in Hp; pose proof Hp as Hall; apply andb_prop in Hp as [Hx _].
        rewrite (open_items f x xs _ Hx), IHe; [reflexivity | exact Hall |].
        exact Hn.
      * simpl in Hp; apply andb_prop in Hp as [Hall Hd].
        apply andb_prop in Hd as [Hd Hi].
        destruct ps as [|kv ps]; [reflexivity|].
        rewrite (text_object _ Hall); cbn [append]; rewrite append_assoc;
          cbn [append].
        rewrite open_members, IHm; [| exact Hall | exact Hn].
        rewrite (build_distinct _ Hd Hi); reflexivity.
    + intros x xs rest Hp Hn.
      simpl in Hp; apply andb_prop in Hp as [Hx Hxs].
      rewrite parse_elements_S.
      destruct xs as [|y ys].
      * cbn [map join]; rewrite IHv; [reflexivity | exact Hx |].
        rewrite need_item in Hn; lia.
      * rewrite items_cons, append_assoc; cbn [append].
        rewrite need_items in Hn.
        rewrite IHv; [| exact Hx | lia].
        cbn [JSON.skip_ws]; change (JSON.is_ws ",") with false; cbv iota.
        rewrite IHe; [reflexivity | exact Hxs |].
        pose proof (need_positive (Arr (y :: ys))); lia.
    + intros [k v] ps rest Hp Hn.
      simpl in Hp; apply andb_prop in Hp as [Hkv Hps].
      destruct ps as [|kv' ps'].
      * cbn [map join]; rewrite append_assoc; cbn [append].
        rewrite parse_members_S, IHv; [reflexivity | exact Hkv |].
        rewrite need_member in Hn; cbn [snd] in *; lia.
      * rewrite members_cons, !append_assoc; cbn [append].
        rewrite need_members in Hn; cbn [fst snd] in *.
        rewrite parse_members_S, IHv; [| exact Hkv | lia].
        cbn [JSON.skip_ws]; change (JSON.is_ws ",") with false; cbv iota.
        rewrite IHm; [reflexivity | exact Hps |].
        pose proof (need_positive (Obj (kv' :: ps'))); lia.
Qed.

Lemma append_empty (s : string) : (s ++ "")%string = s.
Proof. induction s as [|c s IH]; simpl; [reflexivity | now rewrite IH]. Qed.

Lemma join_length_items (x y : value) (ys : list value) :
  String.length (items_text (x :: y :: ys))
  = String.length (Observe.text x) + S (String.length (items_text (y :: ys))).
Proof. rewrite items_cons, length_append; reflexivity. Qed.

(** The fuel that [JSON.parse] takes from the length of a text is enough
    for the text of a plain value. *)
Lemma fuel_bound (n : nat) :
  (forall v, Observe.plain v = true -> Observe.need v <= n ->
             Observe.need v <= 2 * String.length (Observe.text v))
  /\ (forall x xs,
        forallb Observe.plain (x :: xs) = true ->
        Observe.need (Arr (x :: xs)) <= S n ->
        Observe.need (Arr (x :: xs))
        <= 2 * String.length (items_text (x :: xs)) + 2)
  /\ (forall kv ps,
        forallb (fun kv => Observe.plain (snd kv)) (kv :: ps) = true ->
        Observe.need (Obj (kv :: ps)) <= S n ->
        Observe.need (Obj (kv :: ps))
        <= 2 * String.length (members_text (kv :: ps)) + 2).
Proof.
  induction n as [|n (IHv & IHe & IHm)].
  - repeat split.
    + intros v _ H; pose proof (need_positive v); lia.
    + intros x xs _ H; simpl in H; lia.
    + intros kv ps _ H; simpl in H; lia.
  - repeat split.
    + intros v Hp Hn.
      destruct v as [| | [] | m | s | xs | ps]; try discriminate Hp;
        try (simpl; lia).
      * destruct xs as [|x xs]; [simpl; lia|].
        simpl in Hp.
        pose proof (IHe x xs Hp Hn) as H.
        rewrite text_array; cbn [String.length]; rewrite length_append.
        change (String.length "]") with 1; lia.
      * simpl in Hp; apply andb_prop in Hp as [Hall _].
        destruct ps as [|kv ps]; [simpl; lia|].
        pose proof (IHm kv ps Hall Hn) as H.
        rewrite (text_object _ Hall); cbn [String.length]; rewrite length_append.
        change (String.length "}") with 1; lia.
    + intros x xs Hp Hn.
      simpl in Hp; apply andb_prop in Hp as [Hx Hxs].
      destruct xs as [|y ys].
      * rewrite need_item in *; cbn [map join].
        pose proof (IHv x Hx); lia.
      * rewrite need_items in *; rewrite join_length_items.
        pose proof (need_positive (Arr (y :: ys))).
        pose proof (IHv x Hx).
        pose proof (IHe y ys Hxs).
        lia.
    + intros [k v] ps Hp Hn.
      simpl in Hp; apply andb_prop in Hp as [Hkv Hps].
      destruct ps as [|kv' ps'].
      * rewrite need_member in *; cbn [map join fst snd] in *.
        rewrite length_append; cbn [String.length].
        pose proof (IHv v Hkv); lia.
      * rewrite need_members in *; rewrite members_cons.
        rewrite !length_append; cbn [String.length fst snd] in *.
        pose proof (need_positive (Obj (kv' :: ps'))).
        pose proof (IHv v Hkv).
        pose proof (IHm kv' ps' Hps).
        lia.
Qed.

(** [JSON.parse] reads the text of a plain value back as the value. *)
Lemma plain_reads (v : value) :
  Observe.plain v = true -> JSON.parse (Observe.text v) = Ok v.
Proof.
  intros Hp; unfold JSON.parse.
  pose proof (proj1 (fuel_bound (Observe.need v)) v Hp (le_n _)) as Hb.
  rewrite <- (append_empty (Observe.text v)) at 2.
  rewrite (proj1 (reads_back _) v "" Hp) by lia.
  reflexivity.
Qed.

Lemma frame_of_plain (m : value) :
  Observe.plain m = true -> JSON.parse (ws.frame_of m) = Ok m.
Proof.
  intros H; unfold ws.frame_of; rewrite (plain_stringify _ H).
  apply plain_reads, H.
Qed.

(** X1: what the interactive page puts on the wire is JSON that reads back
    as the message meant: for every answer text and every action id that
    is a string, the frame of an answer, of an approval and of a rejection
    parses to exactly the object the page built, whatever bytes the string
    holds (quotes, backslashes, control characters). *)
Theorem outbound_frames_read_back (text actionId : string) :
  JSON.parse (ws.frame_of (P2Interactive.answer (Str text)))
  = Ok (P2Interactive.answer (Str text))
  /\ JSON.parse (ws.frame_of (P2Interactive.approve (Str actionId)))
     = Ok (P2Interactive.approve (Str actionId))
  /\ JSON.parse (ws.frame_of (P2Interactive.reject (Str actionId)))
     = Ok (P2Interactive.reject (Str actionId)).
Proof. repeat split; apply frame_of_plain; reflexivity. Qed.

Lemma plain_strings (l : list string) :
  forallb Observe.plain (map Str l) = true.
Proof. induction l as [|x l IH]; simpl; [reflexivity | exact IH]. Qed.

Lemma json_body_plain (v : value) :
  Observe.plain v = true ->
  exists t, api.json_body v = Fetch.TextBody t /\ JSON.parse t = Ok v.
Proof.
  intros H; unfold api.json_body; rewrite (plain_stringify _ H).
  eexists; split; [reflexivity | apply plain_reads, H].
Qed.

(** X2: the body of the start-run request is JSON that reads back as the
    payload the form built, for every form whose zip token is not set or is
    a string: the tasks, the git URL and the token arrive as typed. *)
Theorem start_run_body_reads_back (c : P1RunForm.t) :
  React.state (P1RunForm.zipToken c) = Undefined
  \/ (exists z, React.state (P1RunForm.zipToken c) = Str z) ->
  exists t,
    Fetch.payload (api.p1StartRun_request (P1RunForm.payload c)) = Fetch.TextBody t
    /\ JSON.parse t = Ok (P1RunForm.payload c).
Proof.
  intros Hz; apply json_body_plain.
  unfold P1RunForm.payload.
  pose proof (plain_strings (P1RunForm.task_list (P1RunForm.tasks c))) as Ht.
  destruct (String.eqb (P1RunForm.gitUrl c) ""); destruct Hz as [-> | [z ->]];
    cbn -[P1RunForm.task_list]; try destruct (String.eqb z "");
    cbn -[P1RunForm.task_list]; rewrite Ht; reflexivity.
Qed.

Lemma start_run_body_reads_back_witness :
  React.state (P1RunForm.zipToken Sample2.form) = Undefined
  /\ exists t,
      Fetch.payload (api.p1StartRun_request (P1RunForm.payload Sample2.form))
      = Fetch.TextBody t
      /\ JSON.parse t
         = Ok (Obj [("tasks", Arr [Str "a"; Str "b"]);
                    ("git_url", Str "https://x/y.git")]).
Proof.
  split; [reflexivity|].
  exact (start_run_body_reads_back Sample2.form (or_introl eq_refl)).
Defined.



(** ** Session bootstrap, the other way round (api.ts) *)

Lemma unwrap_ok (r : Fetch.Response) (v : value) :
  api.unwrap r = Ok v -> Fetch.ok r = true /\ JSON.parse (Fetch.body_text r) = Ok v.
Proof.
  rewrite unwrap_spec; destruct (Fetch.ok r); [auto | discriminate].
Qed.

(** X4: a bootstrap call never returns a value out of a failed exchange:
    when [p1StartRun], [p2CreateSession] or [uploadZip] returns [v], the
    fetch of its request has resolved with a response of status 200-299
    whose body parses to [v]; and when the fetch itself rejects, the call
    throws what the fetch threw. *)
Theorem bootstrap_returns_only_on_success (fetch : Fetch.network) :
  (forall payload v,
      api.p1StartRun fetch payload = Ok v ->
      exists r, fetch (api.p1StartRun_request payload) = Ok r
                /\ Fetch.ok r = true /\ JSON.parse (Fetch.body_text r) = Ok v)
  /\ (forall payload v,
      api.p2CreateSession fetch payload = Ok v ->
      exists r, fetch (api.p2CreateSession_request payload) = Ok r
                /\ Fetch.ok r = true /\ JSON.parse (Fetch.body_text r) = Ok v)
  /\ (forall file v,
      api.uploadZip fetch file = Ok v ->
      exists r, fetch (api.uploadZip_request file) = Ok r
                /\ Fetch.ok r = true /\ JSON.parse (Fetch.body_text r) = Ok v)
  /\ (forall payload e,
      fetch (api.p1StartRun_request payload) = Throw e ->
      api.p1StartRun fetch payload = Throw e)
  /\ (forall payload e,
      fetch (api.p2CreateSession_request payload) = Throw e ->
      api.p2CreateSession fetch payload = Throw e)
  /\ (forall file e,
      fetch (api.uploadZip_request file) = Throw e ->
      api.uploadZip fetch file = Throw e).
Proof.
  repeat split;
    try (intros x v; unfold api.p1StartRun, api.p2CreateSession, api.uploadZip;
         match goal with |- context [fetch ?q] => destruct (fetch q) as [r|e] end;
         simpl; [|discriminate]; intros H; exists r; split; [reflexivity|];
         apply unwrap_ok, H);
    intros x e H; unfold api.p1StartRun, api.p2CreateSession, api.uploadZip;
    rewrite H; reflexivity.
Qed.

Lemma bootstrap_returns_only_on_success_witness :
  api.uploadZip Sample2.zip_z1 Sample2.a_zip = Ok (Obj [("zip_token", Str "z1")])
  /\ exists r, Sample2.zip_z1 (api.uploadZip_request Sample2.a_zip) = Ok r
               /\ Fetch.ok r = true
               /\ JSON.parse (Fetch.body_text r) = Ok (Obj [("zip_token", Str "z1")]).
Proof.
  split; [vm_compute; reflexivity|].
  apply (proj1 (proj2 (proj2 (bootstrap_returns_only_on_success Sample2.zip_z1)))).
  vm_compute; reflexivity.
Defined.

(** ** The form of the run page (P1Run.tsx) *)

Lemma split_lines_nonempty (s : string) : P1RunForm.split_lines s <> [].
Proof.
  destruct s as [|c r]; simpl; [discriminate|].
  destruct (Ascii.eqb c "010"); [discriminate|].
  destruct (P1RunForm.split_lines r); discriminate.
Qed.

Lemma split_one_line (l : string) :
  Observe.one_line l = true -> P1RunForm.split_lines l = [l].
Proof.
  induction l as [|c l IH]; simpl; [reflexivity|].
  intros H; apply andb_prop in H as [Hc Hl].
  apply negb_true_iff in Hc; rewrite Hc, (IH Hl); reflexivity.
Qed.

Lemma split_app_line (l rest : string) :
  Observe.one_line l = true ->
  P1RunForm.split_lines (l ++ String "010" rest) = l :: P1RunForm.split_lines rest.
Proof.
  induction l as [|c l IH]; simpl; [reflexivity|].
  intros H; apply andb_prop in H as [Hc Hl].
  apply negb_true_iff in Hc; rewrite Hc, (IH Hl); reflexivity.
Qed.

(** Lines joined by line feeds split into the same lines again. *)
Lemma split_join (l : string) (ls : list string) :
  forallb Observe.one_line (l :: ls) = true ->
  P1RunForm.split_lines (join (String "010" "") (l :: ls)) = l :: ls.
Proof.
  revert l; induction ls as [|l' ls IH]; intros l H;
    simpl in H; apply andb_prop in H as [Hl Hls].
  - apply split_one_line, Hl.
  - change (join (String "010" "") (l :: l' :: ls))
      with (l ++ String "010" (join (String "010" "") (l' :: ls)))%string.
    rewrite (split_app_line _ _ Hl), (IH l' Hls); reflexivity.
Qed.

(** X5: the tasks sent are the lines of the textarea, each trimmed, without
    the ones that are then empty, in their order: typing lines (texts
    without a line feed) one per line gives exactly their trimmed, non-empty
    versions; and no task is ever the empty string. *)
Theorem tasks_of_lines (l : string) (ls : list string) :
  forallb Observe.one_line (l :: ls) = true ->
  P1RunForm.task_list (join (String "010" "") (l :: ls))
  = filter (fun s => negb (String.eqb s "")) (map trim (l :: ls))
  /\ (forall text, ~ In "" (P1RunForm.task_list text))
  /\ length (P1RunForm.task_list (join (String "010" "") (l :: ls)))
     <= length (l :: ls).
Proof.
  intros H; unfold P1RunForm.task_list; rewrite (split_join _ _ H).
  split; [reflexivity|]; split.
  - intros text Hin; apply filter_In in Hin as [_ Hne]; discriminate Hne.
  - etransitivity; [apply filter_length_le|]; rewrite length_map; reflexivity.
Qed.

Lemma tasks_of_lines_witness :
  forallb Observe.one_line ["a"; " "; " b"] = true
  /\ P1RunForm.task_list (join (String "010" "") ["a"; " "; " b"]) = ["a"; "b"].
Proof.
  split; [reflexivity|].
  exact (proj1 (tasks_of_lines "a" [" "; " b"] eq_refl)).
Defined.

(** X6: the payload of a start always has [tasks]; it has [git_url] exactly
    when the git URL is not empty and [zip_token] exactly when the token is
    truthy, never an empty or a falsy one; and whenever the Start button is
    enabled, it names at least one of the two sources. *)
Theorem payload_names_a_source (c : P1RunForm.t) :
  Observe.field (P1RunForm.payload c) "tasks"
  = Some (Arr (map Str (P1RunForm.task_list (P1RunForm.tasks c))))
  /\ Observe.field (P1RunForm.payload c) "git_url"
     = (if String.eqb (P1RunForm.gitUrl c) "" then None
        else Some (Str (P1RunForm.gitUrl c)))
  /\ Observe.field (P1RunForm.payload c) "zip_token"
     = (if truthy (React.state (P1RunForm.zipToken c))
        then Some (React.state (P1RunForm.zipToken c)) else None)
  /\ (P1RunForm.disabled c = false ->
      Observe.field (P1RunForm.payload c) "git_url" <> None
      \/ Observe.field (P1RunForm.payload c) "zip_token" <> None).
Proof.
  unfold P1RunForm.payload, P1RunForm.disabled.
  destruct (String.eqb (P1RunForm.gitUrl c) "");
    destruct (truthy (React.state (P1RunForm.zipToken c)));
    repeat split; try reflexivity; simpl; intros H; try discriminate H;
    [right | left | left]; discriminate.
Qed.

Lemma payload_names_a_source_witness :
  P1RunForm.disabled Sample2.form = false
  /\ (Observe.field (P1RunForm.payload Sample2.form) "git_url" <> None
      \/ Observe.field (P1RunForm.payload Sample2.form) "zip_token" <> None).
Proof.
  split; [reflexivity|].
  exact (proj2 (proj2 (proj2 (payload_names_a_source Sample2.form))) eq_refl).
Defined.

(** X7: [onStart] of the run page is all or nothing.  When the bootstrap
    call throws (a status outside 200-299, a body that is not JSON, a
    rejected fetch) or returns [null], [onStart] throws the same and the page
    is exactly as it was: nothing in [onStart] catches it.  When the call
    returns, [onStart] queues the run id and the empty log and nothing
    else, so that the next render of the log shows it empty, whatever it
    held and whatever was queued for it. *)
Theorem onStart_all_or_nothing (fetch : Fetch.network) (c : P1RunForm.t) :
  (forall e,
      rbind (api.p1StartRun fetch (P1RunForm.payload c))
            (fun started => get started "run_id") = Throw e ->
      P1RunForm.onStart fetch c = (Throw e, c))
  /\ (forall run_id,
      rbind (api.p1StartRun fetch (P1RunForm.payload c))
            (fun started => get started "run_id") = Ok run_id ->
      P1RunForm.onStart fetch c
      = (Ok tt,
         P1RunForm.mk (P1RunForm.gitUrl c) (P1RunForm.tasks c)
           (P1RunForm.zipToken c)
           (React.dispatch (React.Value run_id) (P1RunForm.runId c))
           (React.dispatch (React.Value []) (P1RunForm.events c))
           (P1RunForm.console c) (P1RunForm.alerts c))
      /\ forall log,
          React.reduce (React.state (P1RunForm.events c))
                       (React.queue (P1RunForm.events c)) = Ok log ->
          React.render (P1RunForm.events (snd (P1RunForm.onStart fetch c)))
          = Ok (React.mkHook [] [])).
Proof.
  unfold P1RunForm.onStart, bind, gets, lift.
  destruct (api.p1StartRun fetch (P1RunForm.payload c)) as [started|e0]; simpl.
  - destruct (get started "run_id") as [id|e0]; simpl; split;
      try (intros; discriminate).
    + intros run_id H; inversion H; subst; split; [reflexivity|].
      intros log Hlog; simpl.
      apply (render_dispatch_value _ log), Hlog.
    + intros e H; inversion H; subst; reflexivity.
  - split; [|intros; discriminate].
    intros e H; inversion H; subst; reflexivity.
Qed.

Lemma onStart_all_or_nothing_witness :
  rbind (api.p1StartRun Sample.bad_input_400 (P1RunForm.payload Sample2.form))
        (fun started => get started "run_id") = Throw (Error "bad input")
  /\ P1RunForm.onStart Sample.bad_input_400 Sample2.form
     = (Throw (Error "bad input"), Sample2.form).
Proof.
  split; [vm_compute; reflexivity|].
  apply (proj1 (onStart_all_or_nothing Sample.bad_input_400 Sample2.form)).
  vm_compute; reflexivity.
Defined.

(** X8: [onUpload] never throws.  Without a file it does nothing, whatever
    the network is.  With a file, a failed upload (any throw of [uploadZip],
    or a [null] result) is written to the console and answered with the
    alert "Upload failed", and the zip token is left alone; a successful one
    queues the token of the response and writes nothing. *)
Theorem onUpload_never_throws (fetch : Fetch.network) (c : P1RunForm.t) :
  P1RunForm.onUpload fetch None c = (Ok tt, c)
  /\ forall file,
      fst (P1RunForm.onUpload fetch (Some file) c) = Ok tt
      /\ match rbind (api.uploadZip fetch file)
                     (fun uploaded => get uploaded "zip_token") with
         | Ok token =>
             snd (P1RunForm.onUpload fetch (Some file) c)
             = P1RunForm.mk (P1RunForm.gitUrl c) (P1RunForm.tasks c)
                 (React.dispatch (React.Value token) (P1RunForm.zipToken c))
                 (P1RunForm.runId c) (P1RunForm.events c)
                 (P1RunForm.console c) (P1RunForm.alerts c)
         | Throw e =>
             snd (P1RunForm.onUpload fetch (Some file) c)
             = P1RunForm.mk (P1RunForm.gitUrl c) (P1RunForm.tasks c)
                 (P1RunForm.zipToken c) (P1RunForm.runId c) (P1RunForm.events c)
                 (P1RunForm.console c ++ [e])%list
                 (P1RunForm.alerts c ++ ["Upload failed"])%list
         end.
Proof.
  split; [reflexivity|]; intros file.
  unfold P1RunForm.onUpload, try_catch, bind, lift.
  destruct (api.uploadZip fetch file) as [uploaded|e]; simpl.
  - destruct (get uploaded "zip_token") as [token|e]; simpl; split; reflexivity.
  - split; reflexivity.
Qed.

(** ** One connection per run (stream.ts, P1Run.tsx) *)







(** ** The log's markup on other events (LogStream.tsx) *)

Lemma typed_details (fs : list types.FileDiff) :
  traverse LogStream.file_details (map types.FileDiff_value fs)
  = Ok (map Observe.details fs)
  /\ forallb React.mountable (map Observe.details fs) = true.
Proof.
  induction fs as [|f fs [H1 H2]]; simpl; [split; reflexivity|].
  unfold LogStream.view in *; rewrite H1; simpl.
  split; [reflexivity | exact H2].
Qed.

Lemma typed_row (e : types.RunEvent) :
  LogStream.row (types.to_value e) = Ok (Observe.row_of e)
  /\ React.mountable (Observe.row_of e) = true
  /\ types.is_RunEvent (types.to_value e) = true.
Proof.
  destruct e as [r s [m|] | i t s | t x | fs | [c|] [r|] [k|] | m];
    try (repeat split; reflexivity);
    try (destruct s; repeat split; reflexivity);
    try (destruct t; repeat split; reflexivity).
  destruct (typed_details fs) as [H1 H2].
  unfold LogStream.row, React.when, React.optional_map; simpl.
  unfold LogStream.view in *; rewrite H1; simpl.
  split; [reflexivity|]; split.
  - unfold Observe.row_of; simpl; rewrite H2; reflexivity.
  - unfold types.required, types.is_FileDiffs; simpl.
    clear; induction fs as [|f fs IH]; simpl; [reflexivity | exact IH].
Qed.

(** X10: a log of typed events renders as it stands: [LogStream] returns,
    in the order of the log, one row per event, and the row of an event
    holds the block of its tag, in the place of that tag among the six and
    with the event's own fields in it, and nothing in the other five; React
    accepts the tree; and every typed event is a value of the run-time
    type [RunEvent]. *)
Theorem typed_log_renders (evs : list types.RunEvent) :
  LogStream.LogStream (map types.to_value evs)
  = Ok (LogStream.el "div" (map Observe.row_of evs))
  /\ React.commit (LogStream.el "div" (map Observe.row_of evs))
     = Ok (LogStream.el "div" (map Observe.row_of evs))
  /\ forallb types.is_RunEvent (map types.to_value evs) = true
  /\ (forall (i : nat) (e : types.RunEvent),
         nth_error evs i = Some e ->
         nth_error (map Observe.row_of evs) i
         = Some (LogStream.el "div"
                   (map (fun k => if Nat.eqb k (Observe.slot e)
                                  then Observe.block e else React.nothing)
                        [0; 1; 2; 3; 4; 5]))).
Proof.
  assert (H : traverse LogStream.row (map types.to_value evs)
              = Ok (map Observe.row_of evs)
              /\ forallb React.mountable (map Observe.row_of evs) = true
              /\ forallb types.is_RunEvent (map types.to_value evs) = true).
  { induction evs as [|e evs (H1 & H2 & H3)]; [repeat split|].
    destruct (typed_row e) as (Hr & Hm & Ht).
    cbn [map traverse forallb].
    unfold LogStream.view in *; rewrite Hr; cbn [rbind].
    rewrite H1; cbn [rbind]; rewrite Hm, H2, Ht, H3.
    repeat split. }
  destruct H as (H1 & H2 & H3).
  unfold LogStream.LogStream, LogStream.view in *; rewrite H1; simpl.
  unfold React.commit; simpl; rewrite H2.
  repeat split; try assumption.
  intros i e Hi; rewrite nth_error_map, Hi; reflexivity.
Qed.

(** X11: an entry whose [type] is none of the six tags (a tag of a later
    protocol, no [type] at all, or a value that is no object, such as a
    number or a string) renders as an empty row: no block, no error. *)
Theorem unknown_tag_renders_empty (e : value) :
  Observe.untagged e = true ->
  LogStream.row e
  = Ok (LogStream.el "div" [React.nothing; React.nothing; React.nothing;
                            React.nothing; React.nothing; React.nothing]).
Proof.
  unfold Observe.untagged, LogStream.row, React.when.
  destruct (get e "type") as [ty|]; [|discriminate]; simpl.
  intros H; apply negb_true_iff in H.
  repeat (apply orb_false_elim in H as [?H H]).
  repeat match goal with Hx : is_str ty _ = false |- _ => rewrite Hx; clear Hx end.
  reflexivity.
Qed.

Lemma unknown_tag_renders_empty_witness :
  JSON.parse (JSON.wire "{'type':'heartbeat'}") = Ok (Obj [("type", Str "heartbeat")])
  /\ Observe.untagged (Obj [("type", Str "heartbeat")]) = true
  /\ LogStream.row (Obj [("type", Str "heartbeat")])
     = Ok (LogStream.el "div" [React.nothing; React.nothing; React.nothing;
                               React.nothing; React.nothing; React.nothing]).
Proof.
  split; [vm_compute; reflexivity|]; split; [reflexivity|].
  exact (unknown_tag_renders_empty (Obj [("type", Str "heartbeat")]) eq_refl).
Defined.

(** Whatever the markup of the log throws is a [TypeError]. *)
Lemma file_details_cases (f : value) :
  (exists v, LogStream.file_details f = Ok v)
  \/ LogStream.file_details f = Throw TypeError.
Proof.
  unfold LogStream.file_details; destruct f; simpl; auto;
    try (left; eexists; reflexivity).
  destruct (lookup "path" props), (lookup "patch" props);
    left; eexists; reflexivity.
Qed.

Lemma file_details_throws (items : list value) (e : exn) :
  traverse LogStream.file_details items = Throw e -> e = TypeError.
Proof.
  induction items as [|f items IH]; simpl; [discriminate|].
  destruct (file_details_cases f) as [(v & ->) | ->]; simpl.
  - destruct (traverse LogStream.file_details items); simpl; [discriminate|].
    intros H; apply IH; inversion H; reflexivity.
  - intros H; inversion H; reflexivity.
Qed.

Lemma get_throws (v : value) (k : string) (e : exn) :
  get v k = Throw e -> e = TypeError.
Proof.
  destruct v; simpl; try discriminate;
    try (intros H; inversion H; reflexivity).
  destruct (lookup k props); discriminate.
Qed.

Lemma get_total (v : value) (k k' : string) (x : value) :
  get v k = Ok x -> exists y, get v k' = Ok y.
Proof.
  destruct v; simpl; try discriminate; eauto.
  destruct (lookup k' props); eauto.
Qed.

Lemma row_throws (v : value) (e : exn) :
  LogStream.row v = Throw e -> e = TypeError.
Proof.
  unfold LogStream.row, React.when.
  destruct (get v "type") as [ty|e0] eqn:Hty; simpl.
  2:{ intros H; inversion H; subst; eapply get_throws; eassumption. }
  assert (Hget : forall k, exists x, get v k = Ok x)
    by (intros k; eapply get_total; eassumption).
  repeat match goal with
         | |- context [get v ?k] =>
             lazymatch k with
             | "type" => fail
             | _ => let x := fresh "x" in
                    let Hx := fresh "Hx" in
                    destruct (Hget k) as (x & Hx); rewrite Hx; clear Hx
             end
         end.
  clear Hget Hty.
  destruct (is_str ty "output"), (is_str ty "step"), (is_str ty "status"),
    (is_str ty "error"), (is_str ty "metrics"), (is_str ty "diff");
    simpl; try discriminate.
  all: match goal with
       | |- context [React.optional_map ?f _] =>
           destruct f; simpl; try discriminate;
           try (intros H; inversion H; reflexivity)
       end.
  all: match goal with
       | |- context [@traverse ?A ?B LogStream.file_details ?l] =>
           destruct (@traverse A B LogStream.file_details l) eqn:E; simpl;
           try discriminate; intros H; inversion H; subst;
           exact (file_details_throws _ _ E)
       end.
Qed.

Lemma rows_with_null (before after : list value) :
  traverse LogStream.row (before ++ Null :: after) = Throw TypeError.
Proof.
  induction before as [|v before IH]; simpl; [reflexivity|].
  destruct (LogStream.row v) as [r|e] eqn:E; simpl.
  - rewrite IH; reflexivity.
  - rewrite (row_throws _ _ E); reflexivity.
Qed.

(** X12: one [null] in the log and the whole log fails to render:
    wherever the entry stands and whatever the other entries are,
    [LogStream] throws a [TypeError] at the read of [e.type]. *)
Theorem null_entry_breaks_log (before after : list value) :
  LogStream.LogStream (before ++ Null :: after) = Throw TypeError.
Proof.
  unfold LogStream.LogStream.
  pose proof (rows_with_null before after) as H.
  unfold LogStream.view in *; rewrite H; reflexivity.
Qed.

Lemma zip_label_throws (zipToken : value) (e : exn) :
  P1Run.zip_label zipToken = Throw e -> e = TypeError.
Proof.
  unfold P1Run.zip_label; destruct (truthy zipToken); [|discriminate].
  destruct zipToken; simpl; try discriminate; intros H; inversion H; reflexivity.
Qed.

(** X13: being JSON is not enough for a frame of the run stream: a frame
    that parses to [null] goes into the log, and the render of the log then
    throws and takes the page down. *)
Theorem null_frame_unmounts_run_page (c : P1Run.t) (x : EventSource.t)
        (data : string) (log : list value) :
  P1Run.es c = Some x ->
  EventSource.state x = EventSource.OPEN ->
  React.reduce (React.state (P1Run.events c)) (React.queue (P1Run.events c))
  = Ok log ->
  JSON.parse data = Ok Null ->
  P1Run.run (P1Run.frames [data]) (P1Run.Live c) = P1Run.Unmounted TypeError.
Proof.
  intros Hes Hopen Hq Hparse.
  destruct c as [rid zt [st q] es]; simpl in *; subst.
  unfold P1Run.on_net; simpl.
  destruct x as [u s w f]; simpl in *; subst; simpl.
  unfold P1Run.render, React.render; simpl.
  rewrite reduce_app, Hq; simpl.
  unfold P1Run.append_parsed; rewrite Hparse; simpl.
  unfold P1Run.markup.
  destruct (P1Run.zip_label zt) as [label|e] eqn:El; simpl.
  - unfold P1Run.live_log, LogStream.LogStream.
    pose proof (rows_with_null log []) as H.
    unfold LogStream.view in *; rewrite H; reflexivity.
  - rewrite (zip_label_throws _ _ El); reflexivity.
Qed.

Lemma null_frame_unmounts_run_page_witness :
  JSON.parse "null" = Ok Null
  /\ P1Run.run (P1Run.frames ["null"]) (P1Run.Live Sample2.listening)
     = P1Run.Unmounted TypeError.
Proof.
  split; [vm_compute; reflexivity|].
  apply (null_frame_unmounts_run_page Sample2.listening
           (EventSource.mk "/api/p1/stream/r1" EventSource.OPEN false 1)
           "null" []);
    vm_compute; reflexivity.
Defined.

(** X14: a typed metrics event shows every score it carries as it is, zero
    included, and the placeholder only for a score it does not carry: the
    blanks are filled with [??], which lets 0 through. *)
Theorem metrics_fields_shown_as_sent (coverage refactor combo : option number) :
  let shown (o : option number) (blank : value) :=
    match o with Some n => Number n | None => blank end in
  LogStream.row (types.to_value (types.metrics coverage refactor combo))
  = Ok (LogStream.el "div"
          [React.nothing; React.nothing; React.nothing; React.nothing;
           LogStream.el "div"
             [React.Text "📊 coverage "; React.Expr (shown coverage (Str "-"));
              React.Text "% · refactor "; React.Expr (shown refactor (Str "-"));
              React.Text " · combo "; React.Expr (shown combo (int 0));
              React.Text "x"];
           React.nothing]).
Proof.
  destruct coverage, refactor, combo; reflexivity.
Qed.

(** X15: a diff event without [files] (or with [files: null]) shows nothing
    and throws nothing, thanks to [?.]; one whose [files] is anything but an
    array (a string, a number, an object) throws a [TypeError], as it has no
    [map]. *)
Theorem diff_files_edge_cases (props : list (string * value)) :
  lookup "type" props = Some (Str "diff") ->
  match lookup "files" props with
  | None | Some Undefined | Some Null =>
      LogStream.row (Obj props)
      = Ok (LogStream.el "div"
              [React.nothing; React.nothing; React.nothing; React.nothing;
               React.nothing; React.Expr Undefined])
  | Some (Arr []) =>
      LogStream.row (Obj props)
      = Ok (LogStream.el "div"
              [React.nothing; React.nothing; React.nothing; React.nothing;
               React.nothing; React.Items []])
  | Some (Arr (_ :: _)) => True
  | Some _ => LogStream.row (Obj props) = Throw TypeError
  end.
Proof.
  intros Ht; unfold LogStream.row, React.when, get; rewrite Ht; simpl.
  repeat match goal with
         | |- context [lookup ?k props] =>
             lazymatch k with
             | "files" => fail
             | _ => destruct (lookup k props)
             end
         end;
    destruct (lookup "files" props) as [[| | | | | [|]|]|]; simpl; auto.
Qed.

Lemma diff_files_edge_cases_witness :
  lookup "type" [("type", Str "diff"); ("files", Str "a.txt")] = Some (Str "diff")
  /\ LogStream.row (Obj [("type", Str "diff"); ("files", Str "a.txt")])
     = Throw TypeError.
Proof.
  split; [reflexivity|].
  exact (diff_files_edge_cases [("type", Str "diff"); ("files", Str "a.txt")] eq_refl).
Defined.

(** ** The interactive page's chat and sends (ws.ts, P2Interactive.tsx) *)

Lemma frame_on_open (c : P2Interactive.t) (w : WebSocket.t) (d : string) :
  P2Interactive.wsRef c = Some w ->
  WebSocket.state w = WebSocket.OPEN ->
  P2Interactive.on_net None (WebSocket.Frame d) c
  = ws.onmessage P2Interactive.onMsg d c.
Proof.
  intros Hw Hs; unfold P2Interactive.on_net; rewrite Hw.
  destruct w as [u s out]; simpl in Hs; subst; simpl.
  destruct c; simpl in *; subst; reflexivity.
Qed.

Lemma frame_in_chat (c : P2Interactive.t) (d : string) :
  snd (ws.onmessage P2Interactive.onMsg d c)
  = P2Interactive.received (lenient_log [d]) c.
Proof.
  unfold ws.onmessage, bind, lift; simpl.
  destruct (JSON.parse d); reflexivity.
Qed.

Lemma received_app (ms ms' : list value) (c : P2Interactive.t) :
  P2Interactive.received (ms ++ ms') c
  = P2Interactive.received ms' (P2Interactive.received ms c).
Proof. unfold P2Interactive.received; apply fold_left_app. Qed.

Lemma lenient_log_cons (d : string) (ds : list string) :
  lenient_log (d :: ds) = (lenient_log [d] ++ lenient_log ds)%list.
Proof. simpl; destruct (JSON.parse d); reflexivity. Qed.

Lemma received_keeps_socket (ms : list value) (c : P2Interactive.t) :
  P2Interactive.wsRef (P2Interactive.received ms c) = P2Interactive.wsRef c.
Proof. rewrite received_chat; reflexivity. Qed.

(** X16: on the open socket of the interactive page the chat takes the
    frames as the lenient log would: after any sequence of text frames, the
    page is as if the values of the frames that parse had been handed to
    [onMsg] in order; a frame that does not parse adds nothing and does not
    stop the frames after it.  So what is queued for the chat, once worked
    through, is the chat before followed by those values. *)
Theorem chat_takes_the_frames_that_parse (c : P2Interactive.t) (w : WebSocket.t)
        (datas : list string) (before : list value) :
  P2Interactive.wsRef c = Some w ->
  WebSocket.state w = WebSocket.OPEN ->
  React.reduce (React.state (P2Interactive.chat c))
               (React.queue (P2Interactive.chat c)) = Ok before ->
  Observe.frames_in datas c = P2Interactive.received (lenient_log datas) c
  /\ React.reduce (React.state (P2Interactive.chat (Observe.frames_in datas c)))
                  (React.queue (P2Interactive.chat (Observe.frames_in datas c)))
     = Ok (before ++ lenient_log datas)%list.
Proof.
  intros Hw Hs Hq.
  assert (H : Observe.frames_in datas c
              = P2Interactive.received (lenient_log datas) c).
  { clear Hq; revert c Hw; induction datas as [|d ds IH]; intros c Hw;
      [reflexivity|].
    change (Observe.frames_in (d :: ds) c)
      with (Observe.frames_in ds
              (snd (P2Interactive.on_net None (WebSocket.Frame d) c))).
    rewrite (lenient_log_cons d ds), received_app.
    rewrite (frame_on_open c w d Hw Hs), frame_in_chat.
    apply IH; rewrite received_keeps_socket; exact Hw. }
  split; [exact H|].
  rewrite H, received_chat; simpl.
  rewrite reduce_app, Hq; simpl; apply reduce_appends.
Qed.

Lemma chat_takes_the_frames_that_parse_witness :
  P2Interactive.wsRef Sample.opened
  = Some (WebSocket.mk "wss://mojo.example/api/p2/ws/s1" WebSocket.OPEN [])
  /\ React.reduce
       (React.state (P2Interactive.chat
          (Observe.frames_in [JSON.wire "{'role':'system','text':'hi'}";
                              "not json";
                              JSON.wire "{'type':'question','choices':['y','n']}"]
                             Sample.opened)))
       (React.queue (P2Interactive.chat
          (Observe.frames_in [JSON.wire "{'role':'system','text':'hi'}";
                              "not json";
                              JSON.wire "{'type':'question','choices':['y','n']}"]
                             Sample.opened)))
     = Ok [P2Interactive.greeting (Str "s1");
           P2Interactive.line "system" "hi";
           Observe.question ["y"; "n"]].
Proof.
  split; [reflexivity|].
  exact (proj2 (chat_takes_the_frames_that_parse Sample.opened _
                  [JSON.wire "{'role':'system','text':'hi'}"; "not json";
                   JSON.wire "{'type':'question','choices':['y','n']}"]
                  [P2Interactive.greeting (Str "s1")] eq_refl eq_refl eq_refl)).
Defined.

(** X17: [sendUser] sends what is typed, trimmed.  With nothing but white
    space in the input it does nothing at all.  Otherwise, on an open
    socket, it queues the user's line for the chat, puts the one frame
    [{ type: "answer", text }] on the wire and queues the emptying of the
    input, and throws nothing. *)
Theorem sendUser_sends_trimmed_input (c : P2Interactive.t) :
  (trim (React.state (P2Interactive.input c)) = "" ->
   P2Interactive.sendUser c = (Ok tt, c))
  /\ (forall w,
        trim (React.state (P2Interactive.input c)) <> "" ->
        P2Interactive.wsRef c = Some w ->
        WebSocket.state w = WebSocket.OPEN ->
        let text := trim (React.state (P2Interactive.input c)) in
        P2Interactive.sendUser c
        = (Ok tt,
           P2Interactive.mk (P2Interactive.appName c) (P2Interactive.desc c)
             (P2Interactive.sessionId c)
             (React.dispatch
                (React.Updater (P2Interactive.append (P2Interactive.line "user" text)))
                (P2Interactive.chat c))
             (React.dispatch (React.Value "") (P2Interactive.input c))
             (Some (WebSocket.mk (WebSocket.url w) WebSocket.OPEN
                      (WebSocket.sent w
                         ++ [ws.frame_of (P2Interactive.answer (Str text))])%list))
             (P2Interactive.stale c))).
Proof.
  split.
  - intros H; unfold P2Interactive.sendUser, bind, gets; rewrite H; reflexivity.
  - intros w Hne Hw Hs text; subst text.
    apply String.eqb_neq in Hne.
    unfold P2Interactive.sendUser, bind, gets; rewrite Hne; simpl.
    unfold P2Interactive.current, ws.send, WebSocket.send; simpl.
    rewrite Hw, Hs; reflexivity.
Qed.

Lemma sendUser_sends_trimmed_input_witness :
  trim (React.state (P2Interactive.input Sample.opened)) = "hi"
  /\ P2Interactive.wire (snd (P2Interactive.sendUser Sample.opened))
     = [JSON.wire "{'type':'answer','text':'hi'}"]
  /\ P2Interactive.sendUser P2Interactive.initial = (Ok tt, P2Interactive.initial).
Proof.
  split; [vm_compute; reflexivity|]; split.
  - assert (Hne : trim (React.state (P2Interactive.input Sample.opened)) <> "")
      by (vm_compute; discriminate).
    rewrite (proj2 (sendUser_sends_trimmed_input Sample.opened)
               (WebSocket.mk "wss://mojo.example/api/p2/ws/s1" WebSocket.OPEN [])
               Hne eq_refl eq_refl).
    vm_compute; reflexivity.
  - exact (proj1 (sendUser_sends_trimmed_input P2Interactive.initial) eq_refl).
Defined.

(** X18: on a socket that is closing or closed, sends are lost without a
    word: approving and rejecting return normally and change nothing, and
    [sendUser] shows the user's line in the chat and empties the input as if
    the answer had gone out, while nothing is put on the wire. *)
Theorem sends_after_close_are_lost (c : P2Interactive.t) (w : WebSocket.t)
        (actionId : value) :
  P2Interactive.wsRef c = Some w ->
  WebSocket.state w = WebSocket.CLOSING \/ WebSocket.state w = WebSocket.CLOSED ->
  P2Interactive.onApprove actionId c = (Ok tt, c)
  /\ P2Interactive.onReject actionId c = (Ok tt, c)
  /\ fst (P2Interactive.sendUser c) = Ok tt
  /\ P2Interactive.wire (snd (P2Interactive.sendUser c)) = WebSocket.sent w
  /\ (trim (React.state (P2Interactive.input c)) <> "" ->
      React.queue (P2Interactive.chat (snd (P2Interactive.sendUser c)))
      = (React.queue (P2Interactive.chat c)
           ++ [React.Updater
                 (P2Interactive.append
                    (P2Interactive.line "user"
                       (trim (React.state (P2Interactive.input c)))))])%list).
Proof.
  intros Hw Hs.
  split; [apply (send_closed _ c w Hw Hs)|].
  split; [apply (send_closed _ c w Hw Hs)|].
  unfold P2Interactive.sendUser, bind, gets.
  destruct (String.eqb (trim (React.state (P2Interactive.input c))) "") eqn:E.
  - simpl; unfold P2Interactive.wire; rewrite Hw; repeat split.
    intros H; apply String.eqb_neq in H; congruence.
  - simpl.
    rewrite (send_closed _ _ w) by (simpl; assumption); simpl.
    unfold P2Interactive.wire; simpl; rewrite Hw; repeat split.
Qed.

Lemma sends_after_close_are_lost_witness :
  option_map WebSocket.state (P2Interactive.wsRef Sample2.closing)
  = Some WebSocket.CLOSING
  /\ P2Interactive.wire (snd (P2Interactive.sendUser Sample2.closing)) = []
  /\ React.reduce (React.state (P2Interactive.chat Sample2.closing))
       (React.queue (P2Interactive.chat (snd (P2Interactive.sendUser Sample2.closing))))
     = Ok [P2Interactive.greeting (Str "s1"); P2Interactive.line "user" "hi"].
Proof.
  split; [reflexivity|]; split; [|reflexivity].
  exact (proj1 (proj2 (proj2 (proj2
           (sends_after_close_are_lost Sample2.closing
              (WebSocket.mk "wss://mojo.example/api/p2/ws/s1" WebSocket.CLOSING [])
              Null eq_refl (or_introl eq_refl)))))).
Defined.



(** X20: after the page's clean-up the current socket hands over no more
    frames: whatever text frame comes in, the handler is not run and the
    page stays as the clean-up left it. *)
Theorem no_frames_after_cleanup (c : P2Interactive.t) (data : string) :
  P2Interactive.on_net None (WebSocket.Frame data) (snd (P2Interactive.cleanup c))
  = (Ok tt, snd (P2Interactive.cleanup c)).
Proof.
  unfold P2Interactive.cleanup, P2Interactive.current, P2Interactive.on_net.
  destruct c as [a d sid ch inp [[u [] out]|] st]; reflexivity.
Qed.

(** X21: a click on a choice of a question sends the choice as an answer,
    and does only that: on an open socket the frame [{ type: "answer",
    text: choice }] goes on the wire, and, unlike [sendUser], nothing is
    added to the chat and the input is left alone. *)
Theorem choice_sends_answer_only (location : ws.Location) (fetch : Fetch.network)
        (c : P2Interactive.t) (w : WebSocket.t) (choice : value) :
  P2Interactive.wsRef c = Some w ->
  WebSocket.state w = WebSocket.OPEN ->
  let after := P2Interactive.on_click location fetch (P2Interactive.Choose choice) c in
  fst after = Ok tt
  /\ P2Interactive.wire (snd after)
     = (WebSocket.sent w ++ [ws.frame_of (P2Interactive.answer choice)])%list
  /\ P2Interactive.chat (snd after) = P2Interactive.chat c
  /\ P2Interactive.input (snd after) = P2Interactive.input c.
Proof.
  intros Hw Hs after; subst after; cbn [P2Interactive.on_click].
  rewrite (send_open _ c w Hw Hs); repeat split.
Qed.

Lemma choice_sends_answer_only_witness :
  P2Interactive.wsRef Sample.opened
  = Some (WebSocket.mk "wss://mojo.example/api/p2/ws/s1" WebSocket.OPEN [])
  /\ P2Interactive.wire
       (snd (P2Interactive.on_click Sample.location Sample.session_s1
               (P2Interactive.Choose (Str "y")) Sample.opened))
     = ([] ++ [ws.frame_of (P2Interactive.answer (Str "y"))])%list.
Proof.
  split; [reflexivity|].
  exact (proj1 (proj2 (choice_sends_answer_only Sample.location Sample.session_s1
                         Sample.opened _ (Str "y") eq_refl eq_refl))).
Defined.

(** ** The chat's markup (P2Interactive.tsx) *)

Lemma cards_typed (actions : list (string * string)) :
  exists cards,
    traverse P2Interactive.action_card
             (map (fun a => Observe.action (fst a) (snd a)) actions) = Ok cards
    /\ forallb React.mountable cards = true
    /\ flat_map Observe.clicks cards
       = flat_map (fun a => [P2Interactive.Approve (Str (fst a));
                             P2Interactive.Reject (Str (fst a))]) actions.
Proof.
  induction actions as [|[id summary] actions (cards & H1 & H2 & H3)]; simpl.
  - exists []; repeat split.
  - unfold P2Interactive.view in *; rewrite H1; simpl.
    eexists; split; [reflexivity|]; simpl; rewrite H2, H3; split; reflexivity.
Qed.

Lemma buttons_typed (choices : list string) :
  exists buttons,
    traverse P2Interactive.choice_button (map Str choices) = Ok buttons
    /\ forallb React.mountable buttons = true
    /\ flat_map Observe.clicks buttons
       = map (fun c => P2Interactive.Choose (Str c)) choices.
Proof.
  induction choices as [|c choices (buttons & H1 & H2 & H3)]; simpl.
  - exists []; repeat split.
  - unfold P2Interactive.view in *; rewrite H1; simpl.
    eexists; split; [reflexivity|]; simpl; rewrite H2, H3; split; reflexivity.
Qed.

(** X22: the buttons of the chat are wired to what they show.  A proposal
    renders, for each of its actions in order, one Approve and one Reject
    button carrying that action's id, and nothing else to click; a question
    renders one button per choice, carrying the choice.  Both render without
    throwing and React accepts the trees. *)
Theorem proposal_and_question_buttons (actions : list (string * string))
        (choices : list string) :
  (exists tree,
      P2Interactive.message (Observe.proposal actions) = Ok tree
      /\ React.mountable tree = true
      /\ Observe.clicks tree
         = flat_map (fun a => [P2Interactive.Approve (Str (fst a));
                               P2Interactive.Reject (Str (fst a))]) actions)
  /\ (exists tree,
      P2Interactive.message (Observe.question choices) = Ok tree
      /\ React.mountable tree = true
      /\ Observe.clicks tree
         = map (fun c => P2Interactive.Choose (Str c)) choices).
Proof.
  split.
  - destruct (cards_typed actions) as (cards & H1 & H2 & H3).
    unfold P2Interactive.message, P2Interactive.role_line, React.when,
      React.optional_map, Observe.proposal; simpl.
    unfold P2Interactive.view in *; rewrite H1; simpl.
    eexists; split; [reflexivity|]; simpl.
    rewrite H2, H3; repeat rewrite app_nil_r; split; reflexivity.
  - destruct (buttons_typed choices) as (buttons & H1 & H2 & H3).
    unfold P2Interactive.message, P2Interactive.role_line, React.when,
      React.optional_map, Observe.question; simpl.
    unfold P2Interactive.view in *; rewrite H1; simpl.
    eexists; split; [reflexivity|]; simpl.
    rewrite H2, H3; repeat rewrite app_nil_r; split; reflexivity.
Qed.

(** X23: a message whose [role] is truthy and no string (a number, [true],
    an object) breaks the chat: [m.role.toUpperCase()] is a [TypeError]. *)
Theorem non_string_role_breaks_message (props : list (string * value))
        (role : value) :
  lookup "role" props = Some role ->
  truthy role = true ->
  toUpperCase role = Throw TypeError ->
  P2Interactive.message (Obj props) = Throw TypeError.
Proof.
  intros Hr Ht Hu.
  unfold P2Interactive.message, P2Interactive.role_line, get.
  rewrite Hr; simpl; rewrite Ht, Hu; reflexivity.
Qed.

Lemma non_string_role_breaks_message_witness :
  JSON.parse (JSON.wire "{'role':1,'text':'x'}")
  = Ok (Obj [("role", int 1); ("text", Str "x")])
  /\ P2Interactive.message (Obj [("role", int 1); ("text", Str "x")])
     = Throw TypeError.
Proof.
  split; [vm_compute; reflexivity|].
  exact (non_string_role_breaks_message [("role", int 1); ("text", Str "x")] (int 1)
           eq_refl eq_refl eq_refl).
Defined.

Lemma traverse_throws {A B} (f : A -> result B) (l : list A) (e : exn) :
  (forall x, (exists v, f x = Ok v) \/ f x = Throw TypeError) ->
  traverse f l = Throw e -> e = TypeError.
Proof.
  intros Hf; induction l as [|x l IH]; simpl; [discriminate|].
  destruct (Hf x) as [(v & ->) | ->]; simpl.
  - destruct (traverse f l); simpl; [discriminate|].
    intros H; apply IH; inversion H; reflexivity.
  - intros H; inversion H; reflexivity.
Qed.

Lemma get_cases (v : value) (k : string) :
  (exists x, get v k = Ok x) \/ get v k = Throw TypeError.
Proof.
  destruct v; simpl; auto; try (left; eexists; reflexivity).
  destruct (lookup k props); left; eexists; reflexivity.
Qed.

Lemma action_card_cases (a : value) :
  (exists v, P2Interactive.action_card a = Ok v)
  \/ P2Interactive.action_card a = Throw TypeError.
Proof.
  unfold P2Interactive.action_card.
  destruct (get_cases a "id") as [(x & Hx) | Hx]; rewrite Hx; simpl; auto.
  destruct (get_total a "id" "summary" x Hx) as (y & ->); simpl.
  left; eexists; reflexivity.
Qed.

Lemma chat_file_details_cases (f : value) :
  (exists v, P2Interactive.file_details f = Ok v)
  \/ P2Interactive.file_details f = Throw TypeError.
Proof.
  unfold P2Interactive.file_details.
  destruct (get_cases f "path") as [(x & Hx) | Hx]; rewrite Hx; simpl; auto.
  destruct (get_total f "path" "patch" x Hx) as (y & ->); simpl.
  left; eexists; reflexivity.
Qed.

Lemma optional_map_throws {H} (xs : value) (f : value -> result (React.node H))
      (e : exn) :
  (forall x, (exists v, f x = Ok v) \/ f x = Throw TypeError) ->
  React.optional_map xs f = Throw e -> e = TypeError.
Proof.
  intros Hf; unfold React.optional_map.
  destruct xs; simpl; try discriminate;
    try (intros E; inversion E; reflexivity).
  destruct (traverse f items) eqn:E; simpl; [discriminate|].
  intros E'; inversion E'; subst; exact (traverse_throws f items _ Hf E).
Qed.

(** Whatever the markup of a chat entry throws is a [TypeError]. *)
Lemma message_throws (m : value) (e : exn) :
  P2Interactive.message m = Throw e -> e = TypeError.
Proof.
  unfold P2Interactive.message, P2Interactive.role_line, React.when.
  destruct (get_cases m "role") as [(role & Hrole) | Hrole]; rewrite Hrole; simpl.
  2:{ intros H; inversion H; reflexivity. }
  destruct (get_total m "role" "text" role Hrole) as (text & ->).
  destruct (get_total m "role" "type" role Hrole) as (ty & ->).
  destruct (get_total m "role" "actions" role Hrole) as (actions & ->).
  destruct (get_total m "role" "files" role Hrole) as (files & ->).
  destruct (get_total m "role" "choices" role Hrole) as (choices & ->).
  assert (Hline :
            forall e0,
              (if truthy role
               then rbind (toUpperCase role)
                      (fun shout =>
                         rbind (Ok text)
                           (fun text0 =>
                              Ok (P2Interactive.el "div"
                                    [P2Interactive.el "b" [React.Expr (Str shout)];
                                     React.Text ": "; React.Expr text0])))
               else Ok (React.Expr role)) = Throw e0 -> e0 = TypeError).
  { intros e0; destruct (truthy role); [|discriminate].
    destruct role; simpl; try discriminate; intros H; inversion H; reflexivity. }
  match goal with
  | |- rbind ?line _ = _ -> _ =>
      destruct line as [c_role|e0] eqn:Eline; simpl;
      [clear Hline Eline | intros H; inversion H; subst; apply Hline; reflexivity]
  end.
  destruct (is_str ty "proposal"); simpl.
  - destruct (React.optional_map actions P2Interactive.action_card) eqn:E1; simpl.
    + destruct (is_str ty "diff"); simpl.
      * destruct (React.optional_map files P2Interactive.file_details) eqn:E2; simpl.
        -- destruct (is_str ty "question"); simpl; [|discriminate].
           destruct (React.optional_map choices P2Interactive.choice_button) eqn:E3;
             simpl; [discriminate|].
           intros H; inversion H; subst.
           eapply optional_map_throws; [|exact E3].
           intros x; left; eexists; reflexivity.
        -- intros H; inversion H; subst.
           eapply optional_map_throws; [|exact E2].
           apply chat_file_details_cases.
      * destruct (is_str ty "question"); simpl; [|discriminate].
        destruct (React.optional_map choices P2Interactive.choice_button) eqn:E3;
          simpl; [discriminate|].
        intros H; inversion H; subst.
        eapply optional_map_throws; [|exact E3].
        intros x; left; eexists; reflexivity.
    + intros H; inversion H; subst.
      eapply optional_map_throws; [|exact E1].
      apply action_card_cases.
  - destruct (is_str ty "diff"); simpl.
    + destruct (React.optional_map files P2Interactive.file_details) eqn:E2; simpl.
      * destruct (is_str ty "question"); simpl; [|discriminate].
        destruct (React.optional_map choices P2Interactive.choice_button) eqn:E3;
          simpl; [discriminate|].
        intros H; inversion H; subst.
        eapply optional_map_throws; [|exact E3].
        intros x; left; eexists; reflexivity.
      * intros H; inversion H; subst.
        eapply optional_map_throws; [|exact E2].
        apply chat_file_details_cases.
    + destruct (is_str ty "question"); simpl; [|discriminate].
      destruct (React.optional_map choices P2Interactive.choice_button) eqn:E3;
        simpl; [discriminate|].
      intros H; inversion H; subst.
      eapply optional_map_throws; [|exact E3].
      intros x; left; eexists; reflexivity.
Qed.

Lemma messages_with_null (before after : list value) :
  traverse P2Interactive.message (before ++ Null :: after) = Throw TypeError.
Proof.
  induction before as [|v before IH]; simpl; [reflexivity|].
  destruct (P2Interactive.message v) as [r|e] eqn:E; simpl.
  - rewrite IH; reflexivity.
  - rewrite (message_throws _ _ E); reflexivity.
Qed.

(** X24: the interactive page does not survive a [null] frame either.  On
    a page that shows its session, a frame on the open socket that parses
    to [null] is handed to [onMsg] without complaint and appended to the
    chat; the next render reads [m.role] on it and the page is taken down. *)
Theorem null_frame_unmounts_chat (c : P2Interactive.t) (w : WebSocket.t)
        (data : string) (session : value) (log : list value) (typed : string) :
  P2Interactive.wsRef c = Some w ->
  WebSocket.state w = WebSocket.OPEN ->
  React.reduce (React.state (P2Interactive.sessionId c))
               (React.queue (P2Interactive.sessionId c)) = Ok session ->
  truthy session = true ->
  React.reduce (React.state (P2Interactive.chat c))
               (React.queue (P2Interactive.chat c)) = Ok log ->
  React.reduce (React.state (P2Interactive.input c))
               (React.queue (P2Interactive.input c)) = Ok typed ->
  JSON.parse data = Ok Null ->
  fst (P2Interactive.on_net None (WebSocket.Frame data) c) = Ok tt
  /\ P2Interactive.render (snd (P2Interactive.on_net None (WebSocket.Frame data) c))
     = P2Interactive.Unmounted TypeError.
Proof.
  intros Hw Hopen Hs Ht Hc Hi Hparse.
  rewrite (frame_on_open c w data Hw Hopen).
  unfold ws.onmessage, bind, lift; rewrite Hparse; simpl.
  split; [reflexivity|].
  unfold P2Interactive.render, React.render; simpl.
  rewrite Hs, Hi, reduce_app, Hc; simpl.
  unfold P2Interactive.markup; rewrite Ht.
  unfold P2Interactive.chat_panel.
  pose proof (messages_with_null log []) as H.
  unfold P2Interactive.view in *; rewrite H; reflexivity.
Qed.

Lemma null_frame_unmounts_chat_witness :
  JSON.parse "null" = Ok Null
  /\ P2Interactive.render
       (snd (P2Interactive.on_net None (WebSocket.Frame "null") Sample.opened))
     = P2Interactive.Unmounted TypeError.
Proof.
  split; [vm_compute; reflexivity|].
  refine (proj2 (null_frame_unmounts_chat Sample.opened
                   (WebSocket.mk "wss://mojo.example/api/p2/ws/s1" WebSocket.OPEN [])
                   "null" (Str "s1") [P2Interactive.greeting (Str "s1")] "hi"
                   eq_refl eq_refl eq_refl eq_refl eq_refl eq_refl _)).
  vm_compute; reflexivity.
Defined.

(** X25: no session, no socket.  When the create-session call throws (a
    status outside 200-299, a body that is not JSON, a rejected fetch) or
    returns [null], [onStart] of the interactive page throws the same,
    uncaught, and the page is exactly as it was: no session id is set, no
    socket is opened and the chat is not touched. *)
Theorem failed_session_opens_nothing (location : ws.Location)
        (fetch : Fetch.network) (c : P2Interactive.t) (e : exn) :
  rbind (api.p2CreateSession fetch
           (Obj [("appName", Str (P2Interactive.appName c));
                 ("description", Str (P2Interactive.desc c))]))
        (fun created => get created "session_id") = Throw e ->
  P2Interactive.onStart location fetch c = (Throw e, c).
Proof.
  unfold P2Interactive.onStart, P2Interactive.connect, bind, gets, lift; simpl.
  destruct (api.p2CreateSession fetch _) as [created|e0]; simpl.
  - destruct (get created "session_id"); simpl; [discriminate|].
    intros H; inversion H; reflexivity.
  - intros H; inversion H; reflexivity.
Qed.

Lemma failed_session_opens_nothing_witness :
  rbind (api.p2CreateSession Sample.bad_input_400
           (Obj [("appName", Str (P2Interactive.appName P2Interactive.initial));
                 ("description", Str (P2Interactive.desc P2Interactive.initial))]))
        (fun created => get created "session_id") = Throw (Error "bad input")
  /\ P2Interactive.onStart Sample.location Sample.bad_input_400 P2Interactive.initial
     = (Throw (Error "bad input"), P2Interactive.initial).
Proof.
  split; [vm_compute; reflexivity|].
  apply failed_session_opens_nothing; vm_compute; reflexivity.
Defined.



(** ** The render after a start (P1Run.tsx) *)



